(** * Resource metadata normalizer of the SAM CLI

    A shallow embedding of [samcli/lib/samlib/resource_metadata_normalizer.py]
    and the properties of [ResourceMetadataNormalizer.normalize] and
    [ResourceMetadataNormalizer.get_resource_id].

    Conventions of the embedding:
    - a template document is a tree of [value]s, as a JSON or YAML parser
      builds it: [None], booleans, integers, strings, lists and dicts with
      string keys (floats are left out: at every point where the normalizer
      inspects a value they behave as integers do, neither a [str] nor a
      [dict]);
    - a Python [str] is a [string] whose characters are the code points
      U+0000 to U+00FF;
    - a Python [dict] is an association list in insertion order (the order
      [json.dumps] and [items()] follow); Python keeps its keys unique;
    - a raised exception is the [Raise] branch of [result];
    - records handed to the logger are collected in a list, oldest first. *)

From Stdlib Require Import String Ascii List ZArith Bool Arith Lia.
From Stdlib Require Import DecimalString.
Import ListNotations.
Open Scope list_scope.
Open Scope string_scope.

(** ** Exceptions *)

Inductive exn : Set :=
| AttributeError
| TypeError
| IndexError.

Inductive result (A : Type) : Type :=
| Ok (a : A)
| Raise (e : exn).

Arguments Ok {A} a.
Arguments Raise {A} e.

Definition bind {A B : Type} (m : result A) (k : A -> result B) : result B :=
  match m with
  | Ok a => k a
  | Raise e => Raise e
  end.

Notation "x <- m ;; k" := (bind m (fun x => k))
  (at level 61, m at next level, right associativity).
Notation "' p <- m ;; k" := (bind m (fun x => match x with p => k end))
  (at level 61, p pattern, m at next level, right associativity).

(** ** Python strings *)

Module PyStr.

Definition dquote : ascii := "034"%char.
Definition backslash : ascii := "092"%char.

(** [s.split(c)] for a one-character separator. *)
Fixpoint split (c : ascii) (s : string) : list string :=
  match s with
  | EmptyString => [EmptyString]
  | String a s' =>
      if Ascii.eqb a c then EmptyString :: split c s'
      else match split c s' with
           | [] => [String a EmptyString]
           | h :: t => String a h :: t
           end
  end.

(** [sep.join(l)] *)
Fixpoint join (sep : string) (l : list string) : string :=
  match l with
  | [] => EmptyString
  | [x] => x
  | x :: rest => x ++ sep ++ join sep rest
  end.

Definition startswith (s p : string) : bool := prefix p s.

Definition endswith (s suffix : string) : bool :=
  (String.length suffix <=? String.length s)%nat
  && String.eqb
       (substring (String.length s - String.length suffix)
                  (String.length suffix) s)
       suffix.

(** [s[:-n]] for [n > 0] *)
Definition drop_last (n : nat) (s : string) : string :=
  substring 0 (String.length s - n) s.

(** [needle in hay] *)
Fixpoint contains (hay needle : string) : bool :=
  prefix needle hay
  || match hay with
     | EmptyString => false
     | String _ hay' => contains hay' needle
     end.

(** [c.lower()] on U+0000..U+00FF: the capitals A-Z, and U+00C0..U+00DE
    other than the multiplication sign U+00D7. *)
Definition lower_char (c : ascii) : ascii :=
  let n := nat_of_ascii c in
  if ((65 <=? n) && (n <=? 90)
      || (192 <=? n) && (n <=? 222) && negb (n =? 215))%nat
  then ascii_of_nat (n + 32)
  else c.

Fixpoint lower (s : string) : string :=
  match s with
  | EmptyString => EmptyString
  | String c s' => String (lower_char c) (lower s')
  end.

End PyStr.

(** ** pathlib: pure POSIX paths *)

Module PurePath.

Record t : Set := mk { root : string; parts : list string }.

Definition is_component (p : string) : bool :=
  negb (String.eqb p "") && negb (String.eqb p ".").

(** The root is "/" for one leading slash or three and more, "//" for
    exactly two; empty and "." components are dropped. *)
Definition parse (s : string) : t :=
  {| root := if prefix "//" s && negb (prefix "///" s) then "//"
             else if prefix "/" s then "/" else "";
     parts := filter is_component (PyStr.split "/" s) |}.

(** [p.joinpath(q)]: an absolute [q] replaces [p] *)
Definition joinpath (p q : t) : t :=
  if String.eqb (root q) "" then {| root := root p; parts := (parts p ++ parts q)%list |}
  else q.

(** [Path(a, b)] *)
Definition of_segments (a b : string) : t := joinpath (parse a) (parse b).

Definition name (p : t) : string := last (parts p) "".

Definition parent (p : t) : t :=
  {| root := root p; parts := removelast (parts p) |}.

(** [p.stem]: the name up to its last dot, when that dot is neither the
    first nor the last character of the name. *)
Definition stem (p : t) : string :=
  let pieces := PyStr.split "." (name p) in
  let before := PyStr.join "." (removelast pieces) in
  let after := last pieces "" in
  if (2 <=? List.length pieces)%nat
     && negb (String.eqb before "") && negb (String.eqb after "")
  then before else name p.

Definition to_string (p : t) : string :=
  match parts p with
  | [] => if String.eqb (root p) "" then "." else root p
  | _ => root p ++ PyStr.join "/" (parts p)
  end.

End PurePath.

(** ** Template documents *)

Unset Elimination Schemes.

Inductive value : Type :=
| VNone
| VBool (b : bool)
| VInt (z : Z)
| VStr (s : string)
| VList (l : list value)
| VDict (d : list (string * value)).

Set Elimination Schemes.

Definition dict : Type := list (string * value).

(** Truth value of an object in a condition. *)
Definition truthy (v : value) : bool :=
  match v with
  | VNone => false
  | VBool b => b
  | VInt z => negb (Z.eqb z 0)
  | VStr s => negb (String.eqb s "")
  | VList l => match l with [] => false | _ => true end
  | VDict d => match d with [] => false | _ => true end
  end.

(** [v == s] for a string constant [s]: only an equal [str] compares equal. *)
Definition is_str (s : string) (v : value) : bool :=
  match v with
  | VStr s' => String.eqb s' s
  | _ => false
  end.

Module PyDict.

Fixpoint get (k : string) (d : dict) : option value :=
  match d with
  | [] => None
  | (k', v) :: d' => if String.eqb k' k then Some v else get k d'
  end.

(** [d[k] = v]: an existing key keeps its position, a new key goes last. *)
Fixpoint set (k : string) (v : value) (d : dict) : dict :=
  match d with
  | [] => [(k, v)]
  | (k', v') :: d' =>
      if String.eqb k' k then (k', v) :: d' else (k', v') :: set k v d'
  end.

Definition mem (k : string) (d : dict) : bool :=
  match get k d with Some _ => true | None => false end.

Definition keys (d : dict) : list string := map fst d.

(** [for key, val in updated.items(): d[key] = val] *)
Definition update (d updated : dict) : dict :=
  fold_left (fun acc kv => set (fst kv) (snd kv) acc) updated d.

End PyDict.

(** [obj.get(k, default)]: only a dict has the method. *)
Definition py_get (obj : value) (k : string) (default : value) : result value :=
  match obj with
  | VDict d => Ok (match PyDict.get k d with Some v => v | None => default end)
  | _ => Raise AttributeError
  end.

(** [obj[k] = v]: no other object of a document takes a string subscript. *)
Definition py_setitem (obj : value) (k : string) (v : value) : result value :=
  match obj with
  | VDict d => Ok (VDict (PyDict.set k v d))
  | _ => Raise TypeError
  end.

(** [obj.items()] *)
Definition py_items (obj : value) : result dict :=
  match obj with
  | VDict d => Ok d
  | _ => Raise AttributeError
  end.

(** [s in obj] for a string [s]: key membership in a dict, substring in a
    [str], element in a list; the other objects are not iterable. *)
Definition py_contains (obj : value) (s : string) : result bool :=
  match obj with
  | VDict d => Ok (PyDict.mem s d)
  | VStr t => Ok (PyStr.contains t s)
  | VList l => Ok (existsb (is_str s) l)
  | _ => Raise TypeError
  end.

(** [obj.split(sep)]: a method of [str] alone. *)
Definition py_split (obj : value) (sep : ascii) : result (list string) :=
  match obj with
  | VStr s => Ok (PyStr.split sep s)
  | _ => Raise AttributeError
  end.

(** [obj.get(k, {})] returns the child stored under [k], which later
    assignments mutate in place, or a new dict that nothing refers to. *)
Inductive place : Set :=
| Attached
| Detached.

Definition py_get_dict (obj : value) (k : string) : result (place * value) :=
  match obj with
  | VDict d =>
      Ok (match PyDict.get k d with
          | Some v => (Attached, v)
          | None => (Detached, VDict [])
          end)
  | _ => Raise AttributeError
  end.

(** The state of [obj] once the dict obtained by [py_get_dict obj k] has
    been mutated into [child]. *)
Definition commit (pl : place) (k : string) (child : value) (obj : value) : value :=
  match pl, obj with
  | Attached, VDict d => VDict (PyDict.set k child d)
  | _, _ => obj
  end.

(** ** json.dumps with its default arguments *)

Module Json.

Definition hex_digit (n : nat) : ascii :=
  if (n <? 10)%nat then ascii_of_nat (48 + n) else ascii_of_nat (87 + n).

(** [ensure_ascii]: backslash and quote are escaped, the printable ASCII
    characters stand for themselves, the others become a short escape or
    a four-digit [\u] escape. *)
Definition escape_char (c : ascii) : string :=
  let n := nat_of_ascii c in
  if Ascii.eqb c PyStr.dquote then String PyStr.backslash (String PyStr.dquote "")
  else if Ascii.eqb c PyStr.backslash then String PyStr.backslash (String PyStr.backslash "")
  else if (n =? 10)%nat then String PyStr.backslash "n"
  else if (n =? 13)%nat then String PyStr.backslash "r"
  else if (n =? 9)%nat then String PyStr.backslash "t"
  else if (n =? 8)%nat then String PyStr.backslash "b"
  else if (n =? 12)%nat then String PyStr.backslash "f"
  else if ((32 <=? n) && (n <=? 126))%nat then String c ""
  else String PyStr.backslash
         (String "u" (String "0" (String "0"
            (String (hex_digit (n / 16)) (String (hex_digit (n mod 16)) ""))))).

Fixpoint escape (s : string) : string :=
  match s with
  | EmptyString => EmptyString
  | String c s' => escape_char c ++ escape s'
  end.

Definition quote (s : string) : string :=
  String PyStr.dquote (escape s ++ String PyStr.dquote "").

Definition of_int (z : Z) : string := NilZero.string_of_int (Z.to_int z).

Fixpoint dumps (v : value) : string :=
  match v with
  | VNone => "null"
  | VBool true => "true"
  | VBool false => "false"
  | VInt z => of_int z
  | VStr s => quote s
  | VList l => "[" ++ PyStr.join ", " (map dumps l) ++ "]"
  | VDict d =>
      "{" ++ PyStr.join ", "
               (map (fun kv => quote (fst kv) ++ ": " ++ dumps (snd kv)) d)
          ++ "}"
  end.

End Json.

(** ** The normalizer *)

Definition RESOURCES_KEY := "Resources".
Definition PROPERTIES_KEY := "Properties".
Definition METADATA_KEY := "Metadata".

Definition RESOURCE_CDK_PATH_METADATA_KEY := "aws:cdk:path".
Definition ASSET_PATH_METADATA_KEY := "aws:asset:path".
Definition ASSET_PROPERTY_METADATA_KEY := "aws:asset:property".

Definition IMAGE_ASSET_PROPERTY := "Code.ImageUri".
Definition ASSET_DOCKERFILE_PATH_KEY := "aws:asset:dockerfile-path".
Definition ASSET_DOCKERFILE_BUILD_ARGS_KEY := "aws:asset:docker-build-args".

Definition SAM_RESOURCE_ID_KEY := "SamResourceId".
Definition SAM_IS_NORMALIZED := "SamNormalized".
Definition SAM_METADATA_DOCKERFILE_KEY := "Dockerfile".
Definition SAM_METADATA_DOCKER_CONTEXT_KEY := "DockerContext".
Definition SAM_METADATA_DOCKER_BUILD_ARGS_KEY := "DockerBuildArgs".

Definition ASSET_BUNDLED_METADATA_KEY := "aws:asset:is-bundled".
Definition SAM_METADATA_SKIP_BUILD_KEY := "SkipBuild".

Definition NESTED_STACK_TYPE := "AWS::CloudFormation::Stack".
Definition NESTED_STACK_SUFFIX := ".NestedStack".

(** Records passed to [LOG]: the [info] of [_replace_property], with the
    logical id it names, and the [warning] of [get_resource_id], with the
    construct path it names. *)
Inductive log_record : Set :=
| LogIgnoringMetadata (logical_id : string)
| LogUndetectedId (cdk_path : string).

(** [Path(obj)]: anything but a [str] is rejected. *)
Definition py_path (obj : value) : result string :=
  match obj with
  | VStr s => Ok s
  | _ => Raise TypeError
  end.

(** [_extract_image_asset_metadata]: the default of the dockerfile lookup
    is [None], the empty string being the second argument of [Path]. *)
Definition _extract_image_asset_metadata (metadata : value) : result dict :=
  a <- py_get metadata ASSET_PATH_METADATA_KEY (VStr "") ;;
  a <- py_path a ;;
  let asset_path := PurePath.parse a in
  f <- py_get metadata ASSET_DOCKERFILE_PATH_KEY VNone ;;
  f <- py_path f ;;
  let dockerfile_path := PurePath.of_segments f "" in
  let dockerfile := PurePath.stem dockerfile_path in
  let path_from_asset := PurePath.parent dockerfile_path in
  let dockerfile_context :=
    PurePath.to_string (PurePath.joinpath asset_path path_from_asset) in
  build_args <- py_get metadata ASSET_DOCKERFILE_BUILD_ARGS_KEY (VDict []) ;;
  Ok [ (SAM_METADATA_DOCKERFILE_KEY, VStr dockerfile);
       (SAM_METADATA_DOCKER_CONTEXT_KEY, VStr dockerfile_context);
       (SAM_METADATA_DOCKER_BUILD_ARGS_KEY, build_args) ].

(** [_update_resource_metadata]: item assignment on [metadata]. *)
Definition _update_resource_metadata (metadata : value) (updated_values : dict)
  : result value :=
  fold_left (fun acc kv => m <- acc ;; py_setitem m (fst kv) (snd kv))
            updated_values (Ok metadata).

(** The loop of [_replace_property] and the assignment after it, as the
    final state of the dict [target_dict] first names.  Each key but the
    last is bound to a new empty dict, which the rest of the loop fills. *)
Fixpoint assign_path (nested_keys : list string) (property_value : value)
    (target_dict : value) : result value :=
  match nested_keys with
  | [] => Raise IndexError
  | [key] => py_setitem target_dict key property_value
  | key :: rest =>
      _ <- py_setitem target_dict key (VDict []) ;;
      inner <- assign_path rest property_value (VDict []) ;;
      py_setitem target_dict key inner
  end.

(** [_replace_property]: the resource afterwards, and what was logged. *)
Definition _replace_property (property_key property_value resource : value)
    (logical_id : string) : result (value * list log_record) :=
  if truthy property_key && truthy property_value then
    nested_keys <- py_split property_key "." ;;
    ' (pl, target_dict) <- py_get_dict resource PROPERTIES_KEY ;;
    target_dict <- assign_path nested_keys property_value target_dict ;;
    Ok (commit pl PROPERTIES_KEY target_dict resource, [])
  else if truthy property_key || truthy property_value then
    Ok (resource, [LogIgnoringMetadata logical_id])
  else Ok (resource, []).

(** The asset rewrite of one resource: the guarded block of the loop body
    of [normalize].  [resource_metadata] is the current state of the dict
    the loop body obtained from the resource. *)
Definition rewrite_asset (logical_id : string) (resource resource_metadata : value)
  : result (value * value * list log_record) :=
  asset_property <- py_get resource_metadata ASSET_PROPERTY_METADATA_KEY VNone ;;
  ' (resource_metadata, asset_path) <-
      (if is_str IMAGE_ASSET_PROPERTY asset_property then
         asset_metadata <- _extract_image_asset_metadata resource_metadata ;;
         resource_metadata <- _update_resource_metadata resource_metadata asset_metadata ;;
         Ok (resource_metadata, VStr (PyStr.lower logical_id))
       else
         asset_path <- py_get resource_metadata ASSET_PATH_METADATA_KEY VNone ;;
         Ok (resource_metadata, asset_path)) ;;
  ' (resource, logs) <- _replace_property asset_property asset_path resource logical_id ;;
  resource_metadata <-
      (if truthy asset_path && truthy asset_property
       then py_setitem resource_metadata SAM_IS_NORMALIZED (VBool true)
       else Ok resource_metadata) ;;
  Ok (resource, resource_metadata, logs).

(** One iteration of the loop over [resources.items()]. *)
Definition normalize_resource (logical_id : string) (resource : value)
  : result (value * list log_record) :=
  ' (pl, resource_metadata) <- py_get_dict resource METADATA_KEY ;;
  is_normalized <- py_get resource_metadata SAM_IS_NORMALIZED (VBool false) ;;
  ' (resource, resource_metadata, logs) <-
      (if negb (truthy is_normalized)
       then rewrite_asset logical_id resource resource_metadata
       else Ok (resource, resource_metadata, [])) ;;
  skip_build <- py_get resource_metadata ASSET_BUNDLED_METADATA_KEY (VBool false) ;;
  resource_metadata <-
      (if truthy skip_build
       then _update_resource_metadata resource_metadata
              [(SAM_METADATA_SKIP_BUILD_KEY, VBool true)]
       else Ok resource_metadata) ;;
  Ok (commit pl METADATA_KEY resource_metadata resource, logs).

(** The loop over [resources.items()]: the resources afterwards, in their
    order, and the log. *)
Fixpoint normalize_resources (resources : dict) : result (dict * list log_record) :=
  match resources with
  | [] => Ok ([], [])
  | (logical_id, resource) :: rest =>
      ' (resource, logs) <- normalize_resource logical_id resource ;;
      ' (rest, logs') <- normalize_resources rest ;;
      Ok ((logical_id, resource) :: rest, (logs ++ logs')%list)
  end.

(** The needle of the textual scan, ["Ref": "<parameter_name>"]. *)
Definition ref_needle (parameter_name : string) : string :=
  Json.quote "Ref" ++ ": " ++ String PyStr.dquote (parameter_name ++ String PyStr.dquote "").

(** One iteration of the loop over [parameters.items()]. *)
Definition normalize_parameter (resources_as_string parameter_name : string)
    (parameter_value : value) : result value :=
  if PyStr.startswith parameter_name "AssetParameters" then
    has_default <- py_contains parameter_value "Default" ;;
    if negb has_default then
      type <- py_get parameter_value "Type" (VStr "") ;;
      if is_str "String" type
         && negb (PyStr.contains resources_as_string (ref_needle parameter_name))
      then py_setitem parameter_value "Default" (VStr " ")
      else Ok parameter_value
    else Ok parameter_value
  else Ok parameter_value.

Fixpoint normalize_parameters_loop (resources_as_string : string) (parameters : dict)
  : result dict :=
  match parameters with
  | [] => Ok []
  | (parameter_name, parameter_value) :: rest =>
      parameter_value <-
        normalize_parameter resources_as_string parameter_name parameter_value ;;
      rest <- normalize_parameters_loop resources_as_string rest ;;
      Ok ((parameter_name, parameter_value) :: rest)
  end.

Section Normalize.

(** [samcli.lib.iac.cdk.utils.is_cdk_project], a predicate on the whole
    template that lives outside this module. *)
Variable is_cdk_project : value -> bool.

(** [normalize]: the template afterwards, and what was logged. *)
Definition normalize (template_dict : value) (normalize_parameters : bool)
  : result (value * list log_record) :=
  ' (pl, resources) <- py_get_dict template_dict RESOURCES_KEY ;;
  items <- py_items resources ;;
  ' (items, logs) <- normalize_resources items ;;
  let resources := VDict items in
  let template_dict := commit pl RESOURCES_KEY resources template_dict in
  if normalize_parameters && is_cdk_project template_dict then
    let resources_as_string := Json.dumps resources in
    ' (pl, parameters) <- py_get_dict template_dict "Parameters" ;;
    items <- py_items parameters ;;
    items <- normalize_parameters_loop resources_as_string items ;;
    Ok (commit pl "Parameters" (VDict items) template_dict, logs)
  else Ok (template_dict, logs).

End Normalize.

(** [get_resource_id]: the id, and what was logged. *)
Definition get_resource_id (resource_properties : value) (logical_id : string)
  : result (string * list log_record) :=
  resource_metadata <- py_get resource_properties "Metadata" (VDict []) ;;
  customer_defined_id <- py_get resource_metadata SAM_RESOURCE_ID_KEY VNone ;;
  match customer_defined_id with
  | VStr (String c s) => Ok (String c s, [])
  | _ =>
      resource_cdk_path <- py_get resource_metadata RESOURCE_CDK_PATH_METADATA_KEY VNone ;;
      match resource_cdk_path with
      | VStr (String c s) =>
          let resource_cdk_path := String c s in
          let cdk_path_partitions := PyStr.split "/" resource_cdk_path in
          if (List.length cdk_path_partitions <? 2)%nat then
            Ok (logical_id, [LogUndetectedId resource_cdk_path])
          else
            let cdk_resource_id :=
              nth (List.length cdk_path_partitions - 2) cdk_path_partitions "" in
            type <- py_get resource_properties "Type" (VStr "") ;;
            Ok (if is_str NESTED_STACK_TYPE type
                   && PyStr.endswith cdk_resource_id NESTED_STACK_SUFFIX
                then PyStr.drop_last (String.length NESTED_STACK_SUFFIX) cdk_resource_id
                else cdk_resource_id, [])
      | _ => Ok (logical_id, [])
      end
  end.

(** ** Readers used to state the properties *)

(** The dict under [k] in a template. *)
Definition section_of (k : string) (template_dict : value) : option dict :=
  match template_dict with
  | VDict t =>
      match PyDict.get k t with
      | Some (VDict d) => Some d
      | _ => None
      end
  | _ => None
  end.

Definition resources_of : value -> option dict := section_of RESOURCES_KEY.
Definition parameters_of : value -> option dict := section_of "Parameters".

(** The resource declared under [logical_id]. *)
Definition resource_of (template_dict : value) (logical_id : string) : option value :=
  match resources_of template_dict with
  | Some rs => PyDict.get logical_id rs
  | None => None
  end.

(** The parameter declared under [parameter_name]. *)
Definition parameter_of (template_dict : value) (parameter_name : string) : option value :=
  match parameters_of template_dict with
  | Some ps => PyDict.get parameter_name ps
  | None => None
  end.

(** What [json.dumps] yields for the resources of a template, an absent
    [Resources] standing for the empty dict. *)
Definition resources_as_string (template_dict : value) : string :=
  Json.dumps (VDict (match resources_of template_dict with
                     | Some rs => rs
                     | None => []
                     end)).

(** [obj[k]] for reading; [None] where Python raises. *)
Definition field (k : string) (obj : value) : option value :=
  match obj with
  | VDict d => PyDict.get k d
  | _ => None
  end.

(** Following a list of keys through nested dicts. *)
Fixpoint follow (keys : list string) (obj : value) : option value :=
  match keys with
  | [] => Some obj
  | k :: rest =>
      match field k obj with
      | Some child => follow rest child
      | None => None
      end
  end.

(** The metadata [get_resource_id] and [normalize] read from a resource:
    the dict under [Metadata], an empty one when the key is absent. *)
Definition metadata_of (resource : value) : option dict :=
  match resource with
  | VDict d =>
      match PyDict.get METADATA_KEY d with
      | Some (VDict md) => Some md
      | Some _ => None
      | None => Some []
      end
  | _ => None
  end.

Definition lookup (k : string) (default : value) (d : dict) : value :=
  match PyDict.get k d with Some v => v | None => default end.

(** The asset target property locator of a resource's metadata. *)
Definition asset_property_of (md : dict) : value :=
  lookup ASSET_PROPERTY_METADATA_KEY VNone md.

(** The asset path [normalize] substitutes: the lower-cased logical id
    for an image asset, the recorded path otherwise. *)
Definition asset_path_of (logical_id : string) (md : dict) : value :=
  if is_str IMAGE_ASSET_PROPERTY (asset_property_of md)
  then VStr (PyStr.lower logical_id)
  else lookup ASSET_PATH_METADATA_KEY VNone md.

(** The normalized marker, as [normalize] tests it. *)
Definition marked (md : dict) : bool :=
  truthy (lookup SAM_IS_NORMALIZED (VBool false) md).

(** The customer-defined id, when it is a non-empty string. *)
Definition customer_id (md : dict) : option string :=
  match PyDict.get SAM_RESOURCE_ID_KEY md with
  | Some (VStr (String c s)) => Some (String c s)
  | _ => None
  end.

(** The construct path, when it is a non-empty string. *)
Definition construct_path (md : dict) : option string :=
  match PyDict.get RESOURCE_CDK_PATH_METADATA_KEY md with
  | Some (VStr (String c s)) => Some (String c s)
  | _ => None
  end.

(** The nested-stack test of [get_resource_id]. *)
Definition nested_stack_marker (resource : value) (segment : string) : bool :=
  is_str NESTED_STACK_TYPE (lookup "Type" (VStr "") (match resource with VDict d => d | _ => [] end))
  && PyStr.endswith segment NESTED_STACK_SUFFIX.

(** The dict a locator's tail builds around the value: one single-key
    dict per remaining segment. *)
Fixpoint chain (keys : list string) (v : value) : value :=
  match keys with
  | [] => v
  | k :: rest => VDict [(k, chain rest v)]
  end.

(** A log record that names the resource [logical_id]. *)
Definition names_resource (logical_id : string) (r : log_record) : bool :=
  match r with
  | LogIgnoringMetadata l => String.eqb l logical_id
  | LogUndetectedId _ => false
  end.

(** [needle] occurs in [hay]. *)
Definition occurs (needle hay : string) : Prop :=
  exists pre post, hay = pre ++ needle ++ post.

(** [{"Ref": name}] occurs somewhere in a document, possibly next to
    other keys of the same dict. *)
Inductive refers_to (name : string) : value -> Prop :=
| refers_here d :
    In ("Ref", VStr name) d -> refers_to name (VDict d)
| refers_in_dict d k v :
    In (k, v) d -> refers_to name v -> refers_to name (VDict d)
| refers_in_list l v :
    In v l -> refers_to name v -> refers_to name (VList l).

(** Strings that [json.dumps] writes between the quotes as they are. *)
Definition json_plain (s : string) : Prop := Json.escape s = s.

(** ** One loop iteration in closed form

    The result of [normalize_resource] on a resource whose [Metadata] is
    the dict [md], written without the intermediate aliases;
    [normalize_resource_closed_form] proves the two equal. *)

(** The skip-build propagation on a metadata dict. *)
Definition propagate_skip_build (md : dict) : dict :=
  if truthy (lookup ASSET_BUNDLED_METADATA_KEY (VBool false) md)
  then PyDict.set SAM_METADATA_SKIP_BUILD_KEY (VBool true) md
  else md.

(** The metadata once the image values are merged in, when the locator
    is the image one. *)
Definition image_base (md : dict) : result dict :=
  if is_str IMAGE_ASSET_PROPERTY (asset_property_of md)
  then asset_metadata <- _extract_image_asset_metadata (VDict md) ;;
       Ok (PyDict.update md asset_metadata)
  else Ok md.

(** [Properties] once [locator] is bound to [v] in it. *)
Definition rewritten_properties (locator : string) (v : value) (properties : dict) : dict :=
  match PyStr.split "." locator with
  | k :: rest => PyDict.set k (chain rest v) properties
  | [] => properties
  end.

Definition with_metadata (md : dict) (resource : dict) : value :=
  VDict (PyDict.set METADATA_KEY (VDict md) resource).

Definition resource_outcome (logical_id : string) (resource md : dict)
  : result (value * list log_record) :=
  if marked md then Ok (with_metadata (propagate_skip_build md) resource, [])
  else
    base <- image_base md ;;
    let locator := asset_property_of md in
    let path := asset_path_of logical_id md in
    if truthy locator && truthy path then
      let md' := propagate_skip_build (PyDict.set SAM_IS_NORMALIZED (VBool true) base) in
      match locator, PyDict.get PROPERTIES_KEY resource with
      | VStr s, None => Ok (with_metadata md' resource, [])
      | VStr s, Some (VDict properties) =>
          Ok (with_metadata md'
                (PyDict.set PROPERTIES_KEY
                   (VDict (rewritten_properties s path properties)) resource), [])
      | VStr s, Some _ => Raise TypeError
      | _, _ => Raise AttributeError
      end
    else
      Ok (with_metadata (propagate_skip_build base) resource,
          if truthy locator || truthy path
          then [LogIgnoringMetadata logical_id] else []).

(** The image values are written under three keys of their own. *)
Definition image_key (k : string) : bool :=
  String.eqb SAM_METADATA_DOCKERFILE_KEY k
  || String.eqb SAM_METADATA_DOCKER_CONTEXT_KEY k
  || String.eqb SAM_METADATA_DOCKER_BUILD_ARGS_KEY k.

(** The template after the loop over the resources. *)
Definition after_resources (t : dict) (rs' : dict) : dict :=
  match PyDict.get RESOURCES_KEY t with
  | Some _ => PyDict.set RESOURCES_KEY (VDict rs') t
  | None => t
  end.

(** The template after the loop over the parameters. *)
Definition after_parameters (t : dict) (ps' : dict) : dict :=
  match PyDict.get "Parameters" t with
  | Some _ => PyDict.set "Parameters" (VDict ps') t
  | None => t
  end.

(** The [Properties] of the resource declared under [logical_id]. *)
Definition properties_of (template_dict : value) (logical_id : string) : option value :=
  match resource_of template_dict logical_id with
  | Some r => field PROPERTIES_KEY r
  | None => None
  end.

(** ** Shapes of documents that [normalize] accepts *)

(** [c in s] for a character. *)
Fixpoint has_char (c : ascii) (s : string) : bool :=
  match s with
  | EmptyString => false
  | String a s' => Ascii.eqb a c || has_char c s'
  end.

Definition is_string (v : value) : bool :=
  match v with VStr _ => true | _ => false end.

Definition is_dict (v : value) : bool :=
  match v with VDict _ => true | _ => false end.

Definition absent_or (p : value -> bool) (o : option value) : bool :=
  match o with Some v => p v | None => true end.

(** Metadata whose locator is absent or a string and which, for the image
    locator, records the asset path as a string when it records one and
    the dockerfile path as a string. *)
Definition well_formed_metadata (md : dict) : bool :=
  absent_or is_string (PyDict.get ASSET_PROPERTY_METADATA_KEY md)
  && (negb (is_str IMAGE_ASSET_PROPERTY (asset_property_of md))
      || absent_or is_string (PyDict.get ASSET_PATH_METADATA_KEY md)
         && is_string (lookup ASSET_DOCKERFILE_PATH_KEY VNone md)).

(** A resource that is a dict, whose [Properties] and [Metadata] are
    dicts when they are there, the latter well formed. *)
Definition well_formed_resource (r : value) : bool :=
  match r with
  | VDict rd =>
      absent_or is_dict (PyDict.get PROPERTIES_KEY rd)
      && absent_or (fun m => match m with
                             | VDict md => well_formed_metadata md
                             | _ => false
                             end) (PyDict.get METADATA_KEY rd)
  | _ => false
  end.

(** A template that is a dict, whose [Resources] is a dict of well-formed
    resources when it is there, and whose [Parameters] is a dict of dicts
    when it is there. *)
Definition well_formed_template (template_dict : value) : bool :=
  match template_dict with
  | VDict t =>
      absent_or (fun rs => match rs with
                           | VDict rs => forallb (fun kv => well_formed_resource (snd kv)) rs
                           | _ => false
                           end) (PyDict.get RESOURCES_KEY t)
      && absent_or (fun ps => match ps with
                              | VDict ps => forallb (fun kv => is_dict (snd kv)) ps
                              | _ => false
                              end) (PyDict.get "Parameters" t)
  | _ => false
  end.

(** ** Sample documents *)

Module Samples.

(** A zip asset on a resource that declares no [Properties]. *)
Definition no_properties : value :=
  VDict [(RESOURCES_KEY, VDict
    [("Function1", VDict
       [("Type", VStr "AWS::Lambda::Function");
        (METADATA_KEY, VDict
           [(ASSET_PROPERTY_METADATA_KEY, VStr "Code.S3Key");
            (ASSET_PATH_METADATA_KEY, VStr "assets/fn.zip")])])])].

(** An image asset whose metadata has no dockerfile path, followed by a
    resource that needs no rewrite. *)
Definition no_dockerfile_path : value :=
  VDict [(RESOURCES_KEY, VDict
    [("Function1", VDict
       [("Type", VStr "AWS::Lambda::Function");
        (PROPERTIES_KEY, VDict []);
        (METADATA_KEY, VDict
           [(ASSET_PROPERTY_METADATA_KEY, VStr IMAGE_ASSET_PROPERTY);
            (ASSET_PATH_METADATA_KEY, VStr "src/")])]);
     ("Bucket1", VDict [("Type", VStr "AWS::S3::Bucket")])])].

Definition image_metadata : dict :=
  [(ASSET_PROPERTY_METADATA_KEY, VStr IMAGE_ASSET_PROPERTY);
   (ASSET_PATH_METADATA_KEY, VStr "src/");
   (ASSET_DOCKERFILE_PATH_KEY, VStr "src/docker/Dockerfile");
   (ASSET_DOCKERFILE_BUILD_ARGS_KEY, VDict [("A", VStr "1")])].

Definition image_function : value :=
  VDict [(RESOURCES_KEY, VDict
    [("MyFunction", VDict
       [("Type", VStr "AWS::Lambda::Function");
        (PROPERTIES_KEY, VDict [("PackageType", VStr "Image")]);
        (METADATA_KEY, VDict image_metadata)])])].

(** A synthesized template: the asset parameter is referenced from the
    property the asset rewrite replaces. *)
Definition cdk_function : value :=
  VDict [("Parameters", VDict
           [("AssetParametersFoo", VDict [("Type", VStr "String")]);
            ("AssetParametersBar", VDict [("Type", VStr "String")])]);
         (RESOURCES_KEY, VDict
           [("Function1", VDict
              [("Type", VStr "AWS::Lambda::Function");
               (PROPERTIES_KEY, VDict
                  [("Code", VDict
                      [("S3Bucket", VDict [("Ref", VStr "AssetParametersFoo")])]);
                   ("Role", VDict [("Ref", VStr "AssetParametersBar")])]);
               (METADATA_KEY, VDict
                  [(ASSET_PATH_METADATA_KEY, VStr "asset.b998895");
                   (ASSET_PROPERTY_METADATA_KEY, VStr "Code")])])])].

(** A zip asset under a property that already holds sibling keys. *)
Definition with_siblings : value :=
  VDict [(RESOURCES_KEY, VDict
    [("Function1", VDict
       [("Type", VStr "AWS::Lambda::Function");
        (PROPERTIES_KEY, VDict
           [("Code", VDict [("S3Bucket", VStr "bucket"); ("S3Key", VStr "old")]);
            ("Runtime", VStr "python3.9")]);
        (METADATA_KEY, VDict
           [(ASSET_PROPERTY_METADATA_KEY, VStr "Code.S3Key");
            (ASSET_PATH_METADATA_KEY, VStr "assets/fn.zip")])])])].

(** An image locator with a dockerfile path and no asset path. *)
Definition image_without_path : value :=
  VDict [(RESOURCES_KEY, VDict
    [("Function1", VDict
       [(PROPERTIES_KEY, VDict []);
        (METADATA_KEY, VDict
           [(ASSET_PROPERTY_METADATA_KEY, VStr IMAGE_ASSET_PROPERTY);
            (ASSET_DOCKERFILE_PATH_KEY, VStr "Dockerfile")])])])].

(** An asset path without a locator on a resource that is already
    marked. *)
Definition marked_path_without_locator : value :=
  VDict [(RESOURCES_KEY, VDict
    [("Function1", VDict
       [(PROPERTIES_KEY, VDict [("Runtime", VStr "python3.9")]);
        (METADATA_KEY, VDict
           [(ASSET_PATH_METADATA_KEY, VStr "assets/fn.zip");
            (SAM_IS_NORMALIZED, VBool true)])])])].

(** An asset path without a locator. *)
Definition path_without_locator : value :=
  VDict [(RESOURCES_KEY, VDict
    [("Function1", VDict
       [(PROPERTIES_KEY, VDict [("Runtime", VStr "python3.9")]);
        (METADATA_KEY, VDict [(ASSET_PATH_METADATA_KEY, VStr "assets/fn.zip")])])])].

Definition nested_stack : value :=
  VDict [("Type", VStr NESTED_STACK_TYPE);
         (METADATA_KEY, VDict
            [(RESOURCE_CDK_PATH_METADATA_KEY,
              VStr "StackA/NestedStackC.NestedStack/Resource")])].

(** The same construct path on a resource of another type. *)
Definition not_a_stack : value :=
  VDict [("Type", VStr "AWS::Lambda::Function");
         (METADATA_KEY, VDict
            [(RESOURCE_CDK_PATH_METADATA_KEY,
              VStr "StackA/NestedStackC.NestedStack/Resource")])].

Definition cdk_function_resource (cdk_path : string) : value :=
  VDict [("Type", VStr "AWS::Lambda::Function");
         (METADATA_KEY, VDict [(RESOURCE_CDK_PATH_METADATA_KEY, VStr cdk_path)])].

Definition with_customer_id : value :=
  VDict [("Type", VStr "AWS::Lambda::Function");
         (METADATA_KEY, VDict
            [(SAM_RESOURCE_ID_KEY, VStr "my-id");
             (RESOURCE_CDK_PATH_METADATA_KEY, VStr "StackA/FuncB/Resource")])].

(** A synthesized template whose asset parameter has a backslash in its
    name and is referenced from a property that no rewrite touches. *)
Definition escaped_name : string :=
  "AssetParameters" ++ String PyStr.backslash "Foo".

Definition escaped_reference : value :=
  VDict [("Parameters", VDict [(escaped_name, VDict [("Type", VStr "String")])]);
         (RESOURCES_KEY, VDict
           [("Bucket1", VDict
              [("Type", VStr "AWS::S3::Bucket");
               (PROPERTIES_KEY, VDict
                  [("BucketName", VDict [("Ref", VStr escaped_name)])])])])].

(** A zip asset that is already bundled. *)
Definition bundled_function : value :=
  VDict [(RESOURCES_KEY, VDict
    [("Function1", VDict
       [("Type", VStr "AWS::Lambda::Function");
        (PROPERTIES_KEY, VDict [("Code", VStr "old"); ("Runtime", VStr "python3.9")]);
        (METADATA_KEY, VDict
           [(ASSET_PATH_METADATA_KEY, VStr "asset.b998895");
            (ASSET_PROPERTY_METADATA_KEY, VStr "Code");
            (ASSET_BUNDLED_METADATA_KEY, VBool true)])])]);
         ("Outputs", VDict [("Name", VDict [("Value", VStr "x")])])].

(** A resource without asset metadata. *)
Definition plain_bucket : value :=
  VDict [(RESOURCES_KEY, VDict
    [("Bucket1", VDict
       [("Type", VStr "AWS::S3::Bucket");
        (PROPERTIES_KEY, VDict [("BucketName", VStr "b")]);
        (METADATA_KEY, VDict [(RESOURCE_CDK_PATH_METADATA_KEY, VStr "Stack/Bucket1/Resource")])])])].

(** A zip asset whose [Properties] is a list. *)
Definition properties_list : value :=
  VDict [(RESOURCES_KEY, VDict
    [("Bucket1", VDict [("Type", VStr "AWS::S3::Bucket")]);
     ("Function1", VDict
       [(PROPERTIES_KEY, VList []);
        (METADATA_KEY, VDict
           [(ASSET_PATH_METADATA_KEY, VStr "asset.b998895");
            (ASSET_PROPERTY_METADATA_KEY, VStr "Code")])])])].

(** A synthesized template with parameters of several kinds. *)
Definition mixed_parameters : value :=
  VDict [("Parameters", VDict
           [("Stage", VStr "prod");
            ("AssetParametersA", VDict [("Type", VStr "String")]);
            ("AssetParametersB", VDict [("Type", VStr "Number")])]);
         (RESOURCES_KEY, VDict [("Bucket1", VDict [("Type", VStr "AWS::S3::Bucket")])])].

End Samples.

(** * Properties *)

(** ** Exceptions and dicts *)

Lemma bind_Ok {A B : Type} (m : result A) (k : A -> result B) (b : B) :
  bind m k = Ok b -> exists a, m = Ok a /\ k a = Ok b.
Proof.
  destruct m as [a|e]; simpl; intros H; [eauto | discriminate].
Qed.

Ltac inv_bind H :=
  let a := fresh "a" in
  let Ha := fresh "Ha" in
  apply bind_Ok in H; destruct H as (a & Ha & H).

Module PyDictFacts.
Import PyDict.

Lemma get_set (k k' : string) (v : value) (d : dict) :
  get k (set k' v d) = if String.eqb k' k then Some v else get k d.
Proof.
  induction d as [|[k0 v0] d IH]; simpl.
  - destruct (String.eqb k' k); reflexivity.
  - destruct (String.eqb k0 k') eqn:E0; simpl.
    + apply String.eqb_eq in E0; subst k0.
      destruct (String.eqb k' k); reflexivity.
    + destruct (String.eqb k0 k) eqn:E1; [|exact IH].
      apply String.eqb_eq in E1; subst k0.
      rewrite String.eqb_sym, E0. reflexivity.
Qed.

Lemma get_set_same (k : string) (v : value) (d : dict) :
  get k (set k v d) = Some v.
Proof. rewrite get_set, String.eqb_refl. reflexivity. Qed.

Lemma set_noop (k : string) (v : value) (d : dict) :
  get k d = Some v -> set k v d = d.
Proof.
  induction d as [|[k0 v0] d IH]; simpl; [discriminate|].
  destruct (String.eqb k0 k); intros H.
  - injection H as ->. reflexivity.
  - rewrite IH by exact H. reflexivity.
Qed.

Lemma set_set (k : string) (v w : value) (d : dict) :
  set k w (set k v d) = set k w d.
Proof.
  induction d as [|[k0 v0] d IH]; simpl.
  - rewrite String.eqb_refl. reflexivity.
  - destruct (String.eqb k0 k) eqn:E; simpl; rewrite E; [reflexivity|].
    rewrite IH. reflexivity.
Qed.

Lemma lookup_set (k k' : string) (dflt v : value) (d : dict) :
  lookup k dflt (set k' v d) = if String.eqb k' k then v else lookup k dflt d.
Proof.
  unfold lookup. rewrite get_set. destruct (String.eqb k' k); reflexivity.
Qed.

End PyDictFacts.

(** ** Strings *)

Lemma split_not_nil (c : ascii) (s : string) : PyStr.split c s <> [].
Proof.
  destruct s as [|a s]; simpl; [discriminate|].
  destruct (Ascii.eqb a c); [discriminate|].
  destruct (PyStr.split c s); discriminate.
Qed.

(** ** The loop body *)

Lemma update_resource_metadata_dict (updated md : dict) :
  _update_resource_metadata (VDict md) updated = Ok (VDict (PyDict.update md updated)).
Proof.
  unfold _update_resource_metadata, PyDict.update.
  revert md. induction updated as [|[k v] u IH]; intros md; simpl; [reflexivity|].
  apply IH.
Qed.

Lemma assign_path_dict (k : string) (rest : list string) (v : value) (d : dict) :
  assign_path (k :: rest) v (VDict d) = Ok (VDict (PyDict.set k (chain rest v) d)).
Proof.
  revert k d. induction rest as [|k' rest IH]; intros k d; [reflexivity|].
  change (assign_path (k :: k' :: rest) v (VDict d))
    with (_ <- py_setitem (VDict d) k (VDict []) ;;
          inner <- assign_path (k' :: rest) v (VDict []) ;;
          py_setitem (VDict d) k inner).
  rewrite IH. reflexivity.
Qed.

Lemma assign_path_not_dict (keys : list string) (v target : value) :
  keys <> [] -> (forall d, target <> VDict d) ->
  assign_path keys v target = Raise TypeError.
Proof.
  intros Hk Ht. destruct keys as [|k rest]; [congruence|].
  destruct target; try (destruct rest; reflexivity).
  exfalso. eapply Ht. reflexivity.
Qed.

Lemma extract_image_asset_metadata_dict (md : dict) :
  _extract_image_asset_metadata (VDict md) =
  (a <- py_path (lookup ASSET_PATH_METADATA_KEY (VStr "") md) ;;
   f <- py_path (lookup ASSET_DOCKERFILE_PATH_KEY VNone md) ;;
   let dockerfile_path := PurePath.of_segments f "" in
   Ok [ (SAM_METADATA_DOCKERFILE_KEY, VStr (PurePath.stem dockerfile_path));
        (SAM_METADATA_DOCKER_CONTEXT_KEY,
         VStr (PurePath.to_string
                 (PurePath.joinpath (PurePath.parse a) (PurePath.parent dockerfile_path))));
        (SAM_METADATA_DOCKER_BUILD_ARGS_KEY,
         lookup ASSET_DOCKERFILE_BUILD_ARGS_KEY (VDict []) md) ]).
Proof. reflexivity. Qed.

Lemma replace_property_closed_form (locator path : value) (resource : dict) (lid : string) :
  _replace_property locator path (VDict resource) lid =
  if truthy locator && truthy path then
    match locator, PyDict.get PROPERTIES_KEY resource with
    | VStr s, None => Ok (VDict resource, [])
    | VStr s, Some (VDict properties) =>
        Ok (VDict (PyDict.set PROPERTIES_KEY
                     (VDict (rewritten_properties s path properties)) resource), [])
    | VStr s, Some _ => Raise TypeError
    | _, _ => Raise AttributeError
    end
  else Ok (VDict resource,
           if truthy locator || truthy path then [LogIgnoringMetadata lid] else []).
Proof.
  unfold _replace_property.
  destruct (truthy locator && truthy path) eqn:Hboth.
  - destruct locator as [| | |s| |]; try reflexivity.
    unfold py_split, py_get_dict, rewritten_properties. cbn [bind].
    destruct (PyStr.split "." s) as [|k rest] eqn:Hs.
    { exfalso. eapply split_not_nil. exact Hs. }
    destruct (PyDict.get PROPERTIES_KEY resource) as [p|] eqn:Hp; cbn [bind].
    + destruct p as [| | | | |properties];
        try (rewrite assign_path_not_dict by (try discriminate; intros; discriminate);
             reflexivity).
      rewrite assign_path_dict. reflexivity.
    + rewrite assign_path_dict. reflexivity.
  - destruct (truthy locator || truthy path); reflexivity.
Qed.

Lemma rewrite_asset_closed_form (lid : string) (resource md : dict) :
  rewrite_asset lid (VDict resource) (VDict md) =
  (base <- image_base md ;;
   ' (r, logs) <- _replace_property (asset_property_of md) (asset_path_of lid md)
                    (VDict resource) lid ;;
   Ok (r,
       VDict (if truthy (asset_path_of lid md) && truthy (asset_property_of md)
              then PyDict.set SAM_IS_NORMALIZED (VBool true) base else base),
       logs)).
Proof.
  unfold rewrite_asset, image_base, asset_path_of.
  change (py_get (VDict md) ASSET_PROPERTY_METADATA_KEY VNone)
    with (Ok (asset_property_of md)).
  cbn [bind].
  destruct (is_str IMAGE_ASSET_PROPERTY (asset_property_of md)).
  - destruct (_extract_image_asset_metadata (VDict md)) as [am|e]; [|reflexivity].
    cbn [bind]. rewrite update_resource_metadata_dict. cbn [bind].
    destruct (_replace_property _ _ _ _) as [[r logs]|e]; [|reflexivity].
    cbn [bind].
    destruct (truthy _ && truthy _); reflexivity.
  - change (py_get (VDict md) ASSET_PATH_METADATA_KEY VNone)
      with (Ok (lookup ASSET_PATH_METADATA_KEY VNone md)).
    cbn [bind].
    destruct (_replace_property _ _ _ _) as [[r logs]|e]; [|reflexivity].
    cbn [bind].
    destruct (truthy _ && truthy _); reflexivity.
Qed.

Lemma propagate_skip_build_commit (md : dict) :
  (skip_build <- py_get (VDict md) ASSET_BUNDLED_METADATA_KEY (VBool false) ;;
   if truthy skip_build
   then _update_resource_metadata (VDict md) [(SAM_METADATA_SKIP_BUILD_KEY, VBool true)]
   else Ok (VDict md))
  = Ok (VDict (propagate_skip_build md)).
Proof.
  unfold propagate_skip_build.
  change (py_get (VDict md) ASSET_BUNDLED_METADATA_KEY (VBool false))
    with (Ok (lookup ASSET_BUNDLED_METADATA_KEY (VBool false) md)).
  cbn [bind].
  destruct (truthy (lookup ASSET_BUNDLED_METADATA_KEY (VBool false) md)); reflexivity.
Qed.

Lemma normalize_resource_tail (pl : place) (r md : value) (logs : list log_record) (m : dict) :
  md = VDict m ->
  (skip_build <- py_get md ASSET_BUNDLED_METADATA_KEY (VBool false) ;;
   resource_metadata <-
     (if truthy skip_build
      then _update_resource_metadata md [(SAM_METADATA_SKIP_BUILD_KEY, VBool true)]
      else Ok md) ;;
   Ok (commit pl METADATA_KEY resource_metadata r, logs))
  = Ok (commit pl METADATA_KEY (VDict (propagate_skip_build m)) r, logs).
Proof.
  intros ->.
  pose proof (propagate_skip_build_commit m) as H.
  unfold bind in *.
  destruct (py_get (VDict m) ASSET_BUNDLED_METADATA_KEY (VBool false)) as [sb|e];
    [|discriminate].
  destruct (if truthy sb then _ else _) as [x|e]; [|discriminate].
  injection H as ->. reflexivity.
Qed.

Lemma normalize_resource_closed_form (lid : string) (rd md : dict) :
  PyDict.get METADATA_KEY rd = Some (VDict md) ->
  normalize_resource lid (VDict rd) = resource_outcome lid rd md.
Proof.
  intros Hmd. unfold normalize_resource, py_get_dict, resource_outcome.
  rewrite Hmd. cbn [bind].
  change (py_get (VDict md) SAM_IS_NORMALIZED (VBool false))
    with (Ok (lookup SAM_IS_NORMALIZED (VBool false) md)).
  cbn [bind]. fold (marked md).
  destruct (marked md); cbn [negb bind].
  - rewrite (normalize_resource_tail _ _ _ _ md eq_refl). reflexivity.
  - rewrite rewrite_asset_closed_form.
    destruct (image_base md) as [base|e]; [|reflexivity]. cbn [bind].
    rewrite replace_property_closed_form.
    rewrite (andb_comm (truthy (asset_path_of lid md))).
    destruct (truthy (asset_property_of md) && truthy (asset_path_of lid md)).
    + destruct (asset_property_of md) as [| | |s| |]; try reflexivity.
      destruct (PyDict.get PROPERTIES_KEY rd) as [[| | | | |properties]|] eqn:Hp;
        try reflexivity; cbn [bind].
      * rewrite (normalize_resource_tail _ _ _ _ _ eq_refl). reflexivity.
      * rewrite (normalize_resource_tail _ _ _ _ _ eq_refl). reflexivity.
    + cbn [bind].
      rewrite (normalize_resource_tail _ _ _ _ _ eq_refl). reflexivity.
Qed.

Lemma normalize_resource_no_metadata (lid : string) (rd : dict) :
  PyDict.get METADATA_KEY rd = None ->
  normalize_resource lid (VDict rd) = Ok (VDict rd, []).
Proof.
  intros Hmd. unfold normalize_resource, py_get_dict. rewrite Hmd. reflexivity.
Qed.

Lemma normalize_resource_inv (lid : string) (r r' : value) (l : list log_record) :
  normalize_resource lid r = Ok (r', l) ->
  exists rd, r = VDict rd /\
    ((PyDict.get METADATA_KEY rd = None /\ r' = r /\ l = []) \/
     (exists md, PyDict.get METADATA_KEY rd = Some (VDict md) /\
                 resource_outcome lid rd md = Ok (r', l))).
Proof.
  intros H. destruct r as [| | | | |rd]; try discriminate.
  exists rd. split; [reflexivity|].
  destruct (PyDict.get METADATA_KEY rd) as [m|] eqn:Hmd.
  - right. destruct m as [| | | | |md];
      try (unfold normalize_resource, py_get_dict in H; rewrite Hmd in H; discriminate).
    exists md. split; [reflexivity|].
    rewrite <- (normalize_resource_closed_form lid rd md Hmd). exact H.
  - left. rewrite (normalize_resource_no_metadata lid rd Hmd) in H.
    injection H as <- <-. auto.
Qed.

(** ** What the metadata writes leave untouched *)

Import PyDictFacts.

Lemma lookup_propagate_skip_build (k : string) (dflt : value) (md : dict) :
  String.eqb SAM_METADATA_SKIP_BUILD_KEY k = false ->
  lookup k dflt (propagate_skip_build md) = lookup k dflt md.
Proof.
  intros Hk. unfold propagate_skip_build.
  destruct (truthy _); [|reflexivity].
  rewrite lookup_set, Hk. reflexivity.
Qed.

Lemma get_propagate_skip_build (k : string) (md : dict) :
  String.eqb SAM_METADATA_SKIP_BUILD_KEY k = false ->
  PyDict.get k (propagate_skip_build md) = PyDict.get k md.
Proof.
  intros Hk. unfold propagate_skip_build.
  destruct (truthy _); [|reflexivity].
  rewrite get_set, Hk. reflexivity.
Qed.

Lemma propagate_skip_build_idem (md : dict) :
  propagate_skip_build (propagate_skip_build md) = propagate_skip_build md.
Proof.
  unfold propagate_skip_build at 1.
  rewrite lookup_propagate_skip_build by reflexivity.
  unfold propagate_skip_build.
  destruct (truthy _) eqn:Hb; [|reflexivity].
  apply set_set.
Qed.

Lemma marked_propagate_skip_build (md : dict) :
  marked (propagate_skip_build md) = marked md.
Proof.
  unfold marked. rewrite lookup_propagate_skip_build by reflexivity. reflexivity.
Qed.

Lemma marked_set_normalized (md : dict) :
  marked (PyDict.set SAM_IS_NORMALIZED (VBool true) md) = true.
Proof.
  unfold marked. rewrite lookup_set, String.eqb_refl. reflexivity.
Qed.

Lemma image_base_inv (md base : dict) :
  image_base md = Ok base ->
  (is_str IMAGE_ASSET_PROPERTY (asset_property_of md) = false /\ base = md) \/
  (is_str IMAGE_ASSET_PROPERTY (asset_property_of md) = true /\
   exists a f,
     lookup ASSET_PATH_METADATA_KEY (VStr "") md = VStr a /\
     lookup ASSET_DOCKERFILE_PATH_KEY VNone md = VStr f /\
     base =
       PyDict.set SAM_METADATA_DOCKER_BUILD_ARGS_KEY
         (lookup ASSET_DOCKERFILE_BUILD_ARGS_KEY (VDict []) md)
         (PyDict.set SAM_METADATA_DOCKER_CONTEXT_KEY
            (VStr (PurePath.to_string
                     (PurePath.joinpath (PurePath.parse a)
                        (PurePath.parent (PurePath.of_segments f "")))))
            (PyDict.set SAM_METADATA_DOCKERFILE_KEY
               (VStr (PurePath.stem (PurePath.of_segments f ""))) md))).
Proof.
  unfold image_base.
  destruct (is_str IMAGE_ASSET_PROPERTY (asset_property_of md)).
  - rewrite extract_image_asset_metadata_dict. intros H. right. split; [reflexivity|].
    destruct (lookup ASSET_PATH_METADATA_KEY (VStr "") md) as [| | |a| |];
      try discriminate.
    destruct (lookup ASSET_DOCKERFILE_PATH_KEY VNone md) as [| | |f| |];
      try discriminate.
    cbn in H. injection H as <-. exists a, f. auto.
  - intros H. injection H as <-. left. auto.
Qed.

Lemma image_base_lookup (md base : dict) (k : string) (dflt : value) :
  image_base md = Ok base -> image_key k = false ->
  lookup k dflt base = lookup k dflt md.
Proof.
  intros H Hk. unfold image_key in Hk.
  apply orb_false_iff in Hk as [Hk Hk3]. apply orb_false_iff in Hk as [Hk1 Hk2].
  apply image_base_inv in H as [[_ ->]|[_ (a & f & _ & _ & ->)]]; [reflexivity|].
  rewrite !lookup_set, Hk1, Hk2, Hk3. reflexivity.
Qed.

(** Writes that can follow the merge of the image values: the skip-build
    flag, and nothing else when the resource is left unmarked. *)
Lemma image_base_stable (md base : dict) :
  image_base md = Ok base ->
  image_base (propagate_skip_build base) = Ok (propagate_skip_build base).
Proof.
  intros H.
  assert (Hreads : forall k dflt, image_key k = false ->
            String.eqb SAM_METADATA_SKIP_BUILD_KEY k = false ->
            lookup k dflt (propagate_skip_build base) = lookup k dflt md).
  { intros k dflt Hk Hs. rewrite lookup_propagate_skip_build by exact Hs.
    apply image_base_lookup; assumption. }
  unfold image_base at 1. unfold asset_property_of.
  rewrite Hreads by reflexivity.
  destruct (image_base_inv _ _ H) as [[Hi ->]|[Hi (a & f & Ha & Hf & Hb)]];
    unfold asset_property_of in Hi; rewrite Hi; [reflexivity|].
  rewrite extract_image_asset_metadata_dict.
  rewrite !Hreads by reflexivity. rewrite Ha, Hf. cbn [py_path bind].
  f_equal. unfold PyDict.update. cbn [fold_left fst snd].
  assert (Hget : forall k v, String.eqb SAM_METADATA_SKIP_BUILD_KEY k = false ->
            PyDict.get k base = Some v ->
            PyDict.set k v (propagate_skip_build base) = propagate_skip_build base).
  { intros k v Hs Hg. apply set_noop. rewrite get_propagate_skip_build; assumption. }
  rewrite (Hget SAM_METADATA_DOCKERFILE_KEY) by (reflexivity || (rewrite Hb, !get_set; reflexivity)).
  rewrite (Hget SAM_METADATA_DOCKER_CONTEXT_KEY) by (reflexivity || (rewrite Hb, !get_set; reflexivity)).
  rewrite (Hget SAM_METADATA_DOCKER_BUILD_ARGS_KEY) by (reflexivity || (rewrite Hb, !get_set; reflexivity)).
  reflexivity.
Qed.

Lemma asset_reads_stable (lid : string) (md base : dict) :
  image_base md = Ok base ->
  marked (propagate_skip_build base) = marked md /\
  asset_property_of (propagate_skip_build base) = asset_property_of md /\
  asset_path_of lid (propagate_skip_build base) = asset_path_of lid md.
Proof.
  intros H.
  assert (Hreads : forall k dflt, image_key k = false ->
            String.eqb SAM_METADATA_SKIP_BUILD_KEY k = false ->
            lookup k dflt (propagate_skip_build base) = lookup k dflt md).
  { intros k dflt Hk Hs. rewrite lookup_propagate_skip_build by exact Hs.
    apply image_base_lookup; assumption. }
  unfold marked, asset_path_of, asset_property_of.
  rewrite !Hreads by reflexivity. auto.
Qed.

(** ** A second run of the loop body changes nothing *)

Lemma resource_outcome_marked (lid : string) (rd rd0 md : dict) :
  marked md = true -> propagate_skip_build md = md ->
  PyDict.set METADATA_KEY (VDict md) rd0 = rd ->
  resource_outcome lid rd md = Ok (VDict rd, []).
Proof.
  intros Hm Hp Hrd. unfold resource_outcome, with_metadata.
  rewrite Hm, Hp. rewrite <- Hrd, set_set. reflexivity.
Qed.

Lemma resource_outcome_idem (lid : string) (rd md : dict) (r' : value)
    (l : list log_record) :
  resource_outcome lid rd md = Ok (r', l) ->
  exists rd' md' l',
    r' = VDict rd' /\ PyDict.get METADATA_KEY rd' = Some (VDict md') /\
    resource_outcome lid rd' md' = Ok (r', l').
Proof.
  unfold resource_outcome at 1.
  destruct (marked md) eqn:Hm.
  - intros H. injection H as <- <-.
    eexists _, (propagate_skip_build md), []. split; [reflexivity|].
    split; [apply get_set_same|].
    eapply resource_outcome_marked; [| apply propagate_skip_build_idem | reflexivity].
    rewrite marked_propagate_skip_build. exact Hm.
  - destruct (image_base md) as [base|e] eqn:Hb; [|discriminate]. cbn [bind].
    destruct (truthy (asset_property_of md) && truthy (asset_path_of lid md)) eqn:Hboth.
    + assert (Hdone : forall rd0,
        resource_outcome lid
          (PyDict.set METADATA_KEY
             (VDict (propagate_skip_build (PyDict.set SAM_IS_NORMALIZED (VBool true) base)))
             rd0)
          (propagate_skip_build (PyDict.set SAM_IS_NORMALIZED (VBool true) base))
        = Ok (with_metadata
                (propagate_skip_build (PyDict.set SAM_IS_NORMALIZED (VBool true) base))
                rd0, [])).
      { intros rd0. eapply resource_outcome_marked;
          [| apply propagate_skip_build_idem | reflexivity].
        rewrite marked_propagate_skip_build. apply marked_set_normalized. }
      destruct (asset_property_of md) as [| | |s| |]; try discriminate.
      destruct (PyDict.get PROPERTIES_KEY rd) as [[| | | | |properties]|];
        try discriminate; intros H; injection H as <- <-;
        eexists _, _, []; (split; [reflexivity|]); (split; [apply get_set_same|]);
        apply Hdone.
    + intros H. injection H as <- <-.
      destruct (asset_reads_stable lid md base Hb) as (Hm' & Hp' & Ha').
      eexists _, (propagate_skip_build base), _. split; [reflexivity|].
      split; [apply get_set_same|].
      unfold resource_outcome. rewrite Hm', Hm.
      rewrite (image_base_stable md base Hb). cbn [bind].
      rewrite Hp', Ha', Hboth, propagate_skip_build_idem.
      unfold with_metadata. rewrite set_set. reflexivity.
Qed.

Lemma normalize_resource_idem (lid : string) (r r' : value) (l : list log_record) :
  normalize_resource lid r = Ok (r', l) ->
  exists l', normalize_resource lid r' = Ok (r', l').
Proof.
  intros H. apply normalize_resource_inv in H as (rd & -> & [(Hmd & -> & ->)|(md & Hmd & H)]).
  - exists []. apply normalize_resource_no_metadata. exact Hmd.
  - apply resource_outcome_idem in H as (rd' & md' & l' & -> & Hmd' & H).
    exists l'. rewrite (normalize_resource_closed_form lid rd' md' Hmd'). exact H.
Qed.

(** ** The loop over the resources *)

Lemma normalize_resources_get (rs rs' : dict) (logs : list log_record)
    (lid : string) (r : value) :
  normalize_resources rs = Ok (rs', logs) ->
  PyDict.get lid rs = Some r ->
  exists r' l, normalize_resource lid r = Ok (r', l) /\ PyDict.get lid rs' = Some r'.
Proof.
  revert rs' logs. induction rs as [|[k v] rs IH]; intros rs' logs H Hg; [discriminate|].
  cbn [normalize_resources] in H.
  inv_bind H. destruct a as [v' l1]. inv_bind H. destruct a as [rest l2].
  injection H as <- <-.
  cbn [PyDict.get] in *.
  destruct (String.eqb k lid) eqn:E.
  - apply String.eqb_eq in E; subst k. injection Hg as ->.
    exists v', l1. auto.
  - eapply IH; eauto.
Qed.

Lemma normalize_resources_idem (rs rs' : dict) (logs : list log_record) :
  normalize_resources rs = Ok (rs', logs) ->
  exists logs', normalize_resources rs' = Ok (rs', logs').
Proof.
  revert rs' logs. induction rs as [|[k v] rs IH]; intros rs' logs H.
  - injection H as <- <-. exists []. reflexivity.
  - cbn [normalize_resources] in H.
    inv_bind H. destruct a as [v' l1]. inv_bind H. destruct a as [rest l2].
    injection H as <- <-.
    apply normalize_resource_idem in Ha as (l1' & Ha).
    apply IH in Ha0 as (l2' & Ha0).
    exists (l1' ++ l2')%list. cbn [normalize_resources].
    rewrite Ha. cbn [bind]. rewrite Ha0. reflexivity.
Qed.

(** ** The two passes of [normalize] *)

Section NormalizeFacts.

Variable is_cdk_project : value -> bool.

Lemma normalize_parameters_loop_get (ras : string) (ps ps' : dict)
    (name : string) (pv : value) :
  normalize_parameters_loop ras ps = Ok ps' ->
  PyDict.get name ps = Some pv ->
  exists pv', normalize_parameter ras name pv = Ok pv' /\
              PyDict.get name ps' = Some pv'.
Proof.
  revert ps'. induction ps as [|[k v] ps IH]; intros ps' H Hg; [discriminate|].
  cbn [normalize_parameters_loop] in H.
  inv_bind H. inv_bind H. injection H as <-.
  cbn [PyDict.get] in *.
  destruct (String.eqb k name) eqn:E.
  - apply String.eqb_eq in E; subst k. injection Hg as ->. eauto.
  - eapply IH; eauto.
Qed.

Lemma normalize_closed_form (t : dict) (np : bool) :
  normalize is_cdk_project (VDict t) np =
  (items <- py_items (lookup RESOURCES_KEY (VDict []) t) ;;
   ' (rs', logs) <- normalize_resources items ;;
   let t1 := after_resources t rs' in
   if np && is_cdk_project (VDict t1) then
     ps <- py_items (lookup "Parameters" (VDict []) t1) ;;
     ps' <- normalize_parameters_loop (Json.dumps (VDict rs')) ps ;;
     Ok (VDict (after_parameters t1 ps'), logs)
   else Ok (VDict t1, logs)).
Proof.
  unfold normalize, py_get_dict, lookup, after_resources.
  destruct (PyDict.get RESOURCES_KEY t) as [rv|] eqn:Hr; cbn [bind].
  - destruct (py_items rv) as [items|e]; [|reflexivity]. cbn [bind].
    destruct (normalize_resources items) as [[rs' logs]|e]; [|reflexivity].
    cbn [bind commit].
    destruct (np && is_cdk_project _); [|reflexivity].
    unfold after_parameters.
    destruct (PyDict.get "Parameters" _) as [pv|]; cbn [bind].
    + destruct (py_items pv) as [ps|e]; [|reflexivity]. cbn [bind].
      destruct (normalize_parameters_loop _ ps); reflexivity.
    + reflexivity.
  - cbn [py_items bind normalize_resources commit].
    destruct (np && is_cdk_project _); [|reflexivity].
    unfold after_parameters.
    destruct (PyDict.get "Parameters" t) as [pv|]; cbn [bind].
    + destruct (py_items pv) as [ps|e]; [|reflexivity]. cbn [bind].
      destruct (normalize_parameters_loop _ ps); reflexivity.
    + reflexivity.
Qed.

Lemma get_after_parameters (t ps' : dict) (k : string) :
  String.eqb "Parameters" k = false ->
  PyDict.get k (after_parameters t ps') = PyDict.get k t.
Proof.
  intros Hk. unfold after_parameters.
  destruct (PyDict.get "Parameters" t); [|reflexivity].
  rewrite get_set, Hk. reflexivity.
Qed.

Lemma get_after_resources (t rs' : dict) :
  PyDict.get RESOURCES_KEY (after_resources t rs') =
  match PyDict.get RESOURCES_KEY t with
  | Some _ => Some (VDict rs')
  | None => None
  end.
Proof.
  unfold after_resources.
  destruct (PyDict.get RESOURCES_KEY t) eqn:Hr; [apply get_set_same | exact Hr].
Qed.

(** What a run that returns did to the resources. *)
Lemma normalize_inv (T T' : value) (np : bool) (logs : list log_record) :
  normalize is_cdk_project T np = Ok (T', logs) ->
  exists t t', T = VDict t /\ T' = VDict t' /\
    match PyDict.get RESOURCES_KEY t with
    | Some rv =>
        exists rs rs', rv = VDict rs /\
          normalize_resources rs = Ok (rs', logs) /\
          PyDict.get RESOURCES_KEY t' = Some (VDict rs')
    | None => PyDict.get RESOURCES_KEY t' = None /\ logs = []
    end.
Proof.
  intros H. destruct T as [| | | | |t]; try discriminate.
  rewrite normalize_closed_form in H. unfold lookup in H.
  assert (Hshape : forall rs' l,
    (if np && is_cdk_project (VDict (after_resources t rs')) then
       ps <- py_items (lookup "Parameters" (VDict []) (after_resources t rs')) ;;
       ps' <- normalize_parameters_loop (Json.dumps (VDict rs')) ps ;;
       Ok (VDict (after_parameters (after_resources t rs') ps'), l)
     else Ok (VDict (after_resources t rs'), l)) = Ok (T', logs) ->
    l = logs /\ exists t', T' = VDict t' /\
      PyDict.get RESOURCES_KEY t' = PyDict.get RESOURCES_KEY (after_resources t rs')).
  { intros rs' l H'. destruct (np && is_cdk_project _).
    - inv_bind H'. inv_bind H'. injection H' as <- <-. split; [reflexivity|].
      eexists. split; [reflexivity|]. apply get_after_parameters. reflexivity.
    - injection H' as <- <-. eauto. }
  inv_bind H. inv_bind H. destruct a0 as [rs' l].
  apply Hshape in H as (-> & t' & -> & Hget).
  rewrite get_after_resources in Hget.
  exists t, t'. split; [reflexivity|]. split; [reflexivity|].
  destruct (PyDict.get RESOURCES_KEY t) as [rv|] eqn:Hr.
  - destruct rv as [| | | | |rs]; try discriminate.
    injection Ha as <-. exists rs, rs'. auto.
  - injection Ha as <-. injection Ha0 as <- <-. auto.
Qed.

Lemma resources_of_Some (t rs : dict) :
  resources_of (VDict t) = Some rs ->
  PyDict.get RESOURCES_KEY t = Some (VDict rs).
Proof.
  unfold resources_of, section_of.
  destruct (PyDict.get RESOURCES_KEY t) as [[| | | | |d]|]; try discriminate.
  intros H. injection H as ->. reflexivity.
Qed.

Lemma resource_of_dict (t rs : dict) (lid : string) :
  PyDict.get RESOURCES_KEY t = Some (VDict rs) ->
  resource_of (VDict t) lid = PyDict.get lid rs.
Proof.
  intros H. unfold resource_of, resources_of, section_of. rewrite H. reflexivity.
Qed.

Lemma resource_of_inv (T : value) (lid : string) (r : value) :
  resource_of T lid = Some r ->
  exists t rs, T = VDict t /\ PyDict.get RESOURCES_KEY t = Some (VDict rs) /\
               PyDict.get lid rs = Some r.
Proof.
  unfold resource_of, resources_of, section_of.
  destruct T as [| | | | |t]; try discriminate.
  destruct (PyDict.get RESOURCES_KEY t) as [[| | | | |rs]|] eqn:Hr; try discriminate.
  intros H. exists t, rs. auto.
Qed.

(** What a run that returns did to one resource. *)
Lemma normalize_resource_of (T T' : value) (np : bool) (logs : list log_record)
    (lid : string) (r : value) :
  normalize is_cdk_project T np = Ok (T', logs) ->
  resource_of T lid = Some r ->
  exists r' l, normalize_resource lid r = Ok (r', l) /\ resource_of T' lid = Some r'.
Proof.
  intros H Hr. apply normalize_inv in H as (t & t' & -> & -> & H).
  apply resource_of_inv in Hr as (t0 & rs & E & Hrs & Hg). injection E as <-.
  rewrite Hrs in H. destruct H as (rs0 & rs' & E & Hn & Hres). injection E as <-.
  rewrite (resource_of_dict _ _ _ Hres).
  eapply normalize_resources_get; eauto.
Qed.

(** A run without the parameter pass on a template that a former run
    returned: it returns the template as it is. *)
Lemma normalize_again (T T' : value) (np : bool) (logs : list log_record) :
  normalize is_cdk_project T np = Ok (T', logs) ->
  exists logs', normalize is_cdk_project T' false = Ok (T', logs').
Proof.
  intros H. apply normalize_inv in H as (t & t' & -> & -> & H).
  rewrite normalize_closed_form. cbn [andb]. unfold lookup, after_resources.
  destruct (PyDict.get RESOURCES_KEY t) as [rv|].
  - destruct H as (rs & rs' & -> & Hn & Hres). rewrite Hres.
    apply normalize_resources_idem in Hn as (logs' & Hn).
    exists logs'. cbn [py_items bind]. rewrite Hn. cbn [bind].
    rewrite set_noop by exact Hres. reflexivity.
  - destruct H as (Hres & ->). rewrite Hres. exists []. reflexivity.
Qed.

(** Any run on such a template leaves its resources as they are. *)
Lemma normalize_again_resources (T T' T'' : value) (np np' : bool)
    (logs logs' : list log_record) (lid : string) :
  normalize is_cdk_project T np = Ok (T', logs) ->
  normalize is_cdk_project T' np' = Ok (T'', logs') ->
  resource_of T'' lid = resource_of T' lid.
Proof.
  intros H H'. apply normalize_inv in H as (t & t' & -> & -> & H).
  apply normalize_inv in H' as (t0 & t'' & E & -> & H'). injection E as <-.
  destruct (PyDict.get RESOURCES_KEY t) as [rv|].
  - destruct H as (rs & rs' & -> & Hn & Hres). rewrite Hres in H'.
    destruct H' as (rs0 & rs'' & E & Hn' & Hres'). injection E as <-.
    apply normalize_resources_idem in Hn as (l2 & Hn).
    rewrite Hn in Hn'. injection Hn' as <- _.
    rewrite (resource_of_dict _ _ _ Hres), (resource_of_dict _ _ _ Hres').
    reflexivity.
  - destruct H as (Hres & ->). rewrite Hres in H'. destruct H' as (Hres' & _).
    unfold resource_of, resources_of, section_of. rewrite Hres, Hres'. reflexivity.
Qed.

End NormalizeFacts.

(** ** The asset rewrite of one resource *)

Lemma metadata_of_inv (r : value) (md : dict) :
  metadata_of r = Some md ->
  exists rd, r = VDict rd /\
    (PyDict.get METADATA_KEY rd = Some (VDict md) \/
     (PyDict.get METADATA_KEY rd = None /\ md = [])).
Proof.
  unfold metadata_of. destruct r as [| | | | |rd]; try discriminate.
  destruct (PyDict.get METADATA_KEY rd) as [[| | | | |m]|] eqn:Hget;
    try discriminate; intros H; injection H as <-; exists rd; auto.
Qed.

Lemma metadata_of_with_metadata (md rd : dict) :
  metadata_of (with_metadata md rd) = Some md.
Proof.
  unfold metadata_of, with_metadata. rewrite get_set_same. reflexivity.
Qed.

Lemma field_with_metadata (k : string) (md rd : dict) :
  String.eqb METADATA_KEY k = false ->
  field k (with_metadata md rd) = PyDict.get k rd.
Proof.
  intros Hk. unfold field, with_metadata. rewrite get_set, Hk. reflexivity.
Qed.

(** A resource with a locator and a path, not yet marked: the locator is
    a string, nothing is logged, the metadata is marked, and [Properties],
    when the resource has it, is rewritten along the locator. *)
Lemma normalize_resource_rewrites (lid : string) (r r' : value)
    (l : list log_record) (md : dict) :
  normalize_resource lid r = Ok (r', l) ->
  metadata_of r = Some md -> marked md = false ->
  truthy (asset_property_of md) && truthy (asset_path_of lid md) = true ->
  exists rd s base,
    r = VDict rd /\ asset_property_of md = VStr s /\ image_base md = Ok base /\
    l = [] /\
    metadata_of r' =
      Some (propagate_skip_build (PyDict.set SAM_IS_NORMALIZED (VBool true) base)) /\
    match PyDict.get PROPERTIES_KEY rd with
    | Some p =>
        exists properties, p = VDict properties /\
          field PROPERTIES_KEY r' =
            Some (VDict (rewritten_properties s (asset_path_of lid md) properties))
    | None => field PROPERTIES_KEY r' = None
    end.
Proof.
  intros H Hmd Hm Hboth.
  apply metadata_of_inv in Hmd as (rd & -> & [Hget|[_ ->]]);
    [|discriminate].
  rewrite (normalize_resource_closed_form lid rd md Hget) in H.
  unfold resource_outcome in H. rewrite Hm in H.
  inv_bind H. rename a into base. rewrite Hboth in H.
  destruct (asset_property_of md) as [| | |s| |]; try discriminate.
  exists rd, s, base. split; [reflexivity|]. split; [reflexivity|].
  split; [assumption|].
  destruct (PyDict.get PROPERTIES_KEY rd) as [[| | | | |properties]|] eqn:Hp;
    try discriminate; injection H as <- <-;
    (split; [reflexivity|]); (split; [apply metadata_of_with_metadata|]).
  - exists properties. split; [reflexivity|].
    rewrite field_with_metadata by reflexivity. apply get_set_same.
  - rewrite field_with_metadata by reflexivity. exact Hp.
Qed.

(** A resource without both of them, not yet marked: [Properties] and the
    marker stay as they are, and the diagnostic is logged when one of the
    two is there. *)
Lemma normalize_resource_ignores (lid : string) (r r' : value)
    (l : list log_record) (md : dict) :
  normalize_resource lid r = Ok (r', l) ->
  metadata_of r = Some md -> marked md = false ->
  truthy (asset_property_of md) && truthy (asset_path_of lid md) = false ->
  exists base,
    image_base md = Ok base /\
    field PROPERTIES_KEY r' = field PROPERTIES_KEY r /\
    metadata_of r' = Some (propagate_skip_build base) /\
    l = (if truthy (asset_property_of md) || truthy (asset_path_of lid md)
         then [LogIgnoringMetadata lid] else []).
Proof.
  intros H Hmd Hm Hboth.
  apply metadata_of_inv in Hmd as (rd & -> & [Hget|[Hget ->]]).
  - rewrite (normalize_resource_closed_form lid rd md Hget) in H.
    unfold resource_outcome in H. rewrite Hm in H.
    inv_bind H. rename a into base. rewrite Hboth in H.
    injection H as <- <-. exists base. split; [assumption|].
    split; [apply field_with_metadata; reflexivity|].
    split; [apply metadata_of_with_metadata|reflexivity].
  - rewrite (normalize_resource_no_metadata lid rd Hget) in H.
    injection H as <- <-. exists []. split; [reflexivity|].
    split; [reflexivity|]. split; [|reflexivity].
    unfold metadata_of. rewrite Hget. reflexivity.
Qed.

(** A marked resource keeps its [Properties] and logs nothing. *)
Lemma normalize_resource_skips (lid : string) (r r' : value)
    (l : list log_record) (md : dict) :
  normalize_resource lid r = Ok (r', l) ->
  metadata_of r = Some md -> marked md = true ->
  field PROPERTIES_KEY r' = field PROPERTIES_KEY r /\
  metadata_of r' = Some (propagate_skip_build md) /\ l = [].
Proof.
  intros H Hmd Hm.
  apply metadata_of_inv in Hmd as (rd & -> & [Hget|[_ ->]]); [|discriminate].
  rewrite (normalize_resource_closed_form lid rd md Hget) in H.
  unfold resource_outcome in H. rewrite Hm in H. injection H as <- <-.
  split; [apply field_with_metadata; reflexivity|].
  split; [apply metadata_of_with_metadata|reflexivity].
Qed.

Lemma follow_chain (keys : list string) (v : value) :
  follow keys (chain keys v) = Some v.
Proof.
  induction keys as [|k keys IH]; [reflexivity|].
  cbn [chain follow field PyDict.get]. rewrite String.eqb_refl. exact IH.
Qed.

(** Following the segments of the locator through the rewritten
    [Properties] reaches the value. *)
Lemma follow_rewritten_properties (s : string) (v : value) (properties : dict) :
  follow (PyStr.split "." s) (VDict (rewritten_properties s v properties)) = Some v.
Proof.
  unfold rewritten_properties.
  destruct (PyStr.split "." s) as [|k rest] eqn:Hs.
  { exfalso. eapply split_not_nil. exact Hs. }
  cbn [follow field]. rewrite get_set_same. apply follow_chain.
Qed.

Lemma normalize_resource_logs (lid : string) (r r' : value) (l : list log_record) :
  normalize_resource lid r = Ok (r', l) ->
  l = [] \/ l = [LogIgnoringMetadata lid].
Proof.
  intros H.
  apply normalize_resource_inv in H as (rd & -> & [(_ & _ & ->)|(md & Hmd & H)]);
    [auto|].
  unfold resource_outcome in H.
  destruct (marked md); [injection H as _ <-; auto|].
  inv_bind H.
  destruct (truthy (asset_property_of md) && truthy (asset_path_of lid md)).
  - destruct (asset_property_of md) as [| | |s| |]; try discriminate.
    destruct (PyDict.get PROPERTIES_KEY rd) as [[| | | | |properties]|];
      try discriminate; injection H as _ <-; auto.
  - injection H as _ <-. destruct (_ || _); auto.
Qed.

Lemma names_resource_other (k lid : string) (l : list log_record) :
  k <> lid -> l = [] \/ l = [LogIgnoringMetadata k] ->
  filter (names_resource lid) l = [].
Proof.
  intros Hk [->| ->]; [reflexivity|].
  cbn. apply String.eqb_neq in Hk. rewrite Hk. reflexivity.
Qed.

Lemma normalize_resources_silent (rs rs' : dict) (logs : list log_record) (lid : string) :
  normalize_resources rs = Ok (rs', logs) ->
  ~ In lid (PyDict.keys rs) ->
  filter (names_resource lid) logs = [].
Proof.
  revert rs' logs. induction rs as [|[k v] rs IH]; intros rs' logs H Hn.
  - injection H as _ <-. reflexivity.
  - cbn [normalize_resources] in H.
    inv_bind H. destruct a as [v' l1]. inv_bind H. destruct a as [rest l2].
    injection H as _ <-. cbn in Hn.
    rewrite filter_app, (IH _ _ Ha0) by tauto.
    rewrite (names_resource_other k lid l1);
      [reflexivity | tauto | eapply normalize_resource_logs; eassumption].
Qed.

(** With the logical ids distinct, the records that name a resource are
    those its own iteration logged. *)
Lemma normalize_resources_logs (rs rs' : dict) (logs l : list log_record)
    (lid : string) (r r' : value) :
  normalize_resources rs = Ok (rs', logs) ->
  NoDup (PyDict.keys rs) ->
  PyDict.get lid rs = Some r ->
  normalize_resource lid r = Ok (r', l) ->
  filter (names_resource lid) logs = filter (names_resource lid) l.
Proof.
  revert rs' logs. induction rs as [|[k v] rs IH]; intros rs' logs H Hnd Hg Hr;
    [discriminate|].
  cbn [normalize_resources] in H.
  inv_bind H. destruct a as [v' l1]. inv_bind H. destruct a as [rest l2].
  injection H as _ <-.
  cbn in Hnd. apply NoDup_cons_iff in Hnd as [Hnin Hnd].
  cbn [PyDict.get] in Hg. rewrite filter_app.
  destruct (String.eqb k lid) eqn:E.
  - apply String.eqb_eq in E; subst k. injection Hg as ->.
    rewrite Hr in Ha. injection Ha as <- <-.
    rewrite (normalize_resources_silent _ _ _ lid Ha0 Hnin).
    apply app_nil_r.
  - apply String.eqb_neq in E.
    rewrite (names_resource_other k lid l1);
      [| exact E | eapply normalize_resource_logs; eassumption].
    eapply IH; eauto.
Qed.

Section NormalizeProperties.

Variable is_cdk_project : value -> bool.

Lemma normalize_rewrites_properties (T T' : value) (np : bool)
    (logs : list log_record) (lid : string) (r p : value) (md : dict) :
  normalize is_cdk_project T np = Ok (T', logs) ->
  resource_of T lid = Some r ->
  metadata_of r = Some md -> marked md = false ->
  truthy (asset_property_of md) && truthy (asset_path_of lid md) = true ->
  field PROPERTIES_KEY r = Some p ->
  exists s properties r',
    asset_property_of md = VStr s /\ p = VDict properties /\
    resource_of T' lid = Some r' /\
    field PROPERTIES_KEY r' =
      Some (VDict (rewritten_properties s (asset_path_of lid md) properties)) /\
    metadata_of r' =
      match image_base md with
      | Ok base =>
          Some (propagate_skip_build (PyDict.set SAM_IS_NORMALIZED (VBool true) base))
      | Raise _ => None
      end.
Proof.
  intros H Hr Hmd Hm Hboth Hp.
  destruct (normalize_resource_of _ _ _ _ _ _ _ H Hr) as (r' & l & Hn & Hr').
  destruct (normalize_resource_rewrites _ _ _ _ _ Hn Hmd Hm Hboth)
    as (rd & s & base & -> & Hs & Hb & _ & Hmd' & Hprops).
  cbn [field] in Hp. rewrite Hp in Hprops.
  destruct Hprops as (properties & -> & Hprops).
  exists s, properties, r'. rewrite Hb. auto.
Qed.

Lemma properties_of_resource (T : value) (lid : string) (r : value) :
  resource_of T lid = Some r -> properties_of T lid = field PROPERTIES_KEY r.
Proof. intros H. unfold properties_of. rewrite H. reflexivity. Qed.

End NormalizeProperties.

(** * The asset rewrite pass *)

(** C1, at a resource that declares no [Properties]: the locator
    [Code.S3Key] and the path [assets/fn.zip] are both there and the
    resource is not marked, yet once [normalize] has returned the resource
    still has no [Properties], so that following [Properties], [Code],
    [S3Key] reaches nothing, while its metadata is marked as normalized.
    The dict the rewrite fills is the default of [resource.get] and is
    never attached to the resource. *)
Theorem normalize_loses_rewrite_without_properties :
  forall is_cdk_project : value -> bool,
  exists T' r' md',
    normalize is_cdk_project Samples.no_properties false = Ok (T', []) /\
    resource_of T' "Function1" = Some r' /\
    metadata_of r' = Some md' /\ marked md' = true /\
    field PROPERTIES_KEY r' = None /\
    follow (PROPERTIES_KEY :: PyStr.split "." "Code.S3Key") r' = None.
Proof.
  intros f. eexists _, _, _. split; [reflexivity|].
  split; [reflexivity|]. split; [reflexivity|]. repeat split; reflexivity.
Qed.

(** The statement of C1 where the resource has [Properties]: for a
    resource that is not marked and has a locator and a path, following
    the segments of the locator through [Properties] after [normalize]
    reaches the path. *)
Lemma normalize_reaches_asset_path (is_cdk_project : value -> bool)
    (T T' : value) (np : bool) (logs : list log_record)
    (lid : string) (r p : value) (md : dict) (s : string) :
  normalize is_cdk_project T np = Ok (T', logs) ->
  resource_of T lid = Some r ->
  metadata_of r = Some md -> marked md = false ->
  asset_property_of md = VStr s ->
  truthy (VStr s) && truthy (asset_path_of lid md) = true ->
  field PROPERTIES_KEY r = Some p ->
  exists p', properties_of T' lid = Some p' /\
             follow (PyStr.split "." s) p' = Some (asset_path_of lid md).
Proof.
  intros H Hr Hmd Hm Hs Hboth Hp. rewrite <- Hs in Hboth.
  destruct (normalize_rewrites_properties _ _ _ _ _ _ _ _ _ H Hr Hmd Hm Hboth Hp)
    as (s' & properties & r' & Hs' & -> & Hr' & Hp' & _).
  rewrite Hs in Hs'. injection Hs' as <-.
  eexists. rewrite (properties_of_resource _ _ _ Hr'). split; [exact Hp'|].
  apply follow_rewritten_properties.
Qed.

(** C2: a second [normalize] on a template that [normalize] has returned
    returns as well when it skips the parameter pass, and whatever its
    arguments, if it returns, every resource -- those that had a locator and
    a path among them -- is what it was after the first run, its
    [Properties] included. *)
Theorem normalize_idempotent_properties (is_cdk_project : value -> bool)
    (T T1 : value) (np : bool) (logs1 : list log_record) :
  normalize is_cdk_project T np = Ok (T1, logs1) ->
  (exists logs2, normalize is_cdk_project T1 false = Ok (T1, logs2)) /\
  (forall np' T2 logs2,
      normalize is_cdk_project T1 np' = Ok (T2, logs2) ->
      forall lid,
        resource_of T2 lid = resource_of T1 lid /\
        properties_of T2 lid = properties_of T1 lid).
Proof.
  intros H. split.
  - eapply normalize_again. exact H.
  - intros np' T2 logs2 H' lid.
    pose proof (normalize_again_resources _ _ _ _ _ _ _ _ lid H H') as E.
    split; [exact E|]. unfold properties_of. rewrite E. reflexivity.
Qed.

Lemma normalize_idempotent_properties_witness :
  exists T1,
    normalize (fun _ => true) Samples.with_siblings true = Ok (T1, []) /\
    (exists logs2, normalize (fun _ => true) T1 false = Ok (T1, logs2)) /\
    (forall np' T2 logs2,
        normalize (fun _ => true) T1 np' = Ok (T2, logs2) ->
        forall lid,
          resource_of T2 lid = resource_of T1 lid /\
          properties_of T2 lid = properties_of T1 lid).
Proof.
  eexists. split; [reflexivity|].
  apply (normalize_idempotent_properties (fun _ => true) Samples.with_siblings _ true []).
  reflexivity.
Defined.

(** C3, at an image asset whose metadata has no dockerfile path:
    [normalize] raises [TypeError], whatever the detection predicate and
    the parameter flag, and the resource declared after it is never
    reached.  The empty string meant as the default of the lookup is given
    to [Path] instead, which receives [None] as its first argument. *)
Theorem normalize_raises_without_dockerfile_path :
  forall (is_cdk_project : value -> bool) (np : bool),
    normalize is_cdk_project Samples.no_dockerfile_path np = Raise TypeError.
Proof. intros f np. reflexivity. Qed.

(** C8: for a resource that is not marked, with a locator of two segments
    or more and a path, and with a [Properties] dict, whatever it held:
    after [normalize] the first segment of the locator is bound in
    [Properties] to a dict whose only key is the second segment, under
    which single-key dicts lead to the path; no other key is left under
    the first segment. *)
Theorem intermediate_segments_overwritten (is_cdk_project : value -> bool)
    (T T' : value) (np : bool) (logs : list log_record)
    (lid : string) (r : value) (md properties : dict)
    (s k k' : string) (rest : list string) :
  normalize is_cdk_project T np = Ok (T', logs) ->
  resource_of T lid = Some r ->
  metadata_of r = Some md -> marked md = false ->
  asset_property_of md = VStr s ->
  truthy (VStr s) && truthy (asset_path_of lid md) = true ->
  PyStr.split "." s = k :: k' :: rest ->
  field PROPERTIES_KEY r = Some (VDict properties) ->
  exists properties',
    properties_of T' lid = Some (VDict properties') /\
    PyDict.get k properties' =
      Some (VDict [(k', chain rest (asset_path_of lid md))]) /\
    (forall key, key <> k' -> follow [k; key] (VDict properties') = None).
Proof.
  intros H Hr Hmd Hm Hs Hboth Hsplit Hp. rewrite <- Hs in Hboth.
  destruct (normalize_rewrites_properties _ _ _ _ _ _ _ _ _ H Hr Hmd Hm Hboth Hp)
    as (s' & properties0 & r' & Hs' & E & Hr' & Hp' & _).
  rewrite Hs in Hs'. injection Hs' as <-. injection E as <-.
  eexists. rewrite (properties_of_resource _ _ _ Hr'). split; [exact Hp'|].
  unfold rewritten_properties. rewrite Hsplit. cbn [chain].
  split; [apply get_set_same|].
  intros key Hkey. cbn [follow field]. rewrite get_set_same.
  cbn [follow field PyDict.get]. apply String.eqb_neq in Hkey.
  rewrite String.eqb_sym, Hkey. reflexivity.
Qed.

Lemma intermediate_segments_overwritten_witness :
  exists T' properties',
    normalize (fun _ => false) Samples.with_siblings false = Ok (T', []) /\
    properties_of T' "Function1" = Some (VDict properties') /\
    PyDict.get "Code" properties' = Some (VDict [("S3Key", VStr "assets/fn.zip")]) /\
    (forall key, key <> "S3Key" -> follow ["Code"; key] (VDict properties') = None).
Proof.
  destruct (intermediate_segments_overwritten (fun _ => false)
              Samples.with_siblings
              (VDict [(RESOURCES_KEY, VDict
                 [("Function1", VDict
                    [("Type", VStr "AWS::Lambda::Function");
                     (PROPERTIES_KEY, VDict
                        [("Code", VDict [("S3Key", VStr "assets/fn.zip")]);
                         ("Runtime", VStr "python3.9")]);
                     (METADATA_KEY, VDict
                        [(ASSET_PROPERTY_METADATA_KEY, VStr "Code.S3Key");
                         (ASSET_PATH_METADATA_KEY, VStr "assets/fn.zip");
                         (SAM_IS_NORMALIZED, VBool true)])])])])
              false [] "Function1"
              (VDict
                 [("Type", VStr "AWS::Lambda::Function");
                  (PROPERTIES_KEY, VDict
                     [("Code", VDict [("S3Bucket", VStr "bucket"); ("S3Key", VStr "old")]);
                      ("Runtime", VStr "python3.9")]);
                  (METADATA_KEY, VDict
                     [(ASSET_PROPERTY_METADATA_KEY, VStr "Code.S3Key");
                      (ASSET_PATH_METADATA_KEY, VStr "assets/fn.zip")])])
              [(ASSET_PROPERTY_METADATA_KEY, VStr "Code.S3Key");
               (ASSET_PATH_METADATA_KEY, VStr "assets/fn.zip")]
              [("Code", VDict [("S3Bucket", VStr "bucket"); ("S3Key", VStr "old")]);
               ("Runtime", VStr "python3.9")]
              "Code.S3Key" "Code" "S3Key" []
              eq_refl eq_refl eq_refl eq_refl eq_refl eq_refl eq_refl eq_refl)
    as (properties' & H1 & H2 & H3).
  eexists _, properties'. split; [reflexivity|]. split; [exact H1|].
  split; [exact H2 | exact H3].
Defined.

(** C9 as stated fails at an image locator: the metadata has the locator
    [Code.ImageUri] and no asset path, exactly one of the two, and the
    resource is not marked; [normalize] takes the lower-cased logical id
    for the path, rewrites [Properties], logs nothing and marks the
    metadata.  It also fails at a resource that is already marked: with an
    asset path and no locator, nothing is logged and the marker stays. *)
Lemma image_locator_without_path_is_rewritten :
  (exists r md T',
    resource_of Samples.image_without_path "Function1" = Some r /\
    metadata_of r = Some md /\ marked md = false /\
    truthy (lookup ASSET_PROPERTY_METADATA_KEY VNone md) = true /\
    truthy (lookup ASSET_PATH_METADATA_KEY VNone md) = false /\
    normalize (fun _ => false) Samples.image_without_path false = Ok (T', []) /\
    properties_of T' "Function1" <> properties_of Samples.image_without_path "Function1" /\
    properties_of T' "Function1" =
      Some (VDict [("Code", VDict [("ImageUri", VStr "function1")])]) /\
    exists r' md',
      resource_of T' "Function1" = Some r' /\ metadata_of r' = Some md' /\
      marked md' = true) /\
  (exists r md,
    resource_of Samples.marked_path_without_locator "Function1" = Some r /\
    metadata_of r = Some md /\ marked md = true /\
    truthy (lookup ASSET_PROPERTY_METADATA_KEY VNone md) = false /\
    truthy (lookup ASSET_PATH_METADATA_KEY VNone md) = true /\
    normalize (fun _ => false) Samples.marked_path_without_locator false
      = Ok (Samples.marked_path_without_locator, [])).
Proof.
  split.
  - eexists _, _, _. split; [reflexivity|]. split; [reflexivity|].
    split; [reflexivity|]. split; [reflexivity|]. split; [reflexivity|].
    split; [reflexivity|]. split; [discriminate|]. split; [reflexivity|].
    eexists _, _. split; [reflexivity|]. split; reflexivity.
  - eexists _, _. split; [reflexivity|]. split; [reflexivity|].
    split; [reflexivity|]. split; [reflexivity|]. split; reflexivity.
Qed.

(** C9, amended: for a resource that is not marked, when exactly one of
    the locator and the path [normalize] would substitute (the lower-cased
    logical id for the image locator, the recorded asset path otherwise)
    is there, [normalize] leaves [Properties] as it is, logs one record
    naming the resource, the logical ids being distinct, and leaves the
    metadata unmarked. *)
Theorem lone_locator_or_path_is_ignored (is_cdk_project : value -> bool)
    (T T' : value) (np : bool) (logs : list log_record)
    (rs : dict) (lid : string) (r : value) (md : dict) :
  normalize is_cdk_project T np = Ok (T', logs) ->
  resources_of T = Some rs -> NoDup (PyDict.keys rs) ->
  PyDict.get lid rs = Some r ->
  metadata_of r = Some md -> marked md = false ->
  xorb (truthy (asset_property_of md)) (truthy (asset_path_of lid md)) = true ->
  properties_of T' lid = field PROPERTIES_KEY r /\
  filter (names_resource lid) logs = [LogIgnoringMetadata lid] /\
  exists r' md',
    resource_of T' lid = Some r' /\ metadata_of r' = Some md' /\ marked md' = false.
Proof.
  intros H Hrs Hnd Hg Hmd Hm Hx.
  apply normalize_inv in H as (t & t' & -> & -> & H).
  rewrite (resources_of_Some _ _ Hrs) in H.
  destruct H as (rs0 & rs' & E & Hn & Hres). injection E as <-.
  destruct (normalize_resources_get _ _ _ _ _ Hn Hg) as (r' & l & Hr & Hg').
  assert (Hboth : truthy (asset_property_of md) && truthy (asset_path_of lid md) = false).
  { destruct (truthy (asset_property_of md)), (truthy (asset_path_of lid md));
      try reflexivity; discriminate. }
  assert (Heither : truthy (asset_property_of md) || truthy (asset_path_of lid md) = true).
  { destruct (truthy (asset_property_of md)), (truthy (asset_path_of lid md));
      try reflexivity; discriminate. }
  destruct (normalize_resource_ignores _ _ _ _ _ Hr Hmd Hm Hboth)
    as (base & Hb & Hp & Hmd' & Hl).
  rewrite Heither in Hl.
  assert (Hr' : resource_of (VDict t') lid = Some r').
  { rewrite (resource_of_dict _ _ _ Hres). exact Hg'. }
  split; [rewrite (properties_of_resource _ _ _ Hr'); exact Hp|].
  split.
  - rewrite (normalize_resources_logs _ _ _ _ _ _ _ Hn Hnd Hg Hr), Hl.
    cbn. rewrite String.eqb_refl. reflexivity.
  - exists r', (propagate_skip_build base). split; [exact Hr'|].
    split; [exact Hmd'|].
    destruct (asset_reads_stable lid md base Hb) as (-> & _). exact Hm.
Qed.

Lemma lone_locator_or_path_is_ignored_witness :
  exists T' r' md',
    normalize (fun _ => false) Samples.path_without_locator false
      = Ok (T', [LogIgnoringMetadata "Function1"]) /\
    properties_of T' "Function1" = Some (VDict [("Runtime", VStr "python3.9")]) /\
    resource_of T' "Function1" = Some r' /\ metadata_of r' = Some md' /\
    marked md' = false.
Proof.
  destruct (lone_locator_or_path_is_ignored (fun _ => false)
              Samples.path_without_locator Samples.path_without_locator
              false [LogIgnoringMetadata "Function1"]
              [("Function1", VDict
                  [(PROPERTIES_KEY, VDict [("Runtime", VStr "python3.9")]);
                   (METADATA_KEY, VDict [(ASSET_PATH_METADATA_KEY, VStr "assets/fn.zip")])])]
              "Function1"
              (VDict
                 [(PROPERTIES_KEY, VDict [("Runtime", VStr "python3.9")]);
                  (METADATA_KEY, VDict [(ASSET_PATH_METADATA_KEY, VStr "assets/fn.zip")])])
              [(ASSET_PATH_METADATA_KEY, VStr "assets/fn.zip")]
              eq_refl eq_refl
              (NoDup_cons "Function1" (fun H : In "Function1" [] => H) (NoDup_nil string))
              eq_refl eq_refl eq_refl eq_refl)
    as (Hp & _ & r' & md' & Hr' & Hmd' & Hm').
  exists Samples.path_without_locator, r', md'.
  split; [reflexivity|]. split; [exact Hp|]. auto.
Defined.

(** * Image assets *)

(** C4 as stated fails on the docker context: the asset path [src/] is
    joined with the parent [src/docker] of the dockerfile path, which
    makes [src/src/docker], not [src/docker]. *)
Lemma docker_context_joins_asset_path :
  exists T' r' md',
    normalize (fun _ => false) Samples.image_function false = Ok (T', []) /\
    resource_of T' "MyFunction" = Some r' /\ metadata_of r' = Some md' /\
    PyDict.get SAM_METADATA_DOCKER_CONTEXT_KEY md' = Some (VStr "src/src/docker") /\
    PyDict.get SAM_METADATA_DOCKER_CONTEXT_KEY md' <> Some (VStr "src/docker").
Proof.
  eexists _, _, _. split; [reflexivity|]. split; [reflexivity|].
  split; [reflexivity|]. split; [reflexivity|]. discriminate.
Qed.

(** C4, amended: for a resource that is not marked, has [Properties] and
    a logical id that is not empty, and whose metadata has the locator
    [Code.ImageUri], the asset path [src/], the dockerfile path
    [src/docker/Dockerfile] and the build args [{"A": "1"}]: after
    [normalize] the metadata has the dockerfile [Dockerfile], the docker
    context [src/src/docker] and the build args [{"A": "1"}], and
    [Properties.Code.ImageUri] is the lower-cased logical id. *)
Theorem image_asset_example (is_cdk_project : value -> bool)
    (T T' : value) (np : bool) (logs : list log_record)
    (lid : string) (r p : value) (md : dict) :
  normalize is_cdk_project T np = Ok (T', logs) ->
  resource_of T lid = Some r ->
  metadata_of r = Some md -> marked md = false ->
  PyDict.get ASSET_PROPERTY_METADATA_KEY md = Some (VStr IMAGE_ASSET_PROPERTY) ->
  PyDict.get ASSET_PATH_METADATA_KEY md = Some (VStr "src/") ->
  PyDict.get ASSET_DOCKERFILE_PATH_KEY md = Some (VStr "src/docker/Dockerfile") ->
  PyDict.get ASSET_DOCKERFILE_BUILD_ARGS_KEY md = Some (VDict [("A", VStr "1")]) ->
  PyStr.lower lid <> "" ->
  field PROPERTIES_KEY r = Some p ->
  exists r' md',
    resource_of T' lid = Some r' /\ metadata_of r' = Some md' /\
    PyDict.get SAM_METADATA_DOCKERFILE_KEY md' = Some (VStr "Dockerfile") /\
    PyDict.get SAM_METADATA_DOCKER_CONTEXT_KEY md' = Some (VStr "src/src/docker") /\
    PyDict.get SAM_METADATA_DOCKER_BUILD_ARGS_KEY md' = Some (VDict [("A", VStr "1")]) /\
    follow [PROPERTIES_KEY; "Code"; "ImageUri"] r' = Some (VStr (PyStr.lower lid)).
Proof.
  intros H Hr Hmd Hm Hloc Hpath Hdf Hargs Hlid Hp.
  assert (Hprop : asset_property_of md = VStr IMAGE_ASSET_PROPERTY).
  { unfold asset_property_of, lookup. rewrite Hloc. reflexivity. }
  assert (Hap : asset_path_of lid md = VStr (PyStr.lower lid)).
  { unfold asset_path_of. rewrite Hprop. reflexivity. }
  assert (Hboth : truthy (asset_property_of md) && truthy (asset_path_of lid md) = true).
  { rewrite Hprop, Hap. cbn. apply String.eqb_neq in Hlid. rewrite Hlid. reflexivity. }
  assert (Hbase : image_base md =
    Ok (PyDict.set SAM_METADATA_DOCKER_BUILD_ARGS_KEY (VDict [("A", VStr "1")])
          (PyDict.set SAM_METADATA_DOCKER_CONTEXT_KEY (VStr "src/src/docker")
             (PyDict.set SAM_METADATA_DOCKERFILE_KEY (VStr "Dockerfile") md)))).
  { unfold image_base. rewrite Hprop. cbn [is_str].
    change (String.eqb IMAGE_ASSET_PROPERTY IMAGE_ASSET_PROPERTY) with true. cbv iota.
    rewrite extract_image_asset_metadata_dict. unfold lookup.
    rewrite Hpath, Hdf, Hargs. reflexivity. }
  destruct (normalize_rewrites_properties _ _ _ _ _ _ _ _ _ H Hr Hmd Hm Hboth Hp)
    as (s & properties & r' & Hs & -> & Hr' & Hp' & Hmd').
  rewrite Hprop in Hs. injection Hs as <-. rewrite Hbase in Hmd'.
  eexists r', _. split; [exact Hr'|]. split; [exact Hmd'|].
  rewrite !get_propagate_skip_build by reflexivity.
  rewrite !get_set. cbn.
  repeat split.
  destruct r' as [| | | | |rd']; try discriminate.
  cbn [follow]. cbn [field] in Hp'. cbn [field]. rewrite Hp'. rewrite Hap.
  apply (follow_rewritten_properties IMAGE_ASSET_PROPERTY).
Qed.

Lemma image_asset_example_witness :
  exists T' r' md',
    normalize (fun _ => false) Samples.image_function false = Ok (T', []) /\
    resource_of T' "MyFunction" = Some r' /\ metadata_of r' = Some md' /\
    PyDict.get SAM_METADATA_DOCKERFILE_KEY md' = Some (VStr "Dockerfile") /\
    PyDict.get SAM_METADATA_DOCKER_CONTEXT_KEY md' = Some (VStr "src/src/docker") /\
    PyDict.get SAM_METADATA_DOCKER_BUILD_ARGS_KEY md' = Some (VDict [("A", VStr "1")]) /\
    follow [PROPERTIES_KEY; "Code"; "ImageUri"] r' = Some (VStr "myfunction").
Proof.
  destruct (image_asset_example (fun _ => false) Samples.image_function
              (VDict [(RESOURCES_KEY, VDict
                 [("MyFunction", VDict
                    [("Type", VStr "AWS::Lambda::Function");
                     (PROPERTIES_KEY, VDict
                        [("PackageType", VStr "Image");
                         ("Code", VDict [("ImageUri", VStr "myfunction")])]);
                     (METADATA_KEY, VDict
                        (Samples.image_metadata ++
                         [(SAM_METADATA_DOCKERFILE_KEY, VStr "Dockerfile");
                          (SAM_METADATA_DOCKER_CONTEXT_KEY, VStr "src/src/docker");
                          (SAM_METADATA_DOCKER_BUILD_ARGS_KEY, VDict [("A", VStr "1")]);
                          (SAM_IS_NORMALIZED, VBool true)])%list)])])])
              false [] "MyFunction"
              (VDict
                 [("Type", VStr "AWS::Lambda::Function");
                  (PROPERTIES_KEY, VDict [("PackageType", VStr "Image")]);
                  (METADATA_KEY, VDict Samples.image_metadata)])
              (VDict [("PackageType", VStr "Image")])
              Samples.image_metadata
              eq_refl eq_refl eq_refl eq_refl eq_refl eq_refl eq_refl eq_refl
              (fun H : PyStr.lower "MyFunction" = "" =>
                 eq_ind "myfunction"
                   (fun s => match s with EmptyString => False | String _ _ => True end)
                   I "" H)
              eq_refl)
    as (r' & md' & H1 & H2 & H3 & H4 & H5 & H6).
  eexists _, r', md'. split; [reflexivity|]. auto 10.
Defined.

(** * Resource identity *)

Lemma length_app_string (a b : string) :
  String.length (a ++ b) = String.length a + String.length b.
Proof. induction a as [|c a IH]; simpl; [reflexivity | rewrite IH; reflexivity]. Qed.

Lemma substring_all (b : string) : substring 0 (String.length b) b = b.
Proof. induction b as [|c b IH]; simpl; [reflexivity | rewrite IH; reflexivity]. Qed.

Lemma substring_app_r (a b : string) :
  substring (String.length a) (String.length b) (a ++ b) = b.
Proof. induction a as [|c a IH]; simpl; [apply substring_all | exact IH]. Qed.

Lemma substring_app_l (a b : string) :
  substring 0 (String.length a) (a ++ b) = a.
Proof.
  induction a as [|c a IH]; simpl; [destruct b; reflexivity | rewrite IH; reflexivity].
Qed.

Lemma substring_split (k : nat) (s : string) :
  k <= String.length s ->
  substring 0 k s ++ substring k (String.length s - k) s = s.
Proof.
  revert k. induction s as [|c s IH]; intros k Hk.
  - destruct k; [reflexivity | simpl in Hk; lia].
  - destruct k as [|k]; simpl.
    + rewrite substring_all. reflexivity.
    + rewrite IH by (simpl in Hk; lia). reflexivity.
Qed.

Lemma endswith_app (a suffix : string) : PyStr.endswith (a ++ suffix) suffix = true.
Proof.
  unfold PyStr.endswith. rewrite length_app_string.
  replace (String.length a + String.length suffix - String.length suffix)
    with (String.length a) by lia.
  rewrite substring_app_r, String.eqb_refl.
  apply andb_true_iff. split; [apply Nat.leb_le; lia | reflexivity].
Qed.

Lemma drop_last_app (a suffix : string) :
  PyStr.drop_last (String.length suffix) (a ++ suffix) = a.
Proof.
  unfold PyStr.drop_last. rewrite length_app_string.
  replace (String.length a + String.length suffix - String.length suffix)
    with (String.length a) by lia.
  apply substring_app_l.
Qed.

Lemma endswith_inv (s suffix : string) :
  PyStr.endswith s suffix = true ->
  s = PyStr.drop_last (String.length suffix) s ++ suffix.
Proof.
  unfold PyStr.endswith, PyStr.drop_last. intros H.
  apply andb_true_iff in H as [Hlen Heq].
  apply Nat.leb_le in Hlen. apply String.eqb_eq in Heq.
  pose proof (substring_split (String.length s - String.length suffix) s) as E.
  replace (String.length s - (String.length s - String.length suffix))
    with (String.length suffix) in E by lia.
  rewrite Heq in E. symmetry. apply E. lia.
Qed.

Lemma second_to_last (pre : list string) (seg l : string) :
  let partitions := (pre ++ [seg; l])%list in
  (List.length partitions <? 2)%nat = false /\
  nth (List.length partitions - 2) partitions "" = seg.
Proof.
  cbv zeta. rewrite length_app. cbn [List.length]. split.
  - apply Nat.ltb_ge. lia.
  - replace (List.length pre + 2 - 2) with (List.length pre) by lia.
    rewrite app_nth2 by lia. rewrite Nat.sub_diag. reflexivity.
Qed.

(** [get_resource_id] on a resource whose metadata is [md]. *)
Lemma get_resource_id_closed_form (rp : value) (lid : string) (md : dict) :
  metadata_of rp = Some md ->
  get_resource_id rp lid =
  match customer_id md with
  | Some id => Ok (id, [])
  | None =>
      match construct_path md with
      | None => Ok (lid, [])
      | Some path =>
          let partitions := PyStr.split "/" path in
          if (List.length partitions <? 2)%nat then Ok (lid, [LogUndetectedId path])
          else
            let segment := nth (List.length partitions - 2) partitions "" in
            Ok (if nested_stack_marker rp segment
                then PyStr.drop_last (String.length NESTED_STACK_SUFFIX) segment
                else segment, [])
      end
  end.
Proof.
  intros Hmd.
  assert (Hget : exists rd, rp = VDict rd /\ py_get rp "Metadata" (VDict []) = Ok (VDict md)).
  { apply metadata_of_inv in Hmd as (rd & -> & [Hg|[Hg ->]]);
      exists rd; (split; [reflexivity|]); unfold py_get;
      change "Metadata" with METADATA_KEY; rewrite Hg; reflexivity. }
  destruct Hget as (rd & -> & Hget).
  unfold get_resource_id. rewrite Hget. cbn [bind py_get].
  unfold customer_id, construct_path, nested_stack_marker, lookup.
  destruct (PyDict.get SAM_RESOURCE_ID_KEY md) as [[| | |[|c s]| |]|];
    try reflexivity;
    destruct (PyDict.get RESOURCE_CDK_PATH_METADATA_KEY md) as [[| | |[|c' s']| |]|];
    try reflexivity;
    cbv zeta; destruct (_ <? 2)%nat; reflexivity.
Qed.

(** C6 as stated fails on a nested stack: without a customer-defined id,
    with the well-formed construct path
    [StackA/NestedStackC.NestedStack/Resource] on a resource of type
    [AWS::CloudFormation::Stack], what is returned is not the
    second-to-last segment [NestedStackC.NestedStack] but that segment
    without its suffix. *)
Lemma nested_stack_segment_is_shortened :
  exists md,
    metadata_of Samples.nested_stack = Some md /\ customer_id md = None /\
    construct_path md = Some "StackA/NestedStackC.NestedStack/Resource" /\
    PyStr.split "/" "StackA/NestedStackC.NestedStack/Resource"
      = ["StackA"; "NestedStackC.NestedStack"; "Resource"] /\
    get_resource_id Samples.nested_stack "Nested1" = Ok ("NestedStackC", []) /\
    get_resource_id Samples.nested_stack "Nested1"
      <> Ok ("NestedStackC.NestedStack", []).
Proof.
  eexists. split; [reflexivity|]. split; [reflexivity|]. split; [reflexivity|].
  split; [reflexivity|]. split; [reflexivity | discriminate].
Qed.

(** C6, amended: with the metadata of the resource at hand, a
    customer-defined id that is a non-empty string is returned as it is,
    whatever the construct path; without one, a construct path of two
    segments or more yields its second-to-last segment, as it is unless
    the resource's [Type] is [AWS::CloudFormation::Stack] and the segment
    ends with [.NestedStack], in which case the segment is returned
    without that suffix; and without one, a construct path that is absent,
    not a string, empty or without a slash yields the logical id. *)
Theorem get_resource_id_precedence (rp : value) (lid : string) (md : dict) :
  metadata_of rp = Some md ->
  (forall id, customer_id md = Some id -> get_resource_id rp lid = Ok (id, [])) /\
  (customer_id md = None ->
   forall path pre segment l,
     construct_path md = Some path ->
     PyStr.split "/" path = (pre ++ [segment; l])%list ->
     exists id,
       get_resource_id rp lid = Ok (id, []) /\
       (nested_stack_marker rp segment = false -> id = segment) /\
       (nested_stack_marker rp segment = true -> segment = id ++ NESTED_STACK_SUFFIX)) /\
  (customer_id md = None ->
   PyDict.get RESOURCE_CDK_PATH_METADATA_KEY md = None \/
   (exists v, PyDict.get RESOURCE_CDK_PATH_METADATA_KEY md = Some v /\
              forall s, v <> VStr s) \/
   PyDict.get RESOURCE_CDK_PATH_METADATA_KEY md = Some (VStr "") \/
   (exists path, PyDict.get RESOURCE_CDK_PATH_METADATA_KEY md = Some (VStr path) /\
                 List.length (PyStr.split "/" path) < 2) ->
   exists logs, get_resource_id rp lid = Ok (lid, logs)).
Proof.
  intros Hmd. rewrite (get_resource_id_closed_form rp lid md Hmd).
  split; [|split].
  - intros id ->. reflexivity.
  - intros -> path pre segment l -> Hsplit. cbv zeta. rewrite Hsplit.
    destruct (second_to_last pre segment l) as [-> ->].
    eexists. split; [reflexivity|].
    destruct (nested_stack_marker rp segment) eqn:Hn.
    + split; [discriminate|]. intros _.
      apply endswith_inv. unfold nested_stack_marker in Hn.
      apply andb_true_iff in Hn as [_ Hn]. exact Hn.
    + split; [reflexivity | discriminate].
  - intros -> Hpath. unfold construct_path.
    destruct Hpath as [->|[(v & -> & Hv)|[->|(path & -> & Hlen)]]].
    + eauto.
    + destruct v as [| | |s| |]; eauto. exfalso. eapply Hv. reflexivity.
    + eauto.
    + destruct path as [|c s]; [eauto|]. cbv zeta.
      apply Nat.ltb_lt in Hlen. rewrite Hlen. eauto.
Qed.

Lemma get_resource_id_precedence_witness :
  get_resource_id Samples.with_customer_id "FunctionLogicalId" = Ok ("my-id", []) /\
  get_resource_id (Samples.cdk_function_resource "StackA/FuncB/Resource")
    "FunctionLogicalId" = Ok ("FuncB", []) /\
  exists logs,
    get_resource_id (Samples.cdk_function_resource "Resource") "FunctionLogicalId"
      = Ok ("FunctionLogicalId", logs).
Proof.
  split; [|split].
  - apply (proj1 (get_resource_id_precedence Samples.with_customer_id
                    "FunctionLogicalId"
                    [(SAM_RESOURCE_ID_KEY, VStr "my-id");
                     (RESOURCE_CDK_PATH_METADATA_KEY, VStr "StackA/FuncB/Resource")]
                    eq_refl)).
    reflexivity.
  - destruct (proj1 (proj2 (get_resource_id_precedence
                    (Samples.cdk_function_resource "StackA/FuncB/Resource")
                    "FunctionLogicalId"
                    [(RESOURCE_CDK_PATH_METADATA_KEY, VStr "StackA/FuncB/Resource")]
                    eq_refl))
                eq_refl "StackA/FuncB/Resource" ["StackA"] "FuncB" "Resource"
                eq_refl eq_refl) as (id & Hid & Hseg & _).
    rewrite Hid, (Hseg eq_refl). reflexivity.
  - apply (proj2 (proj2 (get_resource_id_precedence
                    (Samples.cdk_function_resource "Resource")
                    "FunctionLogicalId"
                    [(RESOURCE_CDK_PATH_METADATA_KEY, VStr "Resource")]
                    eq_refl))
             eq_refl).
    right. right. right. exists "Resource". split; [reflexivity|].
    cbn. lia.
Defined.

(** C7 as stated fails for a resource that is not a stack: without a
    customer-defined id, with a construct path whose second-to-last
    segment ends with [.NestedStack], the segment is returned with its
    suffix when [Type] is not [AWS::CloudFormation::Stack]. *)
Lemma suffix_kept_on_other_types :
  exists md,
    metadata_of Samples.not_a_stack = Some md /\ customer_id md = None /\
    construct_path md = Some "StackA/NestedStackC.NestedStack/Resource" /\
    PyStr.split "/" "StackA/NestedStackC.NestedStack/Resource"
      = ["StackA"; "NestedStackC" ++ NESTED_STACK_SUFFIX; "Resource"] /\
    get_resource_id Samples.not_a_stack "Nested1" = Ok ("NestedStackC.NestedStack", []) /\
    get_resource_id Samples.not_a_stack "Nested1" <> Ok ("NestedStackC", []).
Proof.
  eexists. split; [reflexivity|]. split; [reflexivity|]. split; [reflexivity|].
  split; [reflexivity|]. split; [reflexivity | discriminate].
Qed.

(** C7, amended: for a resource without a customer-defined id whose
    [Type] is [AWS::CloudFormation::Stack] and whose construct path has
    two segments or more, the second-to-last ending with [.NestedStack],
    [get_resource_id] returns that segment without the suffix. *)
Theorem nested_stack_suffix_stripped (rp : value) (lid : string) (md : dict)
    (path stem l : string) (pre : list string) :
  metadata_of rp = Some md ->
  customer_id md = None ->
  construct_path md = Some path ->
  PyStr.split "/" path = (pre ++ [(stem ++ NESTED_STACK_SUFFIX)%string; l])%list ->
  field "Type" rp = Some (VStr NESTED_STACK_TYPE) ->
  get_resource_id rp lid = Ok (stem, []).
Proof.
  intros Hmd Hid Hpath Hsplit Htype.
  rewrite (get_resource_id_closed_form rp lid md Hmd), Hid, Hpath.
  cbv zeta. rewrite Hsplit.
  destruct (second_to_last pre (stem ++ NESTED_STACK_SUFFIX) l) as [-> ->].
  unfold nested_stack_marker, lookup.
  destruct rp as [| | | | |rd]; try discriminate. cbn [field] in Htype.
  rewrite Htype, endswith_app, drop_last_app. reflexivity.
Qed.

Lemma nested_stack_suffix_stripped_witness :
  get_resource_id Samples.nested_stack "Nested1" = Ok ("NestedStackC", []).
Proof.
  apply (nested_stack_suffix_stripped Samples.nested_stack "Nested1"
           [(RESOURCE_CDK_PATH_METADATA_KEY,
             VStr "StackA/NestedStackC.NestedStack/Resource")]
           "StackA/NestedStackC.NestedStack/Resource" "NestedStackC" "Resource"
           ["StackA"] eq_refl eq_refl eq_refl eq_refl eq_refl).
Defined.

(** C10: for a resource without a customer-defined id whose construct
    path is a string of two segments or more with an empty second-to-last
    segment, such as [/Resource], [get_resource_id] returns the empty
    string, and logs nothing. *)
Theorem empty_segment_is_returned (rp : value) (lid : string) (md : dict)
    (path l : string) (pre : list string) :
  metadata_of rp = Some md ->
  customer_id md = None ->
  construct_path md = Some path ->
  PyStr.split "/" path = (pre ++ [""; l])%list ->
  get_resource_id rp lid = Ok ("", []).
Proof.
  intros Hmd Hid Hpath Hsplit.
  rewrite (get_resource_id_closed_form rp lid md Hmd), Hid, Hpath.
  cbv zeta. rewrite Hsplit.
  destruct (second_to_last pre "" l) as [-> ->].
  unfold nested_stack_marker.
  change (PyStr.endswith "" NESTED_STACK_SUFFIX) with false.
  rewrite andb_false_r. reflexivity.
Qed.

Lemma empty_segment_is_returned_witness :
  get_resource_id (Samples.cdk_function_resource "/Resource") "FunctionLogicalId"
    = Ok ("", []) /\
  Ok ("", []) <> Ok ("FunctionLogicalId", @nil log_record).
Proof.
  split.
  - apply (empty_segment_is_returned (Samples.cdk_function_resource "/Resource")
             "FunctionLogicalId"
             [(RESOURCE_CDK_PATH_METADATA_KEY, VStr "/Resource")]
             "/Resource" "Resource" [] eq_refl eq_refl eq_refl eq_refl).
  - discriminate.
Defined.

(** * The parameter pass *)

Lemma append_assoc_string (a b c : string) : (a ++ b) ++ c = a ++ (b ++ c).
Proof. induction a as [|x a IH]; simpl; [reflexivity | rewrite IH; reflexivity]. Qed.

Lemma prefix_app (n post : string) : prefix n (n ++ post) = true.
Proof.
  induction n as [|c n IH]; simpl; [destruct post; reflexivity|].
  destruct (Ascii.ascii_dec c c) as [_|Hc]; [exact IH | congruence].
Qed.

Lemma contains_occurs (hay needle : string) :
  occurs needle hay -> PyStr.contains hay needle = true.
Proof.
  intros (pre & post & ->).
  induction pre as [|c pre IH].
  - cbn [append]. destruct (needle ++ post) eqn:E; cbn [PyStr.contains];
      rewrite <- E, prefix_app; reflexivity.
  - cbn [append PyStr.contains]. rewrite IH. apply orb_true_r.
Qed.

Lemma occurs_refl (s : string) : occurs s s.
Proof.
  exists "", "". cbn [append].
  induction s as [|c s IH]; [reflexivity|]. cbn [append]. rewrite <- IH. reflexivity.
Qed.

Lemma occurs_wrap (n s a b : string) : occurs n s -> occurs n (a ++ s ++ b).
Proof.
  intros (pre & post & ->). exists (a ++ pre), (post ++ b).
  rewrite !append_assoc_string. reflexivity.
Qed.

Lemma occurs_app_l (n s b : string) : occurs n s -> occurs n (s ++ b).
Proof. intros H. apply (occurs_wrap n s "" b) in H. exact H. Qed.

Lemma occurs_app_r (n s a : string) : occurs n s -> occurs n (a ++ s).
Proof.
  intros (pre & post & ->). exists (a ++ pre), post.
  rewrite !append_assoc_string. reflexivity.
Qed.

Lemma occurs_join (n sep : string) (l : list string) :
  (exists x, In x l /\ occurs n x) -> occurs n (PyStr.join sep l).
Proof.
  intros (x & Hin & Hx). induction l as [|y l IH]; [contradiction|].
  destruct l as [|z l].
  - destruct Hin as [->|[]]. exact Hx.
  - change (PyStr.join sep (y :: z :: l)) with (y ++ sep ++ PyStr.join sep (z :: l)).
    destruct Hin as [->|Hin].
    + apply occurs_app_l. exact Hx.
    + apply occurs_app_r, occurs_app_r, IH. exact Hin.
Qed.

Lemma dumps_dict (d : dict) :
  Json.dumps (VDict d) =
  "{" ++ PyStr.join ", "
           (map (fun kv => Json.quote (fst kv) ++ ": " ++ Json.dumps (snd kv)) d)
      ++ "}".
Proof. reflexivity. Qed.

Lemma dumps_list (l : list value) :
  Json.dumps (VList l) = "[" ++ PyStr.join ", " (map Json.dumps l) ++ "]".
Proof. reflexivity. Qed.

Lemma ref_needle_plain (name : string) :
  json_plain name ->
  Json.quote "Ref" ++ ": " ++ Json.dumps (VStr name) = ref_needle name.
Proof.
  unfold json_plain. intros H. unfold ref_needle.
  change (Json.dumps (VStr name))
    with (String PyStr.dquote (Json.escape name ++ String PyStr.dquote "")).
  rewrite H. reflexivity.
Qed.

(** A reference to a parameter whose name needs no escape is found by the
    textual scan of the serialized document. *)
Lemma refers_to_occurs (name : string) (v : value) :
  json_plain name -> refers_to name v -> occurs (ref_needle name) (Json.dumps v).
Proof.
  intros Hplain H. induction H as [d Hin|d k v Hin _ IH|l v Hin _ IH].
  - rewrite dumps_dict. apply occurs_wrap, occurs_join.
    exists (Json.quote "Ref" ++ ": " ++ Json.dumps (VStr name)). split.
    + apply (in_map (fun kv => Json.quote (fst kv) ++ ": " ++ Json.dumps (snd kv))
               d ("Ref", VStr name) Hin).
    + rewrite (ref_needle_plain name Hplain). apply occurs_refl.
  - rewrite dumps_dict. apply occurs_wrap, occurs_join.
    exists (Json.quote k ++ ": " ++ Json.dumps v). split.
    + apply (in_map (fun kv => Json.quote (fst kv) ++ ": " ++ Json.dumps (snd kv))
               d (k, v) Hin).
    + apply occurs_app_r, occurs_app_r. exact IH.
  - rewrite dumps_list. apply occurs_wrap, occurs_join.
    exists (Json.dumps v). split; [apply in_map; exact Hin | exact IH].
Qed.

Lemma normalize_parameter_dict (ras name : string) (pd : dict) :
  PyStr.startswith name "AssetParameters" = true ->
  normalize_parameter ras name (VDict pd) =
  Ok (VDict (if negb (PyDict.mem "Default" pd)
                && is_str "String" (lookup "Type" (VStr "") pd)
                && negb (PyStr.contains ras (ref_needle name))
             then PyDict.set "Default" (VStr " ") pd else pd)).
Proof.
  intros Hpre. unfold normalize_parameter. rewrite Hpre.
  cbn [py_contains bind py_get]. fold (lookup "Type" (VStr "") pd).
  destruct (PyDict.mem "Default" pd); cbn [negb andb]; [reflexivity|].
  destruct (is_str "String" (lookup "Type" (VStr "") pd) && _); reflexivity.
Qed.

Lemma get_after_resources_other (t rs' : dict) (k : string) :
  String.eqb RESOURCES_KEY k = false ->
  PyDict.get k (after_resources t rs') = PyDict.get k t.
Proof.
  intros Hk. unfold after_resources.
  destruct (PyDict.get RESOURCES_KEY t); [|reflexivity].
  rewrite get_set, Hk. reflexivity.
Qed.

(** C5 as stated fails in two ways.  The scan reads the resources as the
    asset rewrite has left them: a parameter referenced only from the
    property that the rewrite replaces is found unreferenced and gets the
    default.  And the scan looks for the raw name: a referenced parameter
    whose name [json.dumps] escapes is not found either. *)
Lemma referenced_parameter_gets_default :
  (exists rs T',
     resources_of Samples.cdk_function = Some rs /\
     refers_to "AssetParametersFoo" (VDict rs) /\
     PyStr.contains (resources_as_string Samples.cdk_function)
       (ref_needle "AssetParametersFoo") = true /\
     parameter_of Samples.cdk_function "AssetParametersFoo"
       = Some (VDict [("Type", VStr "String")]) /\
     normalize (fun _ => true) Samples.cdk_function true = Ok (T', []) /\
     parameter_of T' "AssetParametersFoo"
       = Some (VDict [("Type", VStr "String"); ("Default", VStr " ")]) /\
     parameter_of T' "AssetParametersBar" = Some (VDict [("Type", VStr "String")])) /\
  (exists rs T',
     normalize (fun _ => true) Samples.escaped_reference true = Ok (T', []) /\
     resources_of T' = Some rs /\
     refers_to Samples.escaped_name (VDict rs) /\
     parameter_of T' Samples.escaped_name
       = Some (VDict [("Type", VStr "String"); ("Default", VStr " ")])).
Proof.
  split.
  - eexists _, _. split; [reflexivity|]. split.
    { eapply refers_in_dict; [left; reflexivity|].
      eapply refers_in_dict; [right; left; reflexivity|].
      eapply refers_in_dict; [left; reflexivity|].
      eapply refers_in_dict; [left; reflexivity|].
      apply refers_here. left. reflexivity. }
    split; [reflexivity|]. split; [reflexivity|]. split; [reflexivity|].
    split; reflexivity.
  - eexists _, _. split; [reflexivity|]. split; [reflexivity|]. split.
    { eapply refers_in_dict; [left; reflexivity|].
      eapply refers_in_dict; [right; left; reflexivity|].
      eapply refers_in_dict; [left; reflexivity|].
      apply refers_here. left. reflexivity. }
    reflexivity.
Qed.

(** C5, amended: when [normalize] is called with the parameter flag on a
    template that the detection predicate accepts once its resources are
    rewritten, then for every parameter whose name starts with
    [AssetParameters] and whose definition is a dict: [Default] is set to a
    single space if and only if the definition has no [Default], its
    [Type] is the string [String] and ["Ref": "<name>"] does not occur in
    the serialization of the resources as the rewrite has left them, and
    the definition is otherwise unchanged; in particular a parameter whose
    name needs no JSON escape and which those resources reference through
    [{"Ref": name}] keeps its definition. *)
Theorem asset_parameters_defaulted (is_cdk_project : value -> bool)
    (T T1 T' : value) (logs1 logs : list log_record) (name : string) (pd : dict) :
  normalize is_cdk_project T false = Ok (T1, logs1) ->
  is_cdk_project T1 = true ->
  normalize is_cdk_project T true = Ok (T', logs) ->
  PyStr.startswith name "AssetParameters" = true ->
  parameter_of T name = Some (VDict pd) ->
  parameter_of T' name =
    Some (VDict (if negb (PyDict.mem "Default" pd)
                    && is_str "String" (lookup "Type" (VStr "") pd)
                    && negb (PyStr.contains (resources_as_string T') (ref_needle name))
                 then PyDict.set "Default" (VStr " ") pd else pd)) /\
  (json_plain name ->
   forall rs', resources_of T' = Some rs' -> refers_to name (VDict rs') ->
   parameter_of T' name = Some (VDict pd)).
Proof.
  intros H1 Hcdk H Hpre Hp.
  assert (Hmain : parameter_of T' name =
    Some (VDict (if negb (PyDict.mem "Default" pd)
                    && is_str "String" (lookup "Type" (VStr "") pd)
                    && negb (PyStr.contains (resources_as_string T') (ref_needle name))
                 then PyDict.set "Default" (VStr " ") pd else pd))).
  { destruct T as [| | | | |t]; try discriminate.
    rewrite normalize_closed_form in H1, H.
    inv_bind H. rename a into rs. rewrite Ha in H1. cbn [bind] in H1.
    inv_bind H. destruct a as [rs' l]. rewrite Ha0 in H1. cbn [bind andb] in H1.
    injection H1 as <- <-. cbn [andb] in H. rewrite Hcdk in H.
    inv_bind H. rename a into ps. inv_bind H. rename a into ps'.
    injection H as <- <-.
    unfold parameter_of, parameters_of, section_of in Hp.
    destruct (PyDict.get "Parameters" t) as [[| | | | |ps0]|] eqn:Hps; try discriminate.
    unfold lookup in Ha1. rewrite get_after_resources_other in Ha1 by reflexivity.
    rewrite Hps in Ha1. injection Ha1 as <-.
    destruct (normalize_parameters_loop_get _ _ _ _ _ Ha2 Hp) as (pv' & Hpv & Hget).
    rewrite (normalize_parameter_dict _ _ _ Hpre) in Hpv. injection Hpv as <-.
    assert (Hras : resources_as_string (VDict (after_parameters (after_resources t rs') ps'))
                   = Json.dumps (VDict rs')).
    { unfold resources_as_string, resources_of, section_of.
      rewrite get_after_parameters by reflexivity. rewrite get_after_resources.
      unfold lookup in Ha.
      destruct (PyDict.get RESOURCES_KEY t) as [rv|]; [reflexivity|].
      injection Ha as <-. injection Ha0 as <- _. reflexivity. }
    rewrite Hras.
    unfold parameter_of, parameters_of, section_of, after_parameters.
    rewrite get_after_resources_other by reflexivity. rewrite Hps.
    rewrite get_set_same. exact Hget. }
  split; [exact Hmain|].
  intros Hplain rs' Hrs' Href. rewrite Hmain.
  assert (Hfound : PyStr.contains (resources_as_string T') (ref_needle name) = true).
  { apply contains_occurs. unfold resources_as_string. rewrite Hrs'.
    apply refers_to_occurs; assumption. }
  rewrite Hfound. cbn [negb]. rewrite andb_false_r. reflexivity.
Qed.

Lemma asset_parameters_defaulted_witness :
  exists T',
    normalize (fun _ => true) Samples.cdk_function true = Ok (T', []) /\
    parameter_of T' "AssetParametersFoo"
      = Some (VDict [("Type", VStr "String"); ("Default", VStr " ")]) /\
    parameter_of T' "AssetParametersBar" = Some (VDict [("Type", VStr "String")]).
Proof.
  eexists. split; [reflexivity|]. split.
  - apply (proj1 (asset_parameters_defaulted (fun _ => true)
                    Samples.cdk_function _ _ [] [] "AssetParametersFoo"
                    [("Type", VStr "String")]
                    eq_refl eq_refl eq_refl eq_refl eq_refl)).
  - refine (proj2 (asset_parameters_defaulted (fun _ => true)
                    Samples.cdk_function _ _ [] [] "AssetParametersBar"
                    [("Type", VStr "String")]
                    eq_refl eq_refl eq_refl eq_refl eq_refl) eq_refl _ eq_refl _).
    eapply refers_in_dict; [left; reflexivity|].
    eapply refers_in_dict; [right; left; reflexivity|].
    eapply refers_in_dict; [right; left; reflexivity|].
    apply refers_here. left. reflexivity.
Defined.


(** * Further properties of the normalizer *)

(** ** What a run does to the metadata of a resource *)

Lemma image_base_get (md base : dict) (k : string) :
  image_base md = Ok base -> image_key k = false ->
  PyDict.get k base = PyDict.get k md.
Proof.
  intros H Hk. unfold image_key in Hk.
  apply orb_false_iff in Hk as [Hk Hk3]. apply orb_false_iff in Hk as [Hk1 Hk2].
  apply image_base_inv in H as [[_ ->]|[_ (a & f & _ & _ & ->)]]; [reflexivity|].
  rewrite !get_set, Hk1, Hk2, Hk3. reflexivity.
Qed.

Lemma get_skip_build_propagate (md : dict) :
  PyDict.get SAM_METADATA_SKIP_BUILD_KEY (propagate_skip_build md) =
  if truthy (lookup ASSET_BUNDLED_METADATA_KEY (VBool false) md)
  then Some (VBool true)
  else PyDict.get SAM_METADATA_SKIP_BUILD_KEY md.
Proof.
  unfold propagate_skip_build.
  destruct (truthy _); [apply get_set_same | reflexivity].
Qed.

(** The metadata after one iteration: the keys the normalizer does not
    write keep their entries, the marker is set when the substitution ran,
    and the skip-build flag follows the bundled flag. *)
Lemma normalize_resource_metadata (lid : string) (r r' : value)
    (l : list log_record) (md : dict) :
  normalize_resource lid r = Ok (r', l) ->
  metadata_of r = Some md ->
  exists md',
    metadata_of r' = Some md' /\
    (forall k, image_key k = false ->
               String.eqb SAM_IS_NORMALIZED k = false ->
               String.eqb SAM_METADATA_SKIP_BUILD_KEY k = false ->
               PyDict.get k md' = PyDict.get k md) /\
    marked md' =
      marked md || truthy (asset_property_of md) && truthy (asset_path_of lid md) /\
    PyDict.get SAM_METADATA_SKIP_BUILD_KEY md' =
      if truthy (lookup ASSET_BUNDLED_METADATA_KEY (VBool false) md)
      then Some (VBool true)
      else PyDict.get SAM_METADATA_SKIP_BUILD_KEY md.
Proof.
  intros H Hmd. destruct (marked md) eqn:Hm.
  - destruct (normalize_resource_skips _ _ _ _ _ H Hmd Hm) as (_ & Hmd' & _).
    exists (propagate_skip_build md). split; [exact Hmd'|]. split; [|split].
    + intros k _ _ Hk. apply get_propagate_skip_build. exact Hk.
    + rewrite marked_propagate_skip_build. exact Hm.
    + apply get_skip_build_propagate.
  - destruct (truthy (asset_property_of md) && truthy (asset_path_of lid md)) eqn:Hboth.
    + destruct (normalize_resource_rewrites _ _ _ _ _ H Hmd Hm Hboth)
        as (rd & s & base & _ & _ & Hb & _ & Hmd' & _).
      eexists. split; [exact Hmd'|]. split; [|split].
      * intros k Hi Hn Hk. rewrite get_propagate_skip_build by exact Hk.
        rewrite get_set, Hn. apply image_base_get; assumption.
      * rewrite marked_propagate_skip_build. apply marked_set_normalized.
      * rewrite get_skip_build_propagate, !lookup_set.
        cbn [String.eqb Ascii.eqb Bool.eqb SAM_IS_NORMALIZED ASSET_BUNDLED_METADATA_KEY].
        change (String.eqb SAM_IS_NORMALIZED ASSET_BUNDLED_METADATA_KEY) with false.
        cbv iota. rewrite get_set.
        change (String.eqb SAM_IS_NORMALIZED SAM_METADATA_SKIP_BUILD_KEY) with false.
        cbv iota.
        rewrite (image_base_lookup md base _ _ Hb) by reflexivity.
        rewrite (image_base_get md base _ Hb) by reflexivity. reflexivity.
    + destruct (normalize_resource_ignores _ _ _ _ _ H Hmd Hm Hboth)
        as (base & Hb & _ & Hmd' & _).
      eexists. split; [exact Hmd'|]. split; [|split].
      * intros k Hi Hn Hk. rewrite get_propagate_skip_build by exact Hk.
        apply image_base_get; assumption.
      * destruct (asset_reads_stable lid md base Hb) as (-> & _). exact Hm.
      * rewrite get_skip_build_propagate.
        rewrite (image_base_lookup md base _ _ Hb) by reflexivity.
        rewrite (image_base_get md base _ Hb) by reflexivity. reflexivity.
Qed.

(** X1: a resource whose metadata has a true bundled flag has
    [SkipBuild] set to [True] in its metadata after [normalize], marked
    or not, whatever its other metadata. *)
Theorem bundled_sets_skip_build (is_cdk_project : value -> bool)
    (T T' : value) (np : bool) (logs : list log_record)
    (lid : string) (r : value) (md : dict) :
  normalize is_cdk_project T np = Ok (T', logs) ->
  resource_of T lid = Some r ->
  metadata_of r = Some md ->
  truthy (lookup ASSET_BUNDLED_METADATA_KEY (VBool false) md) = true ->
  exists r' md',
    resource_of T' lid = Some r' /\ metadata_of r' = Some md' /\
    PyDict.get SAM_METADATA_SKIP_BUILD_KEY md' = Some (VBool true).
Proof.
  intros H Hr Hmd Hb.
  destruct (normalize_resource_of _ _ _ _ _ _ _ H Hr) as (r' & l & Hn & Hr').
  destruct (normalize_resource_metadata _ _ _ _ _ Hn Hmd) as (md' & Hmd' & _ & _ & Hs).
  rewrite Hb in Hs. eauto.
Qed.

Lemma bundled_sets_skip_build_witness :
  exists T' r' md',
    normalize (fun _ => false) Samples.bundled_function false = Ok (T', []) /\
    resource_of T' "Function1" = Some r' /\ metadata_of r' = Some md' /\
    PyDict.get SAM_METADATA_SKIP_BUILD_KEY md' = Some (VBool true).
Proof.
  eexists. 
  destruct (bundled_sets_skip_build (fun _ => false) Samples.bundled_function _ false []
              "Function1" _ _ eq_refl eq_refl eq_refl eq_refl)
    as (r' & md' & H1 & H2 & H3).
  exists r', md'. split; [reflexivity|]. auto.
Defined.

(** X2: a resource whose bundled flag is absent or false keeps the
    [SkipBuild] entry of its metadata as it was, absent when it was
    absent. *)
Theorem unbundled_keeps_skip_build (is_cdk_project : value -> bool)
    (T T' : value) (np : bool) (logs : list log_record)
    (lid : string) (r : value) (md : dict) :
  normalize is_cdk_project T np = Ok (T', logs) ->
  resource_of T lid = Some r ->
  metadata_of r = Some md ->
  truthy (lookup ASSET_BUNDLED_METADATA_KEY (VBool false) md) = false ->
  exists r' md',
    resource_of T' lid = Some r' /\ metadata_of r' = Some md' /\
    PyDict.get SAM_METADATA_SKIP_BUILD_KEY md' =
      PyDict.get SAM_METADATA_SKIP_BUILD_KEY md.
Proof.
  intros H Hr Hmd Hb.
  destruct (normalize_resource_of _ _ _ _ _ _ _ H Hr) as (r' & l & Hn & Hr').
  destruct (normalize_resource_metadata _ _ _ _ _ Hn Hmd) as (md' & Hmd' & _ & _ & Hs).
  rewrite Hb in Hs. eauto.
Qed.

Lemma unbundled_keeps_skip_build_witness :
  exists T' r' md',
    normalize (fun _ => false) Samples.with_siblings false = Ok (T', []) /\
    resource_of T' "Function1" = Some r' /\ metadata_of r' = Some md' /\
    PyDict.get SAM_METADATA_SKIP_BUILD_KEY md' = None.
Proof.
  eexists.
  destruct (unbundled_keeps_skip_build (fun _ => false) Samples.with_siblings _ false []
              "Function1" _ _ eq_refl eq_refl eq_refl eq_refl)
    as (r' & md' & H1 & H2 & H3).
  exists r', md'. split; [reflexivity|]. auto.
Defined.

(** X3: [normalize] writes five metadata keys and no other: every entry
    of a resource's metadata under another key, the vendor annotations
    among them, is after the run what it was before. *)
Theorem metadata_annotations_kept (is_cdk_project : value -> bool)
    (T T' : value) (np : bool) (logs : list log_record)
    (lid : string) (r : value) (md : dict) (k : string) :
  normalize is_cdk_project T np = Ok (T', logs) ->
  resource_of T lid = Some r ->
  metadata_of r = Some md ->
  ~ In k [SAM_METADATA_DOCKERFILE_KEY; SAM_METADATA_DOCKER_CONTEXT_KEY;
          SAM_METADATA_DOCKER_BUILD_ARGS_KEY; SAM_IS_NORMALIZED;
          SAM_METADATA_SKIP_BUILD_KEY] ->
  exists r' md',
    resource_of T' lid = Some r' /\ metadata_of r' = Some md' /\
    PyDict.get k md' = PyDict.get k md.
Proof.
  intros H Hr Hmd Hk.
  destruct (normalize_resource_of _ _ _ _ _ _ _ H Hr) as (r' & l & Hn & Hr').
  destruct (normalize_resource_metadata _ _ _ _ _ Hn Hmd) as (md' & Hmd' & Hf & _).
  exists r', md'. split; [exact Hr'|]. split; [exact Hmd'|].
  cbn [In] in Hk.
  apply Hf.
  - unfold image_key. rewrite !orb_false_iff. repeat split; apply String.eqb_neq; tauto.
  - apply String.eqb_neq; tauto.
  - apply String.eqb_neq; tauto.
Qed.

Lemma metadata_annotations_kept_witness :
  exists T' r' md',
    normalize (fun _ => false) Samples.image_function false = Ok (T', []) /\
    resource_of T' "MyFunction" = Some r' /\ metadata_of r' = Some md' /\
    PyDict.get ASSET_DOCKERFILE_PATH_KEY md' = Some (VStr "src/docker/Dockerfile").
Proof.
  eexists.
  destruct (metadata_annotations_kept (fun _ => false) Samples.image_function _ false []
              "MyFunction" _ _ ASSET_DOCKERFILE_PATH_KEY eq_refl eq_refl eq_refl)
    as (r' & md' & H1 & H2 & H3).
  - cbn [In]. intros [H|[H|[H|[H|[H|[]]]]]]; discriminate H.
  - exists r', md'. split; [reflexivity|]. auto.
Defined.

(** X4: after [normalize], a resource is marked exactly when it was
    marked before or had both a locator and a path to substitute. *)
Theorem marked_iff_substituted (is_cdk_project : value -> bool)
    (T T' : value) (np : bool) (logs : list log_record)
    (lid : string) (r : value) (md : dict) :
  normalize is_cdk_project T np = Ok (T', logs) ->
  resource_of T lid = Some r ->
  metadata_of r = Some md ->
  exists r' md',
    resource_of T' lid = Some r' /\ metadata_of r' = Some md' /\
    (marked md' = true <->
     marked md = true \/
     (truthy (asset_property_of md) = true /\ truthy (asset_path_of lid md) = true)).
Proof.
  intros H Hr Hmd.
  destruct (normalize_resource_of _ _ _ _ _ _ _ H Hr) as (r' & l & Hn & Hr').
  destruct (normalize_resource_metadata _ _ _ _ _ Hn Hmd) as (md' & Hmd' & _ & Hm & _).
  exists r', md'. split; [exact Hr'|]. split; [exact Hmd'|].
  rewrite Hm, orb_true_iff, andb_true_iff. reflexivity.
Qed.

Lemma marked_iff_substituted_witness :
  exists T' r' md',
    normalize (fun _ => false) Samples.path_without_locator false
      = Ok (T', [LogIgnoringMetadata "Function1"]) /\
    resource_of T' "Function1" = Some r' /\ metadata_of r' = Some md' /\
    marked md' = false.
Proof.
  eexists.
  destruct (marked_iff_substituted (fun _ => false) Samples.path_without_locator _ false _
              "Function1" _ _ eq_refl eq_refl eq_refl)
    as (r' & md' & H1 & H2 & H3).
  exists r', md'. split; [reflexivity|]. split; [exact H1|]. split; [exact H2|].
  destruct (marked md') eqn:E; [|reflexivity].
  destruct (proj1 H3 eq_refl) as [H|[H _]]; discriminate H.
Defined.

(** ** What a run leaves alone *)

Lemma normalize_resource_frame (lid : string) (r r' : value)
    (l : list log_record) (k : string) :
  normalize_resource lid r = Ok (r', l) ->
  String.eqb PROPERTIES_KEY k = false -> String.eqb METADATA_KEY k = false ->
  field k r' = field k r.
Proof.
  intros H Hp Hm.
  apply normalize_resource_inv in H as (rd & -> & [(_ & -> & _)|(md & Hmd & H)]);
    [reflexivity|].
  unfold resource_outcome in H.
  destruct (marked md).
  { injection H as <- _. apply field_with_metadata. exact Hm. }
  inv_bind H.
  destruct (truthy (asset_property_of md) && truthy (asset_path_of lid md)).
  - destruct (asset_property_of md) as [| | |s| |]; try discriminate.
    destruct (PyDict.get PROPERTIES_KEY rd) as [[| | | | |properties]|];
      try discriminate; injection H as <- _;
      rewrite field_with_metadata by exact Hm; [|reflexivity].
    rewrite get_set, Hp. reflexivity.
  - injection H as <- _. apply field_with_metadata. exact Hm.
Qed.

Lemma normalize_resources_keys (rs rs' : dict) (logs : list log_record) :
  normalize_resources rs = Ok (rs', logs) -> PyDict.keys rs' = PyDict.keys rs.
Proof.
  revert rs' logs. induction rs as [|[k v] rs IH]; intros rs' logs H.
  - injection H as <- _. reflexivity.
  - cbn [normalize_resources] in H.
    inv_bind H. destruct a as [v' l1]. inv_bind H. destruct a as [rest l2].
    injection H as <- _. cbn. f_equal. eapply IH. eassumption.
Qed.

(** X5: [normalize] declares the same resources after as before, under
    the same logical ids in the same order, and leaves every entry of a
    resource other than [Properties] and [Metadata], its [Type] among
    them, as it was. *)
Theorem resources_keep_ids_and_other_entries (is_cdk_project : value -> bool)
    (T T' : value) (np : bool) (logs : list log_record) (rs : dict) :
  normalize is_cdk_project T np = Ok (T', logs) ->
  resources_of T = Some rs ->
  exists rs',
    resources_of T' = Some rs' /\
    PyDict.keys rs' = PyDict.keys rs /\
    forall lid r k,
      PyDict.get lid rs = Some r ->
      k <> PROPERTIES_KEY -> k <> METADATA_KEY ->
      exists r', PyDict.get lid rs' = Some r' /\ field k r' = field k r.
Proof.
  intros H Hrs. apply normalize_inv in H as (t & t' & -> & -> & H).
  rewrite (resources_of_Some _ _ Hrs) in H.
  destruct H as (rs0 & rs' & E & Hn & Hres). injection E as <-.
  exists rs'. split.
  { unfold resources_of, section_of. rewrite Hres. reflexivity. }
  split; [eapply normalize_resources_keys; eassumption|].
  intros lid r k Hg Hp Hm.
  destruct (normalize_resources_get _ _ _ _ _ Hn Hg) as (r' & l & Hr & Hg').
  exists r'. split; [exact Hg'|].
  eapply normalize_resource_frame; [eassumption | |];
    apply String.eqb_neq; congruence.
Qed.

Lemma resources_keep_ids_and_other_entries_witness :
  exists T' rs',
    normalize (fun _ => false) Samples.with_siblings false = Ok (T', []) /\
    resources_of T' = Some rs' /\
    PyDict.keys rs' = ["Function1"] /\
    exists r', PyDict.get "Function1" rs' = Some r' /\
               field "Type" r' = Some (VStr "AWS::Lambda::Function").
Proof.
  eexists.
  destruct (resources_keep_ids_and_other_entries (fun _ => false)
              Samples.with_siblings _ false [] _ eq_refl eq_refl)
    as (rs' & H1 & H2 & H3).
  exists rs'. split; [reflexivity|]. split; [exact H1|]. split; [exact H2|].
  refine (H3 "Function1" _ "Type" eq_refl _ _); discriminate.
Defined.

(** X6: when the substitution runs on a [Properties] dict, the entries
    of [Properties] under keys other than the first segment of the locator
    are kept: only what the first segment names is replaced. *)
Theorem other_properties_kept (is_cdk_project : value -> bool)
    (T T' : value) (np : bool) (logs : list log_record)
    (lid : string) (r : value) (md properties : dict) (s key : string) :
  normalize is_cdk_project T np = Ok (T', logs) ->
  resource_of T lid = Some r ->
  metadata_of r = Some md -> marked md = false ->
  asset_property_of md = VStr s ->
  truthy (VStr s) && truthy (asset_path_of lid md) = true ->
  field PROPERTIES_KEY r = Some (VDict properties) ->
  key <> hd "" (PyStr.split "." s) ->
  exists properties',
    properties_of T' lid = Some (VDict properties') /\
    PyDict.get key properties' = PyDict.get key properties.
Proof.
  intros H Hr Hmd Hm Hs Hboth Hp Hkey. rewrite <- Hs in Hboth.
  destruct (normalize_rewrites_properties _ _ _ _ _ _ _ _ _ H Hr Hmd Hm Hboth Hp)
    as (s' & properties0 & r' & Hs' & E & Hr' & Hp' & _).
  rewrite Hs in Hs'. injection Hs' as <-. injection E as <-.
  eexists. rewrite (properties_of_resource _ _ _ Hr'). split; [exact Hp'|].
  unfold rewritten_properties.
  destruct (PyStr.split "." s) as [|k rest]; [reflexivity|].
  cbn [hd] in Hkey. rewrite get_set.
  destruct (String.eqb k key) eqn:E; [|reflexivity].
  apply String.eqb_eq in E. congruence.
Qed.

Lemma other_properties_kept_witness :
  exists T' properties',
    normalize (fun _ => false) Samples.with_siblings false = Ok (T', []) /\
    properties_of T' "Function1" = Some (VDict properties') /\
    PyDict.get "Runtime" properties' = Some (VStr "python3.9").
Proof.
  eexists.
  destruct (other_properties_kept (fun _ => false) Samples.with_siblings _ false []
              "Function1" _ _ _ "Code.S3Key" "Runtime"
              eq_refl eq_refl eq_refl eq_refl eq_refl eq_refl eq_refl)
    as (properties' & H1 & H2).
  - discriminate.
  - exists properties'. split; [reflexivity|]. auto.
Defined.

(** X7: a resource that is already marked keeps its [Properties], and no
    diagnostic names it, the logical ids being distinct. *)
Theorem marked_resource_is_skipped (is_cdk_project : value -> bool)
    (T T' : value) (np : bool) (logs : list log_record)
    (rs : dict) (lid : string) (r : value) (md : dict) :
  normalize is_cdk_project T np = Ok (T', logs) ->
  resources_of T = Some rs -> NoDup (PyDict.keys rs) ->
  PyDict.get lid rs = Some r ->
  metadata_of r = Some md -> marked md = true ->
  properties_of T' lid = field PROPERTIES_KEY r /\
  filter (names_resource lid) logs = [].
Proof.
  intros H Hrs Hnd Hg Hmd Hm.
  apply normalize_inv in H as (t & t' & -> & -> & H).
  rewrite (resources_of_Some _ _ Hrs) in H.
  destruct H as (rs0 & rs' & E & Hn & Hres). injection E as <-.
  destruct (normalize_resources_get _ _ _ _ _ Hn Hg) as (r' & l & Hr & Hg').
  destruct (normalize_resource_skips _ _ _ _ _ Hr Hmd Hm) as (Hp & _ & Hl).
  split.
  - unfold properties_of. rewrite (resource_of_dict _ _ _ Hres), Hg'. exact Hp.
  - rewrite (normalize_resources_logs _ _ _ _ _ _ _ Hn Hnd Hg Hr), Hl. reflexivity.
Qed.

Lemma marked_resource_is_skipped_witness :
  properties_of Samples.marked_path_without_locator "Function1"
    = Some (VDict [("Runtime", VStr "python3.9")]) /\
  filter (names_resource "Function1") (@nil log_record) = [].
Proof.
  refine (marked_resource_is_skipped (fun _ => false)
            Samples.marked_path_without_locator Samples.marked_path_without_locator
            false [] _ "Function1" _ _ eq_refl eq_refl _ eq_refl eq_refl eq_refl).
  exact (NoDup_cons "Function1" (fun H : In "Function1" [] => H) (NoDup_nil string)).
Defined.

(** X8: a resource that is not marked and has neither a locator nor a
    path keeps its [Properties], stays unmarked, and no diagnostic names
    it, the logical ids being distinct. *)
Theorem resource_without_asset_is_untouched (is_cdk_project : value -> bool)
    (T T' : value) (np : bool) (logs : list log_record)
    (rs : dict) (lid : string) (r : value) (md : dict) :
  normalize is_cdk_project T np = Ok (T', logs) ->
  resources_of T = Some rs -> NoDup (PyDict.keys rs) ->
  PyDict.get lid rs = Some r ->
  metadata_of r = Some md -> marked md = false ->
  truthy (asset_property_of md) = false ->
  truthy (asset_path_of lid md) = false ->
  properties_of T' lid = field PROPERTIES_KEY r /\
  filter (names_resource lid) logs = [] /\
  exists r' md',
    resource_of T' lid = Some r' /\ metadata_of r' = Some md' /\ marked md' = false.
Proof.
  intros H Hrs Hnd Hg Hmd Hm Hloc Hpath.
  apply normalize_inv in H as (t & t' & -> & -> & H).
  rewrite (resources_of_Some _ _ Hrs) in H.
  destruct H as (rs0 & rs' & E & Hn & Hres). injection E as <-.
  destruct (normalize_resources_get _ _ _ _ _ Hn Hg) as (r' & l & Hr & Hg').
  assert (Hboth : truthy (asset_property_of md) && truthy (asset_path_of lid md) = false)
    by (rewrite Hloc; reflexivity).
  destruct (normalize_resource_ignores _ _ _ _ _ Hr Hmd Hm Hboth)
    as (base & Hb & Hp & Hmd' & Hl).
  rewrite Hloc, Hpath in Hl. cbn [orb] in Hl.
  assert (Hr' : resource_of (VDict t') lid = Some r').
  { rewrite (resource_of_dict _ _ _ Hres). exact Hg'. }
  split; [rewrite (properties_of_resource _ _ _ Hr'); exact Hp|].
  split.
  - rewrite (normalize_resources_logs _ _ _ _ _ _ _ Hn Hnd Hg Hr), Hl. reflexivity.
  - exists r', (propagate_skip_build base). split; [exact Hr'|].
    split; [exact Hmd'|].
    destruct (asset_reads_stable lid md base Hb) as (-> & _). exact Hm.
Qed.

Lemma resource_without_asset_is_untouched_witness :
  properties_of Samples.plain_bucket "Bucket1"
    = Some (VDict [("BucketName", VStr "b")]) /\
  filter (names_resource "Bucket1") (@nil log_record) = [] /\
  exists r' md',
    resource_of Samples.plain_bucket "Bucket1" = Some r' /\
    metadata_of r' = Some md' /\ marked md' = false.
Proof.
  refine (resource_without_asset_is_untouched (fun _ => false)
            Samples.plain_bucket Samples.plain_bucket
            false [] _ "Bucket1" _ _ eq_refl eq_refl _ eq_refl eq_refl eq_refl
            eq_refl eq_refl).
  exact (NoDup_cons "Bucket1" (fun H : In "Bucket1" [] => H) (NoDup_nil string)).
Defined.

(** ** The two passes, one after the other *)

(** A run that returns is the resource pass, followed by the parameter
    pass when the flag is set and the rewritten template is detected. *)
Lemma normalize_phases (is_cdk_project : value -> bool) (t : dict) (np : bool)
    (T' : value) (logs : list log_record) :
  normalize is_cdk_project (VDict t) np = Ok (T', logs) ->
  exists rs',
    normalize is_cdk_project (VDict t) false = Ok (VDict (after_resources t rs'), logs) /\
    if np && is_cdk_project (VDict (after_resources t rs')) then
      exists ps ps',
        py_items (lookup "Parameters" (VDict []) (after_resources t rs')) = Ok ps /\
        normalize_parameters_loop (Json.dumps (VDict rs')) ps = Ok ps' /\
        T' = VDict (after_parameters (after_resources t rs') ps')
    else T' = VDict (after_resources t rs').
Proof.
  intros H. rewrite normalize_closed_form in H. rewrite normalize_closed_form.
  inv_bind H. rewrite Ha. cbn [bind].
  inv_bind H. destruct a0 as [rs' l]. rewrite Ha0. cbn [bind andb].
  cbv zeta in H |- *. exists rs'.
  destruct (np && is_cdk_project (VDict (after_resources t rs'))).
  - inv_bind H. inv_bind H. injection H as <- <-. split; [reflexivity|].
    exists a0, a1. auto.
  - injection H as <- <-. auto.
Qed.

Lemma normalize_dict (is_cdk_project : value -> bool) (T T' : value) (np : bool)
    (logs : list log_record) :
  normalize is_cdk_project T np = Ok (T', logs) -> exists t, T = VDict t.
Proof. destruct T; try discriminate. eauto. Qed.

(** X9: [normalize] leaves every top-level entry of the template other
    than [Resources] and [Parameters] as it was. *)
Theorem other_sections_kept (is_cdk_project : value -> bool)
    (T T' : value) (np : bool) (logs : list log_record) (k : string) :
  normalize is_cdk_project T np = Ok (T', logs) ->
  k <> RESOURCES_KEY -> k <> "Parameters" ->
  field k T' = field k T.
Proof.
  intros H Hr Hp. destruct (normalize_dict _ _ _ _ _ H) as (t & ->).
  apply normalize_phases in H as (rs' & _ & H).
  assert (Hr' : String.eqb RESOURCES_KEY k = false) by (apply String.eqb_neq; congruence).
  assert (Hp' : String.eqb "Parameters" k = false) by (apply String.eqb_neq; congruence).
  destruct (np && is_cdk_project _).
  - destruct H as (ps & ps' & _ & _ & ->). cbn [field].
    rewrite get_after_parameters by exact Hp'.
    apply get_after_resources_other. exact Hr'.
  - subst T'. cbn [field]. apply get_after_resources_other. exact Hr'.
Qed.

Lemma other_sections_kept_witness :
  exists T',
    normalize (fun _ => true) Samples.bundled_function true = Ok (T', []) /\
    field "Outputs" T' = Some (VDict [("Name", VDict [("Value", VStr "x")])]).
Proof.
  eexists. split; [reflexivity|].
  refine (other_sections_kept (fun _ => true) Samples.bundled_function _ true []
            "Outputs" eq_refl _ _); discriminate.
Defined.

(** X10: the parameter pass is gated twice.  Without the flag, or when
    the template as the resource pass leaves it is not detected as a
    synthesized one, [normalize] returns what the resource pass alone
    returns, its [Parameters] untouched. *)
Theorem parameter_pass_is_gated (is_cdk_project : value -> bool)
    (T T1 : value) (np : bool) (logs : list log_record) :
  normalize is_cdk_project T false = Ok (T1, logs) ->
  np = false \/ is_cdk_project T1 = false ->
  normalize is_cdk_project T np = Ok (T1, logs) /\
  field "Parameters" T1 = field "Parameters" T.
Proof.
  intros H Hgate. destruct (normalize_dict _ _ _ _ _ H) as (t & ->).
  pose proof H as H0. apply normalize_phases in H0 as (rs' & _ & H0).
  cbn [andb] in H0. subst T1. split.
  - rewrite normalize_closed_form in H. rewrite normalize_closed_form.
    inv_bind H. rewrite Ha. cbn [bind].
    inv_bind H. destruct a0 as [rs'' l]. rewrite Ha0. cbn [bind andb] in *.
    cbv zeta in H |- *. injection H as E <-.
    assert (Hg : np && is_cdk_project (VDict (after_resources t rs'')) = false).
    { rewrite E. destruct Hgate as [->| ->]; [reflexivity | apply andb_false_r]. }
    rewrite Hg, E. reflexivity.
  - cbn [field]. apply get_after_resources_other. reflexivity.
Qed.

Lemma parameter_pass_is_gated_witness :
  exists T1,
    normalize (fun _ => false) Samples.cdk_function true = Ok (T1, []) /\
    field "Parameters" T1 = field "Parameters" Samples.cdk_function.
Proof.
  eexists.
  refine (parameter_pass_is_gated (fun _ => false) Samples.cdk_function _ true []
            eq_refl (or_intror eq_refl)).
Defined.

Lemma normalize_parameters_loop_keys (ras : string) (ps ps' : dict) :
  normalize_parameters_loop ras ps = Ok ps' -> PyDict.keys ps' = PyDict.keys ps.
Proof.
  revert ps'. induction ps as [|[k v] ps IH]; intros ps' H.
  - injection H as <-. reflexivity.
  - cbn [normalize_parameters_loop] in H. inv_bind H. inv_bind H.
    injection H as <-. cbn. f_equal. apply IH. assumption.
Qed.

(** X11: whatever the flag and the detection, [normalize] declares the
    same parameters after as before, under the same names in the same
    order, and a parameter whose name does not start with
    [AssetParameters] keeps its definition, whatever that is. *)
Theorem other_parameters_kept (is_cdk_project : value -> bool)
    (T T' : value) (np : bool) (logs : list log_record) (ps : dict) :
  normalize is_cdk_project T np = Ok (T', logs) ->
  parameters_of T = Some ps ->
  exists ps',
    parameters_of T' = Some ps' /\
    PyDict.keys ps' = PyDict.keys ps /\
    forall name pv,
      PyDict.get name ps = Some pv ->
      PyStr.startswith name "AssetParameters" = false ->
      PyDict.get name ps' = Some pv.
Proof.
  intros H Hps. destruct (normalize_dict _ _ _ _ _ H) as (t & ->).
  apply normalize_phases in H as (rs' & _ & H).
  assert (Hget : PyDict.get "Parameters" (after_resources t rs') = Some (VDict ps)).
  { rewrite get_after_resources_other by reflexivity.
    unfold parameters_of, section_of in Hps.
    destruct (PyDict.get "Parameters" t) as [[| | | | |d]|]; try discriminate.
    injection Hps as ->. reflexivity. }
  destruct (np && is_cdk_project _).
  - destruct H as (ps0 & ps' & Hitems & Hloop & ->).
    unfold lookup in Hitems. rewrite Hget in Hitems. injection Hitems as <-.
    exists ps'. split.
    { unfold parameters_of, section_of, after_parameters. rewrite Hget.
      rewrite get_set_same. reflexivity. }
    split; [eapply normalize_parameters_loop_keys; eassumption|].
    intros name pv Hg Hpre.
    destruct (normalize_parameters_loop_get _ _ _ _ _ Hloop Hg) as (pv' & Hpv & Hg').
    unfold normalize_parameter in Hpv. rewrite Hpre in Hpv. injection Hpv as <-.
    exact Hg'.
  - subst T'. exists ps. split.
    { unfold parameters_of, section_of. rewrite Hget. reflexivity. }
    auto.
Qed.

Lemma other_parameters_kept_witness :
  exists T' ps',
    normalize (fun _ => true) Samples.mixed_parameters true = Ok (T', []) /\
    parameters_of T' = Some ps' /\
    PyDict.keys ps' = ["Stage"; "AssetParametersA"; "AssetParametersB"] /\
    PyDict.get "Stage" ps' = Some (VStr "prod").
Proof.
  eexists.
  destruct (other_parameters_kept (fun _ => true) Samples.mixed_parameters _ true [] _
              eq_refl eq_refl) as (ps' & H1 & H2 & H3).
  exists ps'. split; [reflexivity|]. split; [exact H1|]. split; [exact H2|].
  exact (H3 "Stage" (VStr "prod") eq_refl eq_refl).
Defined.

(** ** Exceptions *)

Lemma normalize_resources_raise (pre pre' post : dict) (l : list log_record)
    (lid : string) (r : value) (e : exn) :
  normalize_resources pre = Ok (pre', l) ->
  normalize_resource lid r = Raise e ->
  normalize_resources (pre ++ (lid, r) :: post)%list = Raise e.
Proof.
  revert pre' l. induction pre as [|[k v] pre IH]; intros pre' l Hpre Hr.
  - cbn [app normalize_resources]. rewrite Hr. reflexivity.
  - cbn [app normalize_resources] in *.
    inv_bind Hpre. destruct a as [v' l1]. inv_bind Hpre. destruct a as [rest l2].
    rewrite Ha. cbn [bind]. rewrite (IH _ _ Ha0 Hr). reflexivity.
Qed.

(** X12: the first resource, in the order of the template, whose
    iteration raises ends the run: [normalize] raises the same exception,
    whatever resources follow and whatever the parameter flag. *)
Theorem first_failing_resource_aborts (is_cdk_project : value -> bool)
    (T : value) (np : bool) (pre pre' post : dict) (l : list log_record)
    (lid : string) (r : value) (e : exn) :
  resources_of T = Some (pre ++ (lid, r) :: post)%list ->
  normalize_resources pre = Ok (pre', l) ->
  normalize_resource lid r = Raise e ->
  normalize is_cdk_project T np = Raise e.
Proof.
  intros Hrs Hpre Hr.
  destruct T as [| | | | |t]; try discriminate.
  apply resources_of_Some in Hrs.
  rewrite normalize_closed_form. unfold lookup. rewrite Hrs. cbn [py_items bind].
  rewrite (normalize_resources_raise _ _ _ _ _ _ _ Hpre Hr). reflexivity.
Qed.

Lemma first_failing_resource_aborts_witness :
  normalize (fun _ => true) Samples.properties_list true = Raise TypeError.
Proof.
  exact (first_failing_resource_aborts (fun _ => true) Samples.properties_list true
           [("Bucket1", VDict [("Type", VStr "AWS::S3::Bucket")])]
           [("Bucket1", VDict [("Type", VStr "AWS::S3::Bucket")])]
           [] [] "Function1"
           (VDict
              [(PROPERTIES_KEY, VList []);
               (METADATA_KEY, VDict
                  [(ASSET_PATH_METADATA_KEY, VStr "asset.b998895");
                   (ASSET_PROPERTY_METADATA_KEY, VStr "Code")])])
           TypeError eq_refl eq_refl eq_refl).
Defined.

(** X13: on a resource that is a dict, [_replace_property] raises in two
    cases and no other, both with a locator and a value that are there:
    [AttributeError] when the locator is not a string, [TypeError] when
    the locator is a string and the resource has a [Properties] that is
    not a dict. *)
Theorem replace_property_raises_iff (locator path : value) (resource : dict)
    (lid : string) (e : exn) :
  _replace_property locator path (VDict resource) lid = Raise e <->
  truthy locator = true /\ truthy path = true /\
  ((is_string locator = false /\ e = AttributeError) \/
   (is_string locator = true /\ e = TypeError /\
    exists p, PyDict.get PROPERTIES_KEY resource = Some p /\ is_dict p = false)).
Proof.
  rewrite replace_property_closed_form.
  destruct (truthy locator) eqn:Hl, (truthy path) eqn:Hp; cbn [andb];
    try (split; [discriminate | intros (H1 & H2 & _); discriminate]).
  destruct locator as [| | |s| |]; cbn [is_string].
  1-3, 5-6:
    (split;
     [ intros H; injection H as <-; split; [reflexivity|]; split; [reflexivity|];
       left; auto
     | intros (_ & _ & [[_ ->]|[H _]]); [reflexivity | discriminate] ]).
  destruct (PyDict.get PROPERTIES_KEY resource) as [[| | | | |properties]|] eqn:Hg.
  1-5:
    (split;
     [ intros H; injection H as <-; split; [reflexivity|]; split; [reflexivity|];
       right; split; [reflexivity|]; split; [reflexivity|];
       eexists; split; [reflexivity | reflexivity]
     | intros (_ & _ & [[H _]|(_ & -> & _)]); [discriminate | reflexivity] ]).
  - split; [discriminate|].
    intros (_ & _ & [[H _]|(_ & _ & p & Hp' & Hd)]); [discriminate|].
    injection Hp' as <-. discriminate.
  - split; [discriminate|].
    intros (_ & _ & [[H _]|(_ & _ & p & Hp' & _)]); discriminate.
Qed.

(** X14: on metadata that is a dict, [_extract_image_asset_metadata]
    returns exactly when the asset path is absent or a string and the
    dockerfile path is there and a string; otherwise it raises
    [TypeError].  What it returns has the three image keys in order, the
    build args being those of the metadata, or an empty dict. *)
Theorem extract_image_asset_metadata_returns_iff (md : dict) :
  (absent_or is_string (PyDict.get ASSET_PATH_METADATA_KEY md)
   && is_string (lookup ASSET_DOCKERFILE_PATH_KEY VNone md) = true ->
   exists dockerfile context,
     _extract_image_asset_metadata (VDict md) =
     Ok [(SAM_METADATA_DOCKERFILE_KEY, VStr dockerfile);
         (SAM_METADATA_DOCKER_CONTEXT_KEY, VStr context);
         (SAM_METADATA_DOCKER_BUILD_ARGS_KEY,
          lookup ASSET_DOCKERFILE_BUILD_ARGS_KEY (VDict []) md)]) /\
  (absent_or is_string (PyDict.get ASSET_PATH_METADATA_KEY md)
   && is_string (lookup ASSET_DOCKERFILE_PATH_KEY VNone md) = false ->
   _extract_image_asset_metadata (VDict md) = Raise TypeError).
Proof.
  rewrite extract_image_asset_metadata_dict.
  assert (Hap : absent_or is_string (PyDict.get ASSET_PATH_METADATA_KEY md)
                = is_string (lookup ASSET_PATH_METADATA_KEY (VStr "") md)).
  { unfold lookup. destruct (PyDict.get ASSET_PATH_METADATA_KEY md); reflexivity. }
  rewrite Hap.
  destruct (lookup ASSET_PATH_METADATA_KEY (VStr "") md) as [| | |a| |];
    cbn [is_string andb py_path bind];
    try (split; [discriminate | reflexivity]);
    (destruct (lookup ASSET_DOCKERFILE_PATH_KEY VNone md) as [| | |f| |];
     cbn [is_string py_path bind];
     try (split; [discriminate | reflexivity]);
     (split; [intros _; eexists _, _; reflexivity | discriminate])).
Qed.

Lemma extract_image_asset_metadata_returns_iff_witness :
  exists dockerfile context,
    _extract_image_asset_metadata (VDict Samples.image_metadata) =
    Ok [(SAM_METADATA_DOCKERFILE_KEY, VStr dockerfile);
        (SAM_METADATA_DOCKER_CONTEXT_KEY, VStr context);
        (SAM_METADATA_DOCKER_BUILD_ARGS_KEY, VDict [("A", VStr "1")])].
Proof.
  exact (proj1 (extract_image_asset_metadata_returns_iff Samples.image_metadata) eq_refl).
Defined.

Lemma get_absent (k : string) (d : dict) :
  ~ In k (PyDict.keys d) -> PyDict.get k d = None.
Proof.
  induction d as [|[k0 v] d IH]; [reflexivity|].
  cbn. intros Hn. destruct (String.eqb k0 k) eqn:E.
  - apply String.eqb_eq in E. tauto.
  - apply IH. tauto.
Qed.

Lemma update_get (md updated : dict) (k : string) :
  NoDup (PyDict.keys updated) ->
  PyDict.get k (PyDict.update md updated) =
  match PyDict.get k updated with
  | Some v => Some v
  | None => PyDict.get k md
  end.
Proof.
  unfold PyDict.update. revert md.
  induction updated as [|[k0 v0] u IH]; intros md Hnd; [reflexivity|].
  cbn in Hnd. apply NoDup_cons_iff in Hnd as [Hnin Hnd].
  cbn [fold_left fst snd PyDict.get]. rewrite (IH _ Hnd), get_set.
  destruct (String.eqb k0 k) eqn:E; [|reflexivity].
  apply String.eqb_eq in E; subst k0.
  rewrite (get_absent _ _ Hnin). reflexivity.
Qed.

(** X15: [_update_resource_metadata] on a dict merges: with the keys of
    the update distinct, as those of a dict are, every key of the update
    is bound to its new value afterwards, and every other key keeps the
    entry it had. *)
Theorem update_resource_metadata_merges (md updated : dict) :
  NoDup (PyDict.keys updated) ->
  exists md',
    _update_resource_metadata (VDict md) updated = Ok (VDict md') /\
    (forall k v, PyDict.get k updated = Some v -> PyDict.get k md' = Some v) /\
    (forall k, PyDict.get k updated = None -> PyDict.get k md' = PyDict.get k md).
Proof.
  intros Hnd. exists (PyDict.update md updated).
  split; [apply update_resource_metadata_dict|].
  split; intros k; [intros v|]; intros Hk; rewrite (update_get _ _ _ Hnd), Hk;
    reflexivity.
Qed.

Lemma update_resource_metadata_merges_witness :
  exists md',
    _update_resource_metadata
      (VDict [("Dockerfile", VStr "old"); (ASSET_PATH_METADATA_KEY, VStr "src/")])
      [("Dockerfile", VStr "Dockerfile"); ("DockerContext", VStr "src")]
    = Ok (VDict md') /\
    PyDict.get "Dockerfile" md' = Some (VStr "Dockerfile") /\
    PyDict.get ASSET_PATH_METADATA_KEY md' = Some (VStr "src/").
Proof.
  destruct (update_resource_metadata_merges
              [("Dockerfile", VStr "old"); (ASSET_PATH_METADATA_KEY, VStr "src/")]
              [("Dockerfile", VStr "Dockerfile"); ("DockerContext", VStr "src")])
    as (md' & H1 & H2 & H3).
  - apply NoDup_cons; [|apply NoDup_cons; [|apply NoDup_nil]].
    + intros [H|[]]. discriminate H.
    + intros [].
  - exists md'. split; [exact H1|]. split.
    + apply H2. reflexivity.
    + rewrite H3 by reflexivity. reflexivity.
Defined.

Lemma replace_property_raises_iff_witness :
  _replace_property (VInt 5) (VStr "asset") (VDict []) "Function1"
    = Raise AttributeError.
Proof.
  apply (proj2 (replace_property_raises_iff (VInt 5) (VStr "asset") []
                  "Function1" AttributeError)).
  split; [reflexivity|]. split; [reflexivity|]. left. split; reflexivity.
Defined.

(** ** Running twice *)

Lemma resource_outcome_again (lid : string) (rd md : dict) (r' : value)
    (l : list log_record) :
  resource_outcome lid rd md = Ok (r', l) ->
  exists rd' md',
    r' = VDict rd' /\ PyDict.get METADATA_KEY rd' = Some (VDict md') /\
    resource_outcome lid rd' md' = Ok (r', l).
Proof.
  unfold resource_outcome at 1.
  destruct (marked md) eqn:Hm.
  - intros H. injection H as <- <-.
    eexists _, (propagate_skip_build md). split; [reflexivity|].
    split; [apply get_set_same|].
    eapply resource_outcome_marked; [| apply propagate_skip_build_idem | reflexivity].
    rewrite marked_propagate_skip_build. exact Hm.
  - destruct (image_base md) as [base|e] eqn:Hb; [|discriminate]. cbn [bind].
    destruct (truthy (asset_property_of md) && truthy (asset_path_of lid md)) eqn:Hboth.
    + assert (Hdone : forall rd0,
        resource_outcome lid
          (PyDict.set METADATA_KEY
             (VDict (propagate_skip_build (PyDict.set SAM_IS_NORMALIZED (VBool true) base)))
             rd0)
          (propagate_skip_build (PyDict.set SAM_IS_NORMALIZED (VBool true) base))
        = Ok (with_metadata
                (propagate_skip_build (PyDict.set SAM_IS_NORMALIZED (VBool true) base))
                rd0, [])).
      { intros rd0. eapply resource_outcome_marked;
          [| apply propagate_skip_build_idem | reflexivity].
        rewrite marked_propagate_skip_build. apply marked_set_normalized. }
      destruct (asset_property_of md) as [| | |s| |]; try discriminate.
      destruct (PyDict.get PROPERTIES_KEY rd) as [[| | | | |properties]|];
        try discriminate; intros H; injection H as <- <-;
        eexists _, _; (split; [reflexivity|]); (split; [apply get_set_same|]);
        apply Hdone.
    + intros H. injection H as <- <-.
      destruct (asset_reads_stable lid md base Hb) as (Hm' & Hp' & Ha').
      eexists _, (propagate_skip_build base). split; [reflexivity|].
      split; [apply get_set_same|].
      unfold resource_outcome. rewrite Hm', Hm.
      rewrite (image_base_stable md base Hb). cbn [bind].
      rewrite Hp', Ha', Hboth, propagate_skip_build_idem.
      unfold with_metadata. rewrite set_set. reflexivity.
Qed.

Lemma normalize_resource_again (lid : string) (r r' : value) (l : list log_record) :
  normalize_resource lid r = Ok (r', l) -> normalize_resource lid r' = Ok (r', l).
Proof.
  intros H. apply normalize_resource_inv in H as (rd & -> & [(Hmd & -> & ->)|(md & Hmd & H)]).
  - apply normalize_resource_no_metadata. exact Hmd.
  - apply resource_outcome_again in H as (rd' & md' & -> & Hmd' & H).
    rewrite (normalize_resource_closed_form lid rd' md' Hmd'). exact H.
Qed.

Lemma normalize_resources_again (rs rs' : dict) (logs : list log_record) :
  normalize_resources rs = Ok (rs', logs) -> normalize_resources rs' = Ok (rs', logs).
Proof.
  revert rs' logs. induction rs as [|[k v] rs IH]; intros rs' logs H.
  - injection H as <- <-. reflexivity.
  - cbn [normalize_resources] in H.
    inv_bind H. destruct a as [v' l1]. inv_bind H. destruct a as [rest l2].
    injection H as <- <-.
    cbn [normalize_resources].
    rewrite (normalize_resource_again _ _ _ _ Ha). cbn [bind].
    rewrite (IH _ _ Ha0). reflexivity.
Qed.

(** X16: a run of the resource pass on a template that [normalize] has
    returned gives the template back as it is and logs the diagnostics of
    the first run over again: a resource left unmarked for want of a
    locator or a path is reported on every run. *)
Theorem second_run_repeats_diagnostics (is_cdk_project : value -> bool)
    (T T' : value) (np : bool) (logs : list log_record) :
  normalize is_cdk_project T np = Ok (T', logs) ->
  normalize is_cdk_project T' false = Ok (T', logs).
Proof.
  intros H. apply normalize_inv in H as (t & t' & -> & -> & H).
  rewrite normalize_closed_form. cbn [andb]. unfold lookup, after_resources.
  destruct (PyDict.get RESOURCES_KEY t) as [rv|].
  - destruct H as (rs & rs' & -> & Hn & Hres). rewrite Hres.
    cbn [py_items bind]. rewrite (normalize_resources_again _ _ _ Hn). cbn [bind].
    rewrite set_noop by exact Hres. reflexivity.
  - destruct H as (Hres & ->). rewrite Hres. reflexivity.
Qed.

Lemma second_run_repeats_diagnostics_witness :
  exists T',
    normalize (fun _ => true) Samples.path_without_locator true
      = Ok (T', [LogIgnoringMetadata "Function1"]) /\
    normalize (fun _ => true) T' false = Ok (T', [LogIgnoringMetadata "Function1"]).
Proof.
  eexists. split; [reflexivity|].
  exact (second_run_repeats_diagnostics (fun _ => true) Samples.path_without_locator
           _ true _ eq_refl).
Defined.

(** * Further properties of the resource identity *)

Lemma split_length_has_char (c : ascii) (s : string) :
  (List.length (PyStr.split c s) <? 2)%nat = negb (has_char c s).
Proof.
  induction s as [|a s IH]; [reflexivity|].
  cbn [PyStr.split has_char].
  destruct (Ascii.eqb a c); cbn [orb negb].
  - destruct (PyStr.split c s) eqn:E; [exfalso; eapply split_not_nil; exact E|].
    reflexivity.
  - destruct (PyStr.split c s) eqn:E; [exfalso; eapply split_not_nil; exact E|].
    exact IH.
Qed.

(** X17: [get_resource_id] raises exactly when the resource is not a
    dict or has a [Metadata] that is not a dict, and what it raises then
    is [AttributeError]; a resource without [Metadata] gets an id. *)
Theorem get_resource_id_raises_iff (rp : value) (lid : string) (e : exn) :
  get_resource_id rp lid = Raise e <-> metadata_of rp = None /\ e = AttributeError.
Proof.
  destruct (metadata_of rp) as [md|] eqn:Hmd.
  - rewrite (get_resource_id_closed_form rp lid md Hmd).
    split; [|intros [H _]; discriminate].
    destruct (customer_id md); [discriminate|].
    destruct (construct_path md); [|discriminate].
    cbv zeta. destruct (_ <? 2)%nat; discriminate.
  - unfold metadata_of in Hmd. unfold get_resource_id.
    destruct rp as [| | | | |rd];
      try (cbn; split; [intros H; injection H as <-; auto | intros [_ ->]; reflexivity]).
    unfold py_get at 1. change "Metadata" with METADATA_KEY.
    destruct (PyDict.get METADATA_KEY rd) as [[| | | | |md]|]; try discriminate;
      cbn; (split; [intros H; injection H as <-; auto | intros [_ ->]; reflexivity]).
Qed.

Lemma get_resource_id_raises_iff_witness :
  get_resource_id (VDict [("Type", VStr "AWS::S3::Bucket"); (METADATA_KEY, VNone)])
    "Bucket1" = Raise AttributeError.
Proof.
  apply (proj2 (get_resource_id_raises_iff
                  (VDict [("Type", VStr "AWS::S3::Bucket"); (METADATA_KEY, VNone)])
                  "Bucket1" AttributeError)).
  split; reflexivity.
Defined.

(** X18: [get_resource_id] logs in one case only: without a
    customer-defined id, a construct path that is a non-empty string
    without a slash is reported, and the logical id returned.  An absent,
    empty or non-string construct path falls back to the logical id
    silently, and nothing is logged when an id is found. *)
Theorem get_resource_id_diagnostic (rp : value) (lid : string) (md : dict) :
  metadata_of rp = Some md ->
  exists id logs,
    get_resource_id rp lid = Ok (id, logs) /\
    (forall path,
       customer_id md = None -> construct_path md = Some path ->
       has_char "/" path = false ->
       id = lid /\ logs = [LogUndetectedId path]) /\
    (customer_id md = None -> construct_path md = None ->
     id = lid /\ logs = []) /\
    (customer_id md <> None \/
     (exists path, construct_path md = Some path /\ has_char "/" path = true) ->
     logs = []).
Proof.
  intros Hmd. rewrite (get_resource_id_closed_form rp lid md Hmd).
  destruct (customer_id md) as [id|].
  { eexists _, _. split; [reflexivity|]. split; [discriminate|].
    split; [discriminate|]. reflexivity. }
  destruct (construct_path md) as [path|].
  - cbv zeta. rewrite split_length_has_char.
    destruct (has_char "/" path) eqn:Hc; cbn [negb];
      eexists _, _; (split; [reflexivity|]).
    + split; [intros p _ E; injection E as <-; congruence|].
      split; [discriminate|]. reflexivity.
    + split; [intros p _ E _; injection E as <-; auto|].
      split; [discriminate|].
      intros [H|(p & E & Hp)]; [congruence|]. injection E as <-. congruence.
  - eexists _, _. split; [reflexivity|]. split; [discriminate|].
    split; [auto|]. reflexivity.
Qed.

Lemma get_resource_id_diagnostic_witness :
  exists id logs,
    get_resource_id (Samples.cdk_function_resource "Resource") "Function1"
      = Ok (id, logs) /\
    id = "Function1" /\ logs = [LogUndetectedId "Resource"].
Proof.
  destruct (get_resource_id_diagnostic (Samples.cdk_function_resource "Resource")
              "Function1" _ eq_refl) as (id & logs & H1 & H2 & _).
  exists id, logs. split; [exact H1|].
  exact (H2 "Resource" eq_refl eq_refl eq_refl).
Defined.

(** * Templates on which [normalize] returns *)

Lemma well_formed_resource_returns (lid : string) (r : value) :
  well_formed_resource r = true ->
  exists r' l, normalize_resource lid r = Ok (r', l).
Proof.
  intros Hwf. destruct r as [| | | | |rd]; try discriminate.
  cbn [well_formed_resource] in Hwf. apply andb_true_iff in Hwf as [Hp Hm].
  destruct (PyDict.get METADATA_KEY rd) as [m|] eqn:Hmd.
  2: { rewrite (normalize_resource_no_metadata lid rd Hmd). eauto. }
  cbn [absent_or] in Hm. destruct m as [| | | | |md]; try discriminate.
  rewrite (normalize_resource_closed_form lid rd md Hmd).
  unfold resource_outcome.
  destruct (marked md); [eauto|].
  unfold well_formed_metadata in Hm. apply andb_true_iff in Hm as [Hloc Himg].
  assert (Hbase : exists base, image_base md = Ok base).
  { unfold image_base.
    destruct (is_str IMAGE_ASSET_PROPERTY (asset_property_of md)); [|eauto].
    cbn [negb orb] in Himg.
    destruct (proj1 (extract_image_asset_metadata_returns_iff md) Himg)
      as (d & c & ->).
    cbn [bind]. eauto. }
  destruct Hbase as (base & ->). cbn [bind].
  destruct (truthy (asset_property_of md) && truthy (asset_path_of lid md)) eqn:Hboth;
    [|eauto].
  unfold asset_property_of, lookup in *.
  destruct (PyDict.get ASSET_PROPERTY_METADATA_KEY md) as [[| | |s| |]|];
    try discriminate.
  destruct (PyDict.get PROPERTIES_KEY rd) as [[| | | | |properties]|];
    try discriminate; eauto.
Qed.

Lemma well_formed_resources_return (rs : dict) :
  forallb (fun kv => well_formed_resource (snd kv)) rs = true ->
  exists rs' logs, normalize_resources rs = Ok (rs', logs).
Proof.
  induction rs as [|[k v] rs IH]; intros Hwf; [cbn; eauto|].
  cbn [forallb snd] in Hwf. apply andb_true_iff in Hwf as [Hv Hrs].
  destruct (well_formed_resource_returns k v Hv) as (v' & l & Hn).
  destruct (IH Hrs) as (rs' & logs & Hns).
  cbn [normalize_resources]. rewrite Hn. cbn [bind]. rewrite Hns. cbn [bind]. eauto.
Qed.

Lemma well_formed_parameters_return (ras : string) (ps : dict) :
  forallb (fun kv => is_dict (snd kv)) ps = true ->
  exists ps', normalize_parameters_loop ras ps = Ok ps'.
Proof.
  induction ps as [|[k v] ps IH]; intros Hwf; [cbn; eauto|].
  cbn [forallb snd] in Hwf. apply andb_true_iff in Hwf as [Hv Hps].
  destruct (IH Hps) as (ps' & Hloop).
  destruct v as [| | | | |pd]; try discriminate.
  assert (Hpv : exists pv', normalize_parameter ras k (VDict pd) = Ok pv').
  { destruct (PyStr.startswith k "AssetParameters") eqn:Hpre.
    - rewrite (normalize_parameter_dict _ _ _ Hpre). eauto.
    - unfold normalize_parameter. rewrite Hpre. eauto. }
  destruct Hpv as (pv' & Hpv).
  cbn [normalize_parameters_loop]. rewrite Hpv. cbn [bind]. rewrite Hloop.
  cbn [bind]. eauto.
Qed.

(** X19: [normalize] returns, with either value of the flag and whatever
    the detection predicate answers, on every template that is a dict
    whose [Resources], when there, is a dict of dicts with [Properties]
    and [Metadata] absent or dicts, the locator absent or a string and,
    for the image locator, the dockerfile path a string and the asset path
    absent or a string, and whose [Parameters], when there, is a dict of
    dicts.  An absent [Resources] or [Parameters] is nothing to do. *)
Theorem well_formed_template_returns (is_cdk_project : value -> bool)
    (T : value) (np : bool) :
  well_formed_template T = true ->
  exists T' logs, normalize is_cdk_project T np = Ok (T', logs).
Proof.
  intros Hwf. destruct T as [| | | | |t]; try discriminate.
  cbn [well_formed_template] in Hwf. apply andb_true_iff in Hwf as [Hrs Hps].
  rewrite normalize_closed_form.
  assert (Hres : exists rs rs' logs,
            py_items (lookup RESOURCES_KEY (VDict []) t) = Ok rs /\
            normalize_resources rs = Ok (rs', logs)).
  { unfold lookup. destruct (PyDict.get RESOURCES_KEY t) as [[| | | | |rs]|];
      try discriminate.
    - cbn [absent_or] in Hrs.
      destruct (well_formed_resources_return rs Hrs) as (rs' & logs & H).
      exists rs, rs', logs. auto.
    - exists [], [], []. auto. }
  destruct Hres as (rs & rs' & logs & -> & Hn). cbn [bind]. rewrite Hn. cbn [bind].
  cbv zeta. destruct (np && is_cdk_project _); [|eauto].
  unfold lookup. rewrite get_after_resources_other by reflexivity.
  destruct (PyDict.get "Parameters" t) as [[| | | | |ps]|]; try discriminate.
  - cbn [absent_or] in Hps.
    destruct (well_formed_parameters_return (Json.dumps (VDict rs')) ps Hps)
      as (ps' & Hloop).
    cbn [py_items bind]. rewrite Hloop. cbn [bind]. eauto.
  - cbn [py_items bind normalize_parameters_loop]. eauto.
Qed.

Lemma well_formed_template_returns_witness :
  exists T' logs,
    normalize (fun _ => true) Samples.cdk_function true = Ok (T', logs).
Proof.
  exact (well_formed_template_returns (fun _ => true) Samples.cdk_function true eq_refl).
Defined.

Lemma parameter_after_pass (is_cdk_project : value -> bool) (t : dict)
    (T1 T' : value) (logs1 logs : list log_record) (name : string) (pd : dict) :
  normalize is_cdk_project (VDict t) false = Ok (T1, logs1) ->
  is_cdk_project T1 = true ->
  normalize is_cdk_project (VDict t) true = Ok (T', logs) ->
  PyStr.startswith name "AssetParameters" = true ->
  parameter_of (VDict t) name = Some (VDict pd) ->
  logs = logs1 /\
  parameter_of T' name =
    Some (VDict (if negb (PyDict.mem "Default" pd)
                    && is_str "String" (lookup "Type" (VStr "") pd)
                    && negb (PyStr.contains (resources_as_string T') (ref_needle name))
                 then PyDict.set "Default" (VStr " ") pd else pd)).
Proof.
  intros H1 Hcdk H Hpre Hp.
  rewrite normalize_closed_form in H1, H.
  inv_bind H. rename a into rs. rewrite Ha in H1. cbn [bind] in H1.
  inv_bind H. destruct a as [rs' l]. rewrite Ha0 in H1. cbn [bind andb] in H1.
  cbv zeta in H1, H.
  injection H1 as <- <-. cbn [andb] in H. rewrite Hcdk in H.
  inv_bind H. rename a into ps. inv_bind H. rename a into ps'.
  injection H as <- <-. split; [reflexivity|].
  unfold parameter_of, parameters_of, section_of in Hp.
  destruct (PyDict.get "Parameters" t) as [[| | | | |ps0]|] eqn:Hps; try discriminate.
  unfold lookup in Ha1. rewrite get_after_resources_other in Ha1 by reflexivity.
  rewrite Hps in Ha1. injection Ha1 as <-.
  destruct (normalize_parameters_loop_get _ _ _ _ _ Ha2 Hp) as (pv' & Hpv & Hget).
  rewrite (normalize_parameter_dict _ _ _ Hpre) in Hpv. injection Hpv as <-.
  assert (Hras : resources_as_string (VDict (after_parameters (after_resources t rs') ps'))
                 = Json.dumps (VDict rs')).
  { unfold resources_as_string, resources_of, section_of.
    rewrite get_after_parameters by reflexivity. rewrite get_after_resources.
    unfold lookup in Ha.
    destruct (PyDict.get RESOURCES_KEY t) as [rv|]; [reflexivity|].
    injection Ha as <-. injection Ha0 as <- _. reflexivity. }
  rewrite Hras.
  unfold parameter_of, parameters_of, section_of, after_parameters.
  rewrite get_after_resources_other by reflexivity. rewrite Hps.
  rewrite get_set_same. exact Hget.
Qed.

(** X20: a template without [Resources] comes back from the resource
    pass as it is and nothing is logged; with the flag, on a detected
    template, the scan then runs on the serialization of an empty dict and
    finds no reference, so that every [AssetParameters] parameter of type
    [String] without a [Default] gets one. *)
Theorem template_without_resources (is_cdk_project : value -> bool)
    (t : dict) (name : string) (pd : dict) :
  PyDict.get RESOURCES_KEY t = None ->
  normalize is_cdk_project (VDict t) false = Ok (VDict t, []) /\
  (is_cdk_project (VDict t) = true ->
   forall T' logs,
     normalize is_cdk_project (VDict t) true = Ok (T', logs) ->
     PyStr.startswith name "AssetParameters" = true ->
     parameter_of (VDict t) name = Some (VDict pd) ->
     PyDict.mem "Default" pd = false ->
     is_str "String" (lookup "Type" (VStr "") pd) = true ->
     logs = [] /\
     parameter_of T' name = Some (VDict (PyDict.set "Default" (VStr " ") pd))).
Proof.
  intros Hr.
  assert (H0 : normalize is_cdk_project (VDict t) false = Ok (VDict t, [])).
  { rewrite normalize_closed_form. unfold lookup, after_resources. rewrite Hr.
    reflexivity. }
  split; [exact H0|].
  intros Hcdk T' logs H Hpre Hp Hdef Htype.
  destruct (parameter_after_pass is_cdk_project t (VDict t) T'
              [] logs name pd H0 Hcdk H Hpre Hp) as (Hlogs & Hparam).
  split; [exact Hlogs|].
  rewrite Hparam, Hdef, Htype. cbn [negb andb].
  assert (Hnone : resources_of T' = None).
  { apply normalize_inv in H as (t0 & t' & E & -> & H). injection E as <-.
    rewrite Hr in H. destruct H as (Hres & _).
    unfold resources_of, section_of. rewrite Hres. reflexivity. }
  unfold resources_as_string. rewrite Hnone.
  assert (Hscan : PyStr.contains (Json.dumps (VDict [])) (ref_needle name) = false).
  { unfold ref_needle. reflexivity. }
  rewrite Hscan. reflexivity.
Qed.

Lemma template_without_resources_witness :
  exists T',
    normalize (fun _ => true)
      (VDict [("Parameters", VDict [("AssetParametersA", VDict [("Type", VStr "String")])])])
      true = Ok (T', []) /\
    parameter_of T' "AssetParametersA"
      = Some (VDict [("Type", VStr "String"); ("Default", VStr " ")]).
Proof.
  eexists. split; [reflexivity|].
  exact (proj2 (proj2 (template_without_resources (fun _ => true)
                  [("Parameters", VDict [("AssetParametersA", VDict [("Type", VStr "String")])])]
                  "AssetParametersA" [("Type", VStr "String")] eq_refl)
                  eq_refl _ [] eq_refl eq_refl eq_refl eq_refl eq_refl)).
Defined.

(** X21: an [AssetParameters] parameter whose definition is not a dict
    passes the parameter pass only when it is a string or a list that
    contains ["Default"], and then unchanged; any other definition that is
    not a dict makes [normalize] raise.  So when the pass has run and
    [normalize] has returned, every such parameter is a dict or comes back
    as it was. *)
Theorem prefixed_parameter_shapes (is_cdk_project : value -> bool)
    (T T1 T' : value) (logs1 logs : list log_record) (name : string) (pv : value) :
  normalize is_cdk_project T false = Ok (T1, logs1) ->
  is_cdk_project T1 = true ->
  normalize is_cdk_project T true = Ok (T', logs) ->
  PyStr.startswith name "AssetParameters" = true ->
  parameter_of T name = Some pv ->
  is_dict pv = true \/
  (py_contains pv "Default" = Ok true /\ parameter_of T' name = Some pv).
Proof.
  intros H1 Hcdk H Hpre Hp.
  destruct (normalize_dict _ _ _ _ _ H) as (t & ->).
  apply normalize_phases in H as (rs' & Hfalse & H).
  rewrite Hfalse in H1. injection H1 as <- <-.
  cbn [andb] in H. rewrite Hcdk in H. destruct H as (ps & ps' & Hitems & Hloop & ->).
  unfold parameter_of, parameters_of, section_of in Hp.
  destruct (PyDict.get "Parameters" t) as [[| | | | |ps0]|] eqn:Hps; try discriminate.
  unfold lookup in Hitems. rewrite get_after_resources_other in Hitems by reflexivity.
  rewrite Hps in Hitems. injection Hitems as <-.
  destruct (normalize_parameters_loop_get _ _ _ _ _ Hloop Hp) as (pv' & Hpv & Hget).
  assert (Hof : parameter_of (VDict (after_parameters (after_resources t rs') ps')) name
                = Some pv').
  { unfold parameter_of, parameters_of, section_of, after_parameters.
    rewrite get_after_resources_other by reflexivity. rewrite Hps.
    rewrite get_set_same. exact Hget. }
  unfold normalize_parameter in Hpv. rewrite Hpre in Hpv.
  destruct pv as [| | |s|l|pd]; try discriminate; [| |left; reflexivity];
    right; cbn [py_contains bind] in Hpv |- *.
  - destruct (PyStr.contains s "Default"); [|discriminate].
    injection Hpv as <-. auto.
  - destruct (existsb (is_str "Default") l); [|discriminate].
    injection Hpv as <-. auto.
Qed.

Lemma prefixed_parameter_shapes_witness :
  is_dict (VDict [("Type", VStr "Number")]) = true \/
  (py_contains (VDict [("Type", VStr "Number")]) "Default" = Ok true /\
   parameter_of
     (VDict [("Parameters", VDict
                [("Stage", VStr "prod");
                 ("AssetParametersA", VDict [("Type", VStr "String"); ("Default", VStr " ")]);
                 ("AssetParametersB", VDict [("Type", VStr "Number")])]);
             (RESOURCES_KEY, VDict [("Bucket1", VDict [("Type", VStr "AWS::S3::Bucket")])])])
     "AssetParametersB" = Some (VDict [("Type", VStr "Number")])).
Proof.
  exact (prefixed_parameter_shapes (fun _ => true) Samples.mixed_parameters
           Samples.mixed_parameters _ [] [] "AssetParametersB" _
           eq_refl eq_refl eq_refl eq_refl eq_refl).
Defined.

(** * Diagnostics *)

Lemma normalize_resource_log_inv (lid : string) (r r' : value)
    (l : list log_record) (x : log_record) :
  normalize_resource lid r = Ok (r', l) -> In x l ->
  x = LogIgnoringMetadata lid /\
  exists md,
    metadata_of r = Some md /\ marked md = false /\
    xorb (truthy (asset_property_of md)) (truthy (asset_path_of lid md)) = true.
Proof.
  intros H Hin.
  pose proof H as H0.
  apply normalize_resource_inv in H0 as (rd & -> & [(_ & _ & ->)|(md & Hmd & H0)]);
    [contradiction|].
  assert (Hmeta : metadata_of (VDict rd) = Some md).
  { unfold metadata_of. rewrite Hmd. reflexivity. }
  destruct (marked md) eqn:Hm.
  { destruct (normalize_resource_skips _ _ _ _ _ H Hmeta Hm) as (_ & _ & ->).
    contradiction. }
  destruct (truthy (asset_property_of md) && truthy (asset_path_of lid md)) eqn:Hboth.
  { destruct (normalize_resource_rewrites _ _ _ _ _ H Hmeta Hm Hboth)
      as (_ & _ & _ & _ & _ & _ & -> & _).
    contradiction. }
  destruct (normalize_resource_ignores _ _ _ _ _ H Hmeta Hm Hboth)
    as (_ & _ & _ & _ & ->).
  destruct (truthy (asset_property_of md)) eqn:E1,
           (truthy (asset_path_of lid md)) eqn:E2;
    try discriminate; try contradiction;
    (destruct Hin as [<-|[]]; split; [reflexivity|]; exists md;
     rewrite E1, E2; auto).
Qed.

(** X22: [normalize] logs nothing but the diagnostic of
    [_replace_property], and each record it logs names a declared
    resource that is not marked and has exactly one of the locator and
    the path to substitute. *)
Theorem diagnostics_are_justified (is_cdk_project : value -> bool)
    (T T' : value) (np : bool) (logs : list log_record) (x : log_record) :
  normalize is_cdk_project T np = Ok (T', logs) ->
  In x logs ->
  exists rs lid r md,
    resources_of T = Some rs /\ In (lid, r) rs /\
    x = LogIgnoringMetadata lid /\
    metadata_of r = Some md /\ marked md = false /\
    xorb (truthy (asset_property_of md)) (truthy (asset_path_of lid md)) = true.
Proof.
  intros H Hin. apply normalize_inv in H as (t & t' & -> & -> & H).
  destruct (PyDict.get RESOURCES_KEY t) as [rv|] eqn:Hr.
  2: { destruct H as (_ & ->). contradiction. }
  destruct H as (rs & rs' & -> & Hn & _).
  exists rs.
  assert (Hgen : exists lid r md,
            In (lid, r) rs /\ x = LogIgnoringMetadata lid /\
            metadata_of r = Some md /\ marked md = false /\
            xorb (truthy (asset_property_of md)) (truthy (asset_path_of lid md)) = true).
  { clear Hr. revert rs' logs Hn Hin.
    induction rs as [|[k v] rs IH]; intros rs' logs Hn Hin.
    - injection Hn as _ <-. contradiction.
    - cbn [normalize_resources] in Hn.
      inv_bind Hn. destruct a as [v' l1]. inv_bind Hn. destruct a as [rest l2].
      injection Hn as _ <-. apply in_app_or in Hin as [Hin|Hin].
      + destruct (normalize_resource_log_inv _ _ _ _ _ Ha Hin) as (-> & md & H1 & H2 & H3).
        exists k, v, md. split; [left; reflexivity|]. auto.
      + destruct (IH _ _ Ha0 Hin) as (lid & r & md & H0 & H1).
        exists lid, r, md. split; [right; exact H0 | exact H1]. }
  destruct Hgen as (lid & r & md & H0 & H1).
  exists lid, r, md. split; [|auto].
  unfold resources_of, section_of. rewrite Hr. reflexivity.
Qed.

Lemma diagnostics_are_justified_witness :
  exists rs lid r md,
    resources_of Samples.path_without_locator = Some rs /\ In (lid, r) rs /\
    LogIgnoringMetadata "Function1" = LogIgnoringMetadata lid /\
    metadata_of r = Some md /\ marked md = false /\
    xorb (truthy (asset_property_of md)) (truthy (asset_path_of lid md)) = true.
Proof.
  exact (diagnostics_are_justified (fun _ => false) Samples.path_without_locator
           Samples.path_without_locator false [LogIgnoringMetadata "Function1"]
           (LogIgnoringMetadata "Function1") eq_refl (or_introl eq_refl)).
Defined.

(** * The asset rewrite where the resource has [Properties] *)

(** X23: for a resource that is not marked, has a locator and a path to
    substitute, and has a [Properties] dict, following the segments of the
    locator through [Properties] after [normalize] reaches the path, be
    the locator one segment or several, and no diagnostic is logged for
    the resource's iteration. *)
Theorem locator_leads_to_asset_path (is_cdk_project : value -> bool)
    (T T' : value) (np : bool) (logs : list log_record)
    (lid : string) (r : value) (md properties : dict) (s : string) :
  normalize is_cdk_project T np = Ok (T', logs) ->
  resource_of T lid = Some r ->
  metadata_of r = Some md -> marked md = false ->
  asset_property_of md = VStr s ->
  truthy (VStr s) && truthy (asset_path_of lid md) = true ->
  field PROPERTIES_KEY r = Some (VDict properties) ->
  exists properties',
    properties_of T' lid = Some (VDict properties') /\
    follow (PyStr.split "." s) (VDict properties') = Some (asset_path_of lid md) /\
    exists r', normalize_resource lid r = Ok (r', []).
Proof.
  intros H Hr Hmd Hm Hs Hboth Hp. rewrite <- Hs in Hboth.
  destruct (normalize_rewrites_properties _ _ _ _ _ _ _ _ _ H Hr Hmd Hm Hboth Hp)
    as (s' & properties0 & r' & Hs' & E & Hr' & Hp' & _).
  rewrite Hs in Hs'. injection Hs' as <-. injection E as <-.
  eexists. rewrite (properties_of_resource _ _ _ Hr'). split; [exact Hp'|].
  split; [apply follow_rewritten_properties|].
  destruct (normalize_resource_of _ _ _ _ _ _ _ H Hr) as (r'' & l & Hn & _).
  destruct (normalize_resource_rewrites _ _ _ _ _ Hn Hmd Hm Hboth)
    as (_ & _ & _ & _ & _ & _ & -> & _).
  exists r''. exact Hn.
Qed.

Lemma locator_leads_to_asset_path_witness :
  exists T' properties',
    normalize (fun _ => false) Samples.bundled_function false = Ok (T', []) /\
    properties_of T' "Function1" = Some (VDict properties') /\
    follow ["Code"] (VDict properties') = Some (VStr "asset.b998895").
Proof.
  eexists.
  destruct (locator_leads_to_asset_path (fun _ => false) Samples.bundled_function _
              false [] "Function1" _ _ _ "Code"
              eq_refl eq_refl eq_refl eq_refl eq_refl eq_refl eq_refl)
    as (properties' & H1 & H2 & _).
  exists properties'. split; [reflexivity|]. auto.
Defined.

(** * Image assets beside their dockerfile *)

Lemma split_without_separator (c : ascii) (s : string) :
  has_char c s = false -> PyStr.split c s = [s].
Proof.
  induction s as [|a s IH]; [reflexivity|].
  cbn [has_char PyStr.split]. intros H. apply orb_false_iff in H as [Ha Hs].
  rewrite Ha, (IH Hs). reflexivity.
Qed.

(** X24: when the dockerfile path is a bare file name, without a slash
    and neither empty nor a dot, the docker context that
    [_extract_image_asset_metadata] records is the asset path as [Path]
    writes it, ["."] when the metadata has no asset path. *)
Theorem docker_context_beside_dockerfile (md : dict) (a f : string) :
  lookup ASSET_PATH_METADATA_KEY (VStr "") md = VStr a ->
  PyDict.get ASSET_DOCKERFILE_PATH_KEY md = Some (VStr f) ->
  has_char "/" f = false -> f <> "" -> f <> "." ->
  exists entries,
    _extract_image_asset_metadata (VDict md) = Ok entries /\
    PyDict.get SAM_METADATA_DOCKER_CONTEXT_KEY entries
      = Some (VStr (PurePath.to_string (PurePath.parse a))) /\
    (a = "" ->
     PyDict.get SAM_METADATA_DOCKER_CONTEXT_KEY entries = Some (VStr ".")).
Proof.
  intros Ha Hf Hslash Hne Hdot.
  assert (Hparent : PurePath.parent (PurePath.of_segments f "")
                    = {| PurePath.root := ""; PurePath.parts := [] |}).
  { unfold PurePath.of_segments, PurePath.joinpath, PurePath.parent, PurePath.parse.
    cbn [PurePath.root PurePath.parts String.eqb].
    rewrite (split_without_separator "/" f Hslash).
    cbn [filter PyStr.split PurePath.is_component].
    apply String.eqb_neq in Hne, Hdot. unfold PurePath.is_component.
    rewrite Hne, Hdot. cbn [negb andb app removelast].
    destruct f as [|c f]; [discriminate|].
    cbn [has_char] in Hslash. apply orb_false_iff in Hslash as [Hc _].
    unfold prefix.
    destruct (ascii_dec "/" c) as [E|_]; [|reflexivity].
    subst c. discriminate Hc. }
  assert (Hjoin : forall p, PurePath.joinpath p {| PurePath.root := ""; PurePath.parts := [] |}
                            = p).
  { intros [rt ps]. unfold PurePath.joinpath. cbn. rewrite app_nil_r. reflexivity. }
  rewrite extract_image_asset_metadata_dict. rewrite Ha. unfold lookup at 1.
  rewrite Hf. cbn [py_path bind]. cbv zeta. rewrite Hparent, Hjoin.
  eexists. split; [reflexivity|].
  split; [reflexivity|]. intros ->. reflexivity.
Qed.

Lemma docker_context_beside_dockerfile_witness :
  exists entries,
    _extract_image_asset_metadata
      (VDict [(ASSET_PATH_METADATA_KEY, VStr "asset.b998895/");
              (ASSET_DOCKERFILE_PATH_KEY, VStr "Dockerfile")]) = Ok entries /\
    PyDict.get SAM_METADATA_DOCKER_CONTEXT_KEY entries = Some (VStr "asset.b998895").
Proof.
  destruct (docker_context_beside_dockerfile
              [(ASSET_PATH_METADATA_KEY, VStr "asset.b998895/");
               (ASSET_DOCKERFILE_PATH_KEY, VStr "Dockerfile")]
              "asset.b998895/" "Dockerfile" eq_refl eq_refl eq_refl)
    as (entries & H1 & H2 & _); try discriminate.
  exists entries. split; [exact H1 | exact H2].
Defined.
